(** * CodeAI-Pak: the client glue code, embedded and verified

    The development follows the three client programs of the repository:

    - [Dashboard] — the React dashboard component of
      [codeai-frontend/src/AuthPage.jsx] (second half of the file): code
      input, the four analysis handlers, the result store and the result
      views;
    - [Auth] — the [AuthPage] component of the same file together with the
      [user] state of [App] ([codeai-frontend/src/App.jsx]);
    - [Legacy] — the dashboard script [CodeAI-main/static/script.js]: the
      upload form and the translate button.

    JavaScript values are a small inductive type; an [async] handler is a
    resumption ([Task]): the synchronous segment up to the next [await] is a
    function on the component state, and what follows the [await] is a
    continuation that receives the settled value and the state of that later
    moment. *)

From Stdlib Require Import ZArith NArith.
From stdpp Require Import gmap strings list fin_maps pretty.

Open Scope string_scope.
Open Scope list_scope.
Set Warnings "-register-all".

(** ** JavaScript values *)

Module JS.

(** Values as [JSON.parse] produces them, plus [undefined].  Numbers are the
    integers from [-2^53] to [2^53], the range in which a numeral of JSON,
    the number it parses to and the digits that number prints as are one and
    the same; a [JNum] outside that range stands for no value of the program.
    An object lists its own properties, a repeated key being read at its
    first binding. *)
Inductive value : Type :=
| JUndef : value
| JNull : value
| JBool : bool -> value
| JNum : Z -> value
| JStr : string -> value
| JArr : list value -> value
| JObj : list (string * value) -> value.

(** [!!v] is [false] exactly when [truthy v]. *)
Definition truthy (v : value) : bool :=
  match v with
  | JUndef | JNull => false
  | JBool b => b
  | JNum z => negb (z =? 0)%Z
  | JStr s => negb (String.eqb s "")
  | JArr _ | JObj _ => true
  end.

(** [v == null]: the values on which a property read throws. *)
Definition nullish (v : value) : bool :=
  match v with
  | JUndef | JNull => true
  | _ => false
  end.

Fixpoint assoc (k : string) (ps : list (string * value)) : value :=
  match ps with
  | [] => JUndef
  | (k', v) :: ps' => if String.eqb k k' then v else assoc k ps'
  end.

(** [v.k] for a key [k] that is not a builtin of the value's prototype:
    [None] is the [TypeError] of reading a property of [null] or
    [undefined]. *)
Definition get (v : value) (k : string) : option value :=
  match v with
  | JUndef | JNull => None
  | JObj ps => Some (assoc k ps)
  | _ => Some JUndef
  end.

(** [a || b] *)
Definition or_else (a b : value) : value := if truthy a then a else b.

(** [sep.join] over already converted elements. *)
Fixpoint join_strings (sep : string) (ss : list string) : string :=
  match ss with
  | [] => ""
  | [s] => s
  | s :: ss' => s ++ sep ++ join_strings sep ss'
  end.

(** [k] is among the own properties of the object. *)
Fixpoint has_key (k : string) (ps : list (string * value)) : bool :=
  match ps with
  | [] => false
  | (k', _) :: ps' => String.eqb k k' || has_key k ps'
  end.

(** [ToString(v)], the conversion behind [String(v)], a template literal
    and an assignment to [textContent]: [None] is the [TypeError] it throws.
    An array is joined with commas, [null] and [undefined] elements giving
    the empty string.  An object is converted by the [toString] it
    inherits, unless a property of its own hides that method: such a
    property is no function in a parsed value, [valueOf] yields no
    primitive value, and the conversion throws. *)
Fixpoint to_string (v : value) : option string :=
  match v with
  | JUndef => Some "undefined"
  | JNull => Some "null"
  | JBool true => Some "true"
  | JBool false => Some "false"
  | JNum z => Some (pretty z)
  | JStr s => Some s
  | JArr vs =>
      join_strings "," <$>
        (fix elements (l : list value) : option (list string) :=
           match l with
           | [] => Some []
           | x :: l' =>
               match (if nullish x then Some "" else to_string x),
                     elements l' with
               | Some s, Some ss => Some (s :: ss)
               | _, _ => None
               end
           end) vs
  | JObj ps => if has_key "toString" ps then None else Some "[object Object]"
  end.

(** The conversion does not throw. *)
Definition printable (v : value) : bool :=
  match to_string v with
  | Some _ => true
  | None => false
  end.

Definition join_elem (v : value) : option string :=
  if nullish v then Some "" else to_string v.

(** [v.join(sep)]: [None] when it throws a [TypeError], for want of a
    [join] method or in the conversion of an element. *)
Definition join (v : value) (sep : string) : option string :=
  match v with
  | JArr vs => join_strings sep <$> mapM join_elem vs
  | _ => None
  end.

(** [v] prints as it is written: no object inside it hides the [toString]
    it inherits, and every number inside it lies in the range in which
    [to_string] gives its digits. *)
Fixpoint plain (v : value) : bool :=
  match v with
  | JNum z => (Z.abs z <=? 2 ^ 53)%Z
  | JArr vs => forallb plain vs
  | JObj ps =>
      negb (has_key "toString" ps)
      && (fix props (l : list (string * value)) : bool :=
            match l with
            | [] => true
            | (_, x) :: l' => plain x && props l'
            end) ps
  | _ => true
  end.

End JS.

Import JS.

(** ** The network as the client sees it *)

(** A [File] of the browser: its name, its size in bytes and the text
    [FileReader.readAsText] delivers for it, as UTF-16 code units. *)
Record File : Type := mkFile {
  file_name : string;
  file_size : N;
  file_text : list N
}.

Inductive Part : Type :=
| PBlob (content : list N) (filename : string)
| PFile (f : File)
| PText (s : string).

Inductive Body : Type :=
| NoBody
| JsonBody (v : value)
| FormData (parts : list (string * Part)).

Record Request : Type := mkRequest {
  req_url : string;
  req_method : string;
  req_headers : list (string * string);
  req_credentials : option string;
  req_body : Body
}.

(** What an awaited [fetch] followed by [response.json()] can deliver: the
    promise of [fetch] rejects, or a response arrives with a status and a
    body that parses as JSON ([Some]) or does not ([None]). *)
Inductive FetchOutcome : Type :=
| NetworkError
| Response (status : nat) (body : option value).

(** [response.ok] *)
Definition response_ok (status : nat) : bool :=
  ((200 <=? status) && (status <=? 299))%nat.

(** ** Asynchronous handlers as resumptions *)

Section Resumptions.
Context {W : Type}.

Inductive Task : Type :=
| Done
| AwaitFetch (r : Request) (k : FetchOutcome -> W -> W * Task)
| AwaitTimer (ms : nat) (k : W -> W * Task).

(** The request a suspended task has put on the wire. *)
Definition request_of (t : Task) : list Request :=
  match t with
  | AwaitFetch r _ => [r]
  | _ => []
  end.

(** Settling the awaited [fetch]; a task that awaits no [fetch] is not
    affected. *)
Definition deliver (t : Task) (o : FetchOutcome) (w : W) : option (W * Task) :=
  match t with
  | AwaitFetch _ k => Some (k o w)
  | _ => None
  end.

(** The timer of the task elapses. *)
Definition elapse (t : Task) (w : W) : option (W * Task) :=
  match t with
  | AwaitTimer _ k => Some (k w)
  | _ => None
  end.

(** Run a handler to its end against a supply of fetch outcomes, timers
    elapsing as they come; returns the final state and the requests sent,
    in order.  A request whose outcome is missing stays pending. *)
Fixpoint settle (t : Task) (env : list FetchOutcome) (w : W)
  : W * list Request :=
  match t with
  | Done => (w, [])
  | AwaitFetch r k =>
      match env with
      | [] => (w, [r])
      | o :: env' =>
          match k o w with
          | (w', t') =>
              match settle t' env' w' with
              | (w'', rs) => (w'', r :: rs)
              end
          end
      end
  | AwaitTimer _ k =>
      match k w with
      | (w', t') => settle t' env w'
      end
  end.
End Resumptions.

Arguments Task W : clear implicits.

(** ** The dashboard component (AuthPage.jsx, [Dashboard]) *)

Module Dashboard.

Inductive Kind : Type := Quality | Bugs | Docs | Security.

(** The property name under which a kind is kept in [results],
    [expandedSections] and [activeAnalysis]. *)
Definition key (k : Kind) : string :=
  match k with
  | Quality => "quality"
  | Bugs => "bugs"
  | Docs => "docs"
  | Security => "security"
  end.

Inductive Lang : Type := En | Ur.

Definition lang_code (l : Lang) : string :=
  match l with En => "en" | Ur => "ur" end.

(** The two entries of [translations] that the handlers read. *)
Definition noCodeError (l : Lang) : string :=
  match l with
  | En => "Please upload a file or paste code first"
  | Ur => "براہ کرم پہلے فائل اپ لوڈ یا کوڈ پیسٹ کریں"
  end.

Definition analysisError (l : Lang) : string :=
  match l with
  | En => "Analysis failed. Please try again."
  | Ur => "تجزیہ ناکام ہو گیا۔ دوبارہ کوشش کریں۔"
  end.

(** *** Text of the editor *)

(** White space and line terminators of ECMAScript, as UTF-16 code units:
    what [String.prototype.trim] removes. *)
Definition is_js_space (c : N) : bool :=
  ((c =? 9) || (c =? 10) || (c =? 11) || (c =? 12) || (c =? 13)
   || (c =? 32) || (c =? 160) || (c =? 5760)
   || ((8192 <=? c) && (c <=? 8202))
   || (c =? 8232) || (c =? 8233) || (c =? 8239) || (c =? 8287)
   || (c =? 12288) || (c =? 65279))%N.

Fixpoint trim_start (s : list N) : list N :=
  match s with
  | [] => []
  | c :: s' => if is_js_space c then trim_start s' else s
  end.

Definition trim (s : list N) : list N :=
  rev (trim_start (rev (trim_start s))).

(** The code units of an ASCII text. *)
Definition text_of_string (s : string) : list N :=
  map Ascii.N_of_ascii (String.list_ascii_of_string s).

(** *** Component state *)

(** Why the component is no longer on the page: React has unmounted it
    because an updater threw while it rendered, or the browser has been sent
    to another address. *)
Inductive Gone : Type :=
| RenderError
| Navigated (href : string).

(** The [useState] cells the handlers read or write, the messages passed
    to [window.alert] so far (oldest first), and whether a handler has made
    the component leave the page.  The cells that only select styling
    ([isDarkMode], [showSettings], [copiedCode]) are left out.  A view that
    throws while it renders a stored payload takes the component off the
    page as well; that is stated of the views ([Throws] below) and is not
    recorded in [gone]. *)
Record State : Type := mkState {
  uploadedFile : option File;
  codeInput : list N;
  language : Lang;
  isAnalyzing : bool;
  activeAnalysis : option Kind;
  results : gmap string value;
  expandedSections : gmap string bool;
  alerts : list string;
  gone : option Gone
}.

Definition initial : State :=
  {| uploadedFile := None; codeInput := []; language := En;
     isAnalyzing := false; activeAnalysis := None;
     results := ∅; expandedSections := ∅; alerts := []; gone := None |}.

Definition setUploadedFile (f : option File) (d : State) : State :=
  {| uploadedFile := f; codeInput := codeInput d; language := language d;
     isAnalyzing := isAnalyzing d; activeAnalysis := activeAnalysis d;
     results := results d; expandedSections := expandedSections d;
     alerts := alerts d; gone := gone d |}.

Definition setCodeInput (s : list N) (d : State) : State :=
  {| uploadedFile := uploadedFile d; codeInput := s; language := language d;
     isAnalyzing := isAnalyzing d; activeAnalysis := activeAnalysis d;
     results := results d; expandedSections := expandedSections d;
     alerts := alerts d; gone := gone d |}.

Definition setLanguage (l : Lang) (d : State) : State :=
  {| uploadedFile := uploadedFile d; codeInput := codeInput d; language := l;
     isAnalyzing := isAnalyzing d; activeAnalysis := activeAnalysis d;
     results := results d; expandedSections := expandedSections d;
     alerts := alerts d; gone := gone d |}.

Definition setIsAnalyzing (b : bool) (d : State) : State :=
  {| uploadedFile := uploadedFile d; codeInput := codeInput d;
     language := language d;
     isAnalyzing := b; activeAnalysis := activeAnalysis d;
     results := results d; expandedSections := expandedSections d;
     alerts := alerts d; gone := gone d |}.

Definition setActiveAnalysis (a : option Kind) (d : State) : State :=
  {| uploadedFile := uploadedFile d; codeInput := codeInput d;
     language := language d;
     isAnalyzing := isAnalyzing d; activeAnalysis := a;
     results := results d; expandedSections := expandedSections d;
     alerts := alerts d; gone := gone d |}.

(** [setResults(f)] and [setExpandedSections(f)] with an updater function:
    [f] is applied to the value of the cell at the time of the update. *)
Definition setResults (f : gmap string value -> gmap string value)
    (d : State) : State :=
  {| uploadedFile := uploadedFile d; codeInput := codeInput d;
     language := language d;
     isAnalyzing := isAnalyzing d; activeAnalysis := activeAnalysis d;
     results := f (results d); expandedSections := expandedSections d;
     alerts := alerts d; gone := gone d |}.

Definition setExpandedSections (f : gmap string bool -> gmap string bool)
    (d : State) : State :=
  {| uploadedFile := uploadedFile d; codeInput := codeInput d;
     language := language d;
     isAnalyzing := isAnalyzing d; activeAnalysis := activeAnalysis d;
     results := results d; expandedSections := f (expandedSections d);
     alerts := alerts d; gone := gone d |}.

Definition alert (msg : string) (d : State) : State :=
  {| uploadedFile := uploadedFile d; codeInput := codeInput d;
     language := language d;
     isAnalyzing := isAnalyzing d; activeAnalysis := activeAnalysis d;
     results := results d; expandedSections := expandedSections d;
     alerts := alerts d ++ [msg]; gone := gone d |}.

(** The component leaves the page. *)
Definition setGone (g : Gone) (d : State) : State :=
  {| uploadedFile := uploadedFile d; codeInput := codeInput d;
     language := language d;
     isAnalyzing := isAnalyzing d; activeAnalysis := activeAnalysis d;
     results := results d; expandedSections := expandedSections d;
     alerts := alerts d; gone := Some g |}.

(** *** Input handlers *)

(** [const getCodeToAnalyze = () => codeInput.trim() || null] *)
Definition getCodeToAnalyze (d : State) : option (list N) :=
  match trim (codeInput d) with
  | [] => None
  | code => Some code
  end.

(** [uploadedFile?.name || 'code.py'] *)
Definition blob_name (d : State) : string :=
  match uploadedFile d with
  | None => "code.py"
  | Some f => if String.eqb (file_name f) "" then "code.py" else file_name f
  end.

(** The textarea's [onChange]. *)
Definition editCode (s : list N) (d : State) : State := setCodeInput s d.

(** [handleFileUpload], up to [reader.readAsText(file)]: [picked] is
    [e.target.files[0]].  Returns the file whose reading was started.  (The
    [accept] attribute of the input narrows what the picker offers; the
    handler looks at neither name, size nor content.) *)
Definition handleFileUpload (picked : option File) (d : State)
    : State * option File :=
  match picked with
  | Some file => (setUploadedFile (Some file) d, Some file)
  | None => (d, None)
  end.

(** [reader.onload = (event) => setCodeInput(event.target.result)] *)
Definition readerOnload (file : File) (d : State) : State :=
  setCodeInput (file_text file) d.

(** The header click of a result section:
    [setExpandedSections(p => ({ ...p, k: !p.k }))]. *)
Definition toggleSection (k : Kind) (d : State) : State :=
  setExpandedSections
    (fun p => <[key k := negb (default false (p !! key k))]> p) d.

(** *** The analysis handlers *)

(** The URL each backend analysis posts to; the security scan has none. *)
Definition endpoint (k : Kind) : string :=
  match k with
  | Quality => "http://localhost:5000/api/analyze/quality"
  | Bugs => "http://localhost:5000/api/analyze/bugs"
  | Docs => "http://localhost:5000/api/analyze/documentation"
  | Security => ""
  end.

(** The [FormData] of a backend analysis; [generateDocs] appends
    [include_urdu]. *)
Definition form_data (k : Kind) (code : list N) (d : State)
    : list (string * Part) :=
  [("file", PBlob code (blob_name d));
   ("language", PText (lang_code (language d)))]
  ++ match k with
     | Docs =>
         [("include_urdu",
           PText (match language d with Ur => "true" | En => "false" end))]
     | _ => []
     end.

Definition analysis_request (k : Kind) (code : list N) (d : State) : Request :=
  {| req_url := endpoint k; req_method := "POST"; req_headers := [];
     req_credentials := Some "include";
     req_body := FormData (form_data k code d) |}.

(** The [try] block after the [await], down to [const data = await
    response.json()]: [None] when it throws, that is when [fetch] rejects,
    [response.ok] is false or [response.json()] rejects.  The two calls
    that follow only hand updaters to React and throw nothing. *)
Definition analysis_data (o : FetchOutcome) : option value :=
  match o with
  | NetworkError => None
  | Response status body => if response_ok status then body else None
  end.

(** The [finally] block. *)
Definition finish (d : State) : State :=
  setActiveAnalysis None (setIsAnalyzing false d).

(** [setResults(prev => ({ ...prev, k: v }))] then
    [setExpandedSections(prev => ({ ...prev, k: true }))]. *)
Definition store (k : Kind) (v : value) (d : State) : State :=
  setExpandedSections (fun prev => <[key k := true]> prev)
    (setResults (fun prev => <[key k := v]> prev) d).

(** An updater of [setResults] threw in the render that follows the
    handler: the cells that render reaches before [results], [isAnalyzing]
    and [activeAnalysis], have taken what [finally] set, [results] and
    [expandedSections] are not updated, and React unmounts the component
    (no error boundary is declared in these files). *)
Definition tearDown (d : State) : State := setGone RenderError (finish d).

(** What runs once the awaited response of kind [k] has settled, and the
    render that follows.  [t] is the language of the render in which the
    button was clicked: the closure's [t = translations[language]].  The
    updater [prev => ({ ...prev, k: data.results })] reads [data.results]
    when React applies it, outside the [try] block: on a [data] that is
    [null] it throws there, and no [catch] of the handler sees it. *)
Definition after_response (k : Kind) (t : Lang) (o : FetchOutcome)
    (d : State) : State * Task State :=
  match analysis_data o with
  | Some data =>
      match get data "results" with
      | Some v => (finish (store k v d), Done)
      | None => (tearDown d, Done)
      end
  | None => (finish (alert (analysisError t) d), Done)
  end.

(** The common body of [analyzeQuality], [analyzeBugs], [generateDocs]. *)
Definition backend_analysis (k : Kind) (d : State) : State * Task State :=
  match getCodeToAnalyze d with
  | None => (alert (noCodeError (language d)) d, Done)
  | Some code =>
      (setActiveAnalysis (Some k) (setIsAnalyzing true d),
       AwaitFetch (analysis_request k code d) (after_response k (language d)))
  end.

Definition analyzeQuality : State -> State * Task State :=
  backend_analysis Quality.
Definition analyzeBugs : State -> State * Task State :=
  backend_analysis Bugs.
Definition generateDocs : State -> State * Task State :=
  backend_analysis Docs.

(** The object literal stored by [runSecurityScan]. *)
Definition security_findings : value :=
  JObj [("vulnerabilities", JNum 2);
        ("securityScore", JNum 75);
        ("issues",
         JArr [JObj [("severity", JStr "high"); ("type", JStr "SQL Injection");
                     ("line", JNum 45);
                     ("description", JStr "Unsanitized user input")];
               JObj [("severity", JStr "medium"); ("type", JStr "XSS Risk");
                     ("line", JNum 78);
                     ("description", JStr "Unescaped output")]])].

Definition runSecurityScan (d : State) : State * Task State :=
  match getCodeToAnalyze d with
  | None => (alert (noCodeError (language d)) d, Done)
  | Some _ =>
      (setActiveAnalysis (Some Security) (setIsAnalyzing true d),
       AwaitTimer 2000
         (fun d' => (finish (store Security security_findings d'), Done)))
  end.

Definition handler (k : Kind) : State -> State * Task State :=
  match k with
  | Quality => analyzeQuality
  | Bugs => analyzeBugs
  | Docs => generateDocs
  | Security => runSecurityScan
  end.

(** [handleLogout], the [onClick] of the Logout button: whether the
    request gets through or not, the browser is sent to [/]. *)
Definition logout_request : Request :=
  {| req_url := "http://localhost:5000/api/logout"; req_method := "POST";
     req_headers := []; req_credentials := Some "include";
     req_body := NoBody |}.

Definition handleLogout (d : State) : State * Task State :=
  (d, AwaitFetch logout_request (fun _ d' => (setGone (Navigated "/") d', Done))).

(** *** The component in the event loop *)

(** The component state, the analysis handlers suspended at an [await] or
    a timer, every request sent so far (oldest first), the files a
    [FileReader] is still reading and the suspended runs of
    [handleLogout]. *)
Record Sys : Type := mkSys {
  ui : State;
  inflight : list (Task State);
  sent : list Request;
  reading : list File;
  leaving : list (Task State)
}.

Definition start : Sys :=
  {| ui := initial; inflight := []; sent := []; reading := [];
     leaving := [] |}.

Definition with_ui (f : State -> State) (s : Sys) : Sys :=
  {| ui := f (ui s); inflight := inflight s; sent := sent s;
     reading := reading s; leaving := leaving s |}.

(** A handler segment has run to [d] and left [t] to do: a suspended task
    joins [inflight], its request goes out. *)
Definition spawn (r : State * Task State) (s : Sys) : Sys :=
  {| ui := r.1;
     inflight := match r.2 with
                 | Done => inflight s
                 | t => inflight s ++ [t]
                 end;
     sent := sent s ++ request_of r.2;
     reading := reading s;
     leaving := leaving s |}.

(** Calling the handler of [k], as [onClick] does. *)
Definition invoke (k : Kind) (s : Sys) : Sys := spawn (handler k (ui s)) s.

(** The [i]-th suspended handler goes on with [r], when it was waiting for
    that. *)
Definition resume (i : nat) (r : option (State * Task State)) (s : Sys) : Sys :=
  match r with
  | Some r' =>
      spawn r' {| ui := ui s; inflight := delete i (inflight s);
                  sent := sent s; reading := reading s;
                  leaving := leaving s |}
  | None => s
  end.

(** The same for the runs of [handleLogout], which are kept apart from the
    analyses. *)
Definition depart (r : State * Task State) (s : Sys) : Sys :=
  {| ui := r.1;
     inflight := inflight s;
     sent := sent s ++ request_of r.2;
     reading := reading s;
     leaving := match r.2 with
                | Done => leaving s
                | t => leaving s ++ [t]
                end |}.

Definition resume_leaving (i : nat) (r : option (State * Task State))
    (s : Sys) : Sys :=
  match r with
  | Some r' =>
      depart r' {| ui := ui s; inflight := inflight s; sent := sent s;
                   reading := reading s; leaving := delete i (leaving s) |}
  | None => s
  end.

(** What can happen to the dashboard: a click on an action button, the
    settling of the [fetch] of the [i]-th suspended analysis, the elapsing
    of its timer, typing in the editor, a choice in the file picker, the
    end of the [i]-th file reading, a change of language, a click on the
    header of a result section, a click on the Logout button and the
    settling of the [i]-th logout request. *)
Inductive Event : Type :=
| Click (k : Kind)
| Settled (i : nat) (o : FetchOutcome)
| Elapsed (i : nat)
| Edit (txt : list N)
| Pick (f : option File)
| Loaded (i : nat)
| Language (l : Lang)
| Toggle (k : Kind)
| Logout
| LoggedOut (i : nat) (o : FetchOutcome).

(** One turn of the event loop.  The four action buttons carry
    [disabled={isAnalyzing}]: a click on a disabled button calls nothing.
    A section header is there to be clicked only while [results.k] is
    truthy.  The Logout button is never disabled.  Once the component is
    [gone] the browser has no event left for it; [step] does not single
    those states out, so that what holds after every sequence of events
    holds after those a browser can produce. *)
Definition step (e : Event) (s : Sys) : Sys :=
  match e with
  | Click k => if isAnalyzing (ui s) then s else invoke k s
  | Settled i o =>
      match inflight s !! i with
      | Some t => resume i (deliver t o (ui s)) s
      | None => s
      end
  | Elapsed i =>
      match inflight s !! i with
      | Some t => resume i (elapse t (ui s)) s
      | None => s
      end
  | Edit txt => with_ui (editCode txt) s
  | Pick f =>
      {| ui := (handleFileUpload f (ui s)).1; inflight := inflight s;
         sent := sent s;
         reading := reading s ++ option_list (handleFileUpload f (ui s)).2;
         leaving := leaving s |}
  | Loaded i =>
      match reading s !! i with
      | Some f =>
          {| ui := readerOnload f (ui s); inflight := inflight s;
             sent := sent s; reading := delete i (reading s);
             leaving := leaving s |}
      | None => s
      end
  | Language l => with_ui (setLanguage l) s
  | Toggle k =>
      if truthy (default JUndef (results (ui s) !! key k))
      then with_ui (toggleSection k) s
      else s
  | Logout => depart (handleLogout (ui s)) s
  | LoggedOut i o =>
      match leaving s !! i with
      | Some t => resume_leaving i (deliver t o (ui s)) s
      | None => s
      end
  end.

Definition run (es : list Event) (s : Sys) : Sys :=
  foldl (fun s' e => step e s') s es.

(** *** Vocabulary of the statements *)

(** The editor holds nothing but white space (or nothing at all). *)
Definition blank (txt : list N) : bool := forallb is_js_space txt.

(** The component is at rest: no handler is suspended and the buttons are
    enabled. *)
Definition idle (s : Sys) : Prop :=
  inflight s = [] ∧ isAnalyzing (ui s) = false.

(** A run that fails: the request did not get through, the response is not
    a 2xx, or its body is not JSON. *)
Definition failed (o : FetchOutcome) : bool :=
  match o with
  | NetworkError => true
  | Response status body =>
      negb (response_ok status)
      || match body with
         | None => true
         | Some _ => false
         end
  end.

(** A 2xx response whose JSON is [null]: nothing fails in the handler, and
    the updater it hands to [setResults] throws. *)
Definition tears_down (o : FetchOutcome) : bool :=
  match o with
  | Response status (Some data) => response_ok status && nullish data
  | _ => false
  end.

(** The event [e] completes a run of kind [k] with the payload [v]: a 2xx
    response whose JSON carries [v] as [results], or, for the simulated
    scan, the timer. *)
Definition completes (k : Kind) (e : Event) (v : value) : Prop :=
  match k with
  | Security => e = Elapsed 0 ∧ v = security_findings
  | _ =>
      ∃ status data,
        e = Settled 0 (Response status (Some data))
        ∧ response_ok status = true
        ∧ get data "results" = Some v
  end.

(** The suspended handlers the four buttons leave behind. *)
Inductive pending_analysis : Task State -> Prop :=
| pending_fetch (k : Kind) (t : Lang) (r : Request) :
    pending_analysis (AwaitFetch r (after_response k t))
| pending_timer :
    pending_analysis
      (AwaitTimer 2000
         (fun d' => (finish (store Security security_findings d'), Done))).

(** The busy flag tells whether a handler is suspended, and there is never
    more than one. *)
Definition serialized (s : Sys) : Prop :=
  idle s
  ∨ ∃ t, inflight s = [t] ∧ pending_analysis t ∧ isAnalyzing (ui s) = true.

(** The dashboard of the specification's scenarios: [def f(): pass] has
    been typed into the editor; and the same after [main.py] was picked
    and read. *)
Definition typed : Sys :=
  run [Edit (text_of_string "def f(): pass")] start.

Definition main_py : File :=
  {| file_name := "main.py"; file_size := 13;
     file_text := text_of_string "def f(): pass" |}.

Definition uploaded : Sys := run [Pick (Some main_py); Loaded 0] start.

(** The backend's answer in the specification's "quality" scenario. *)
Definition scenario_body : value :=
  JObj [("results", JObj [("overall_score", JNum 82); ("issues", JArr [])])].

(** Twelve issues from the backend, numbered by their line. *)
Definition twelve_issues : list value :=
  (fun n : nat =>
     JObj [("severity", JStr "low"); ("message", JStr "unused import");
           ("type", JStr "style"); ("description", JStr "unused import");
           ("line", JNum (Z.of_nat n))]) <$> seq 1 12.

(** A payload with twelve issues. *)
Definition twelve : value := JObj [("issues", JArr twelve_issues)].

(** *** Result views *)

(** What evaluating a component function does: it returns, or a [TypeError]
    escapes it.  [Unmodelled] marks the one comparison this development does
    not embed: [v > 0] for a [v] that [ToNumber] has to parse. *)
Inductive Eval (A : Type) : Type :=
| Returns (a : A)
| Throws
| Unmodelled.
Arguments Returns {A} a.
Arguments Throws {A}.
Arguments Unmodelled {A}.

(** One [issueItem] row: the colour of its icon, the children of the text
    span and the value printed after "Line". *)
Record IssueItem : Type := mkItem {
  item_color : string;
  item_text : list value;
  item_line : value
}.

(** The place of the issues card in a view: the card with its rows, or the
    value the [&&] chain stopped at. *)
Inductive Slot : Type :=
| Leaf (v : value)
| Card (items : list IssueItem).

(** [xs.map(row)] where [row] reads properties of its argument. *)
Fixpoint rows (row : value -> option IssueItem) (xs : list value)
    : option (list IssueItem) :=
  match xs with
  | [] => Some []
  | x :: xs' =>
      match row x with
      | Some i =>
          match rows row xs' with
          | Some is' => Some (i :: is')
          | None => None
          end
      | None => None
      end
  end.

(** [v > 0] *)
Definition gt_zero (v : value) : option bool :=
  match v with
  | JNum z => Some (0 <? z)%Z
  | JBool b => Some b
  | JUndef | JNull | JObj _ => Some false
  | JStr _ | JArr _ => None
  end.

(** [xs && xs.length > 0 && (<card> {shown(xs).map(row)} </card>)] where
    [shown] is [xs => xs.slice(0, 10)] or the identity. A string has a
    length and a [slice] but no [map]; an object has neither [slice] nor
    [map]. *)
Definition issue_slot (shown : list value -> list value)
    (row : value -> option IssueItem) (xs : value) : Eval Slot :=
  if negb (truthy xs) then Returns (Leaf xs)
  else
    match xs with
    | JArr l =>
        if (0 <? length l)%nat then
          match rows row (shown l) with
          | Some is' => Returns (Card is')
          | None => Throws
          end
        else Returns (Leaf (JBool false))
    | JStr _ => Throws
    | JObj ps =>
        match gt_zero (assoc "length" ps) with
        | Some true => Throws
        | Some false => Returns (Leaf (JBool false))
        | None => Unmodelled
        end
    | _ => Returns (Leaf (JBool false))
    end.

Definition is_str (v : value) (s : string) : bool :=
  match v with
  | JStr s' => String.eqb s' s
  | _ => false
  end.

Definition quality_row (issue : value) : option IssueItem :=
  severity ← get issue "severity";
  message ← get issue "message";
  line ← get issue "line";
  Some {| item_color := if is_str severity "high" then "#ef4444"
                        else if is_str severity "medium" then "#f59e0b"
                        else "#6b7280";
          item_text := [message];
          item_line := line |}.

Definition bug_row (bug : value) : option IssueItem :=
  ty ← get bug "type";
  description ← get bug "description";
  line ← get bug "line";
  Some {| item_color := "#ef4444";
          item_text := [ty; JStr ": "; description];
          item_line := line |}.

Definition security_row (issue : value) : option IssueItem :=
  severity ← get issue "severity";
  ty ← get issue "type";
  description ← get issue "description";
  line ← get issue "line";
  Some {| item_color := if is_str severity "critical" then "#ef4444"
                        else "#f59e0b";
          item_text := [ty; JStr ": "; description];
          item_line := line |}.

(** [results.issues.slice(0, 10)] on an array. *)
Definition slice_0_10 (l : list value) : list value := take 10 l.

(** The issue list of [QualityResults], [BugResults] and [SecurityResults];
    [results] is truthy where the dashboard mounts them. *)
Definition QualityResults_issues (results : value) : Eval Slot :=
  match get results "issues" with
  | Some xs => issue_slot slice_0_10 quality_row xs
  | None => Throws
  end.

Definition BugResults_bugs (results : value) : Eval Slot :=
  match get results "bugs" with
  | Some xs => issue_slot slice_0_10 bug_row xs
  | None => Throws
  end.

Definition SecurityResults_issues (results : value) : Eval Slot :=
  match get results "issues" with
  | Some xs => issue_slot (fun l => l) security_row xs
  | None => Throws
  end.

(** The rows a view puts on the page, when it renders. *)
Definition entries (r : Eval Slot) : option (list IssueItem) :=
  match r with
  | Returns (Card items) => Some items
  | Returns (Leaf _) => Some []
  | Throws | Unmodelled => None
  end.

(** *** What the dashboard renders *)


(** [results.k && <ResultSection ...>]: the section of [k] is on the page. *)
Definition sectionShown (k : Kind) (d : State) : bool :=
  truthy (default JUndef (results d !! key k)).

(** [expanded={expandedSections.k}]: the section of [k] shows its body. *)
Definition sectionExpanded (k : Kind) (d : State) : bool :=
  default false (expandedSections d !! key k).

(** *** Vocabulary of the further statements *)

(** A click on one of the four action buttons or on the Logout button. *)
Definition is_click (e : Event) : bool :=
  match e with
  | Click _ | Logout => true
  | _ => false
  end.

(** The clicks on those five buttons among [es]. *)
Fixpoint clicks (es : list Event) : nat :=
  match es with
  | [] => 0
  | e :: es' => (if is_click e then 1 else 0) + clicks es'
  end.

(** The suspended runs of [handleLogout] are what that handler leaves. *)
Definition leaving_logouts (s : Sys) : Prop :=
  Forall (fun t => t = (handleLogout initial).2) (leaving s).

(** The events that put a new file into [uploadedFile]. *)
Definition is_pick (e : Event) : bool :=
  match e with
  | Pick (Some _) => true
  | _ => false
  end.

(** The property names of the four kinds. *)
Definition kind_keys : gset string :=
  {[ "quality"; "bugs"; "docs"; "security" ]}.

(** The handler that a click on the button of [k] leaves suspended. *)
Inductive pending_of : Kind -> Task State -> Prop :=
| pending_backend (k : Kind) (t : Lang) (code : list N) (d : State) :
    k ≠ Security ->
    pending_of k (AwaitFetch (analysis_request k code d) (after_response k t))
| pending_scan :
    pending_of Security
      (AwaitTimer 2000
         (fun d' => (finish (store Security security_findings d'), Done))).

(** What holds of the dashboard whenever the event loop is at rest: it is
    idle with no active kind, or the one suspended handler is that of the
    active kind; the result store has no key but those of the kinds, and
    each of its keys has an expansion flag. *)
Definition coherent (s : Sys) : Prop :=
  ((idle s ∧ activeAnalysis (ui s) = None)
   ∨ ∃ k t, inflight s = [t] ∧ pending_of k t
            ∧ isAnalyzing (ui s) = true ∧ activeAnalysis (ui s) = Some k)
  ∧ dom (results (ui s)) ⊆ kind_keys
  ∧ dom (results (ui s)) ⊆ dom (expandedSections (ui s)).

(** Two files for the upload scenarios. *)
Definition utils_js : File :=
  {| file_name := "utils.js"; file_size := 9;
     file_text := text_of_string "let x = 1" |}.

End Dashboard.

(** ** The sign-in page (AuthPage.jsx, [AuthPage]; App.jsx, [App]) *)

Module Auth.

(** The state cells of [AuthPage], the [user] cell of [App] that
    [onAuthSuccess] writes, and the router's location.  [error] holds
    whatever was passed to [setError]. *)
Record World : Type := mkWorld {
  isLogin : bool;
  name : string;
  email : string;
  password : string;
  loading : bool;
  error : value;
  success : string;
  user : value;
  location : string
}.

Definition initial : World :=
  {| isLogin := true; name := ""; email := ""; password := "";
     loading := false; error := JStr ""; success := "";
     user := JNull; location := "/auth" |}.

Definition setLoading (b : bool) (w : World) : World :=
  {| isLogin := isLogin w; name := name w; email := email w;
     password := password w; loading := b; error := error w;
     success := success w; user := user w; location := location w |}.

Definition setError (e : value) (w : World) : World :=
  {| isLogin := isLogin w; name := name w; email := email w;
     password := password w; loading := loading w; error := e;
     success := success w; user := user w; location := location w |}.

Definition setSuccess (m : string) (w : World) : World :=
  {| isLogin := isLogin w; name := name w; email := email w;
     password := password w; loading := loading w; error := error w;
     success := m; user := user w; location := location w |}.

(** [handleAuthSuccess] of [App]. *)
Definition setUser (u : value) (w : World) : World :=
  {| isLogin := isLogin w; name := name w; email := email w;
     password := password w; loading := loading w; error := error w;
     success := success w; user := u; location := location w |}.

Definition navigate (path : string) (w : World) : World :=
  {| isLogin := isLogin w; name := name w; email := email w;
     password := password w; loading := loading w; error := error w;
     success := success w; user := user w; location := path |}.

Inductive Field : Type := FName | FEmail | FPassword.

(** [handleInputChange]: the field named by [e.target.name] takes
    [e.target.value]; both messages are cleared. *)
Definition handleInputChange (f : Field) (v : string) (w : World) : World :=
  {| isLogin := isLogin w;
     name := match f with FName => v | _ => name w end;
     email := match f with FEmail => v | _ => email w end;
     password := match f with FPassword => v | _ => password w end;
     loading := loading w; error := JStr ""; success := "";
     user := user w; location := location w |}.

Definition toggleMode (w : World) : World :=
  {| isLogin := negb (isLogin w); name := ""; email := ""; password := "";
     loading := loading w; error := JStr ""; success := "";
     user := user w; location := location w |}.

Definition API_BASE_URL : string := "http://localhost:5000/api".

(** [payload] of [handleSubmit]. *)
Definition credentials (w : World) : value :=
  if isLogin w
  then JObj [("username", JStr (email w)); ("password", JStr (password w))]
  else JObj [("username", JStr (email w)); ("password", JStr (password w));
             ("role", JStr "user")].

Definition auth_request (w : World) : Request :=
  {| req_url := API_BASE_URL ++ (if isLogin w then "/login" else "/register");
     req_method := "POST";
     req_headers := [("Content-Type", "application/json")];
     req_credentials := Some "include";
     req_body := JsonBody (credentials w) |}.

(** The object handed to [onAuthSuccess]. *)
Definition identity (username : string) (role : value) : value :=
  JObj [("username", JStr username); ("role", role)].

(** The [else] branch of [if (response.ok && data.success)]; [None] when a
    [TypeError] escapes it. *)
Definition report_errors (data : value) (w : World) : option World :=
  errors ← get data "errors";
  if truthy errors then
    joined ← join errors ", ";
    Some (setError (JStr joined) w)
  else
    err ← get data "error";
    if truthy err then Some (setError err w)
    else Some (setError (JStr "An error occurred. Please try again.") w).

(** The [try] block after [await fetch(...)], for the render in which the
    form was submitted ([login] is its [isLogin], [mail] its
    [formData.email]); [None] when it throws. *)
Definition attempt (login : bool) (mail : string) (o : FetchOutcome)
    (w : World) : option (World * Task World) :=
  match o with
  | NetworkError => None
  | Response status body =>
      data ← body;
      match (if response_ok status then truthy <$> get data "success"
             else Some false) with
      | Some true =>
          role ← get data "role";
          Some (setUser (identity mail (or_else role (JStr "user")))
                  (setSuccess (if login then "Login successful!"
                               else "Account created successfully!") w),
                AwaitTimer 1000 (fun w' => (navigate "/dashboard" w', Done)))
      | Some false =>
          w' ← report_errors data w;
          Some (w', Done)
      | None => None
      end
  end.

(** [catch] and [finally]. *)
Definition after_auth (login : bool) (mail : string) (o : FetchOutcome)
    (w : World) : World * Task World :=
  match attempt login mail o w with
  | Some (w', t) => (setLoading false w', t)
  | None =>
      (setLoading false
         (setError (JStr "Failed to connect to server. Please try again.") w),
       Done)
  end.

Definition handleSubmit (w : World) : World * Task World :=
  (setSuccess "" (setError (JStr "") (setLoading true w)),
   AwaitFetch (auth_request w) (after_auth (isLogin w) (email w))).

(** [handleLogoutClick] of the navigation bar, and word for word
    [handleLogout] of the dashboard: whether the request gets through or
    not, the browser is sent to [/]. *)
Definition logout_request : Request :=
  {| req_url := "http://localhost:5000/api/logout"; req_method := "POST";
     req_headers := []; req_credentials := Some "include";
     req_body := NoBody |}.

Definition handleLogoutClick (w : World) : World * Task World :=
  (w, AwaitFetch logout_request (fun _ w' => (navigate "/" w', Done))).

(** *** Vocabulary of the statements *)

(** The backend accepts the credentials: [response.ok && data.success]. *)
Definition accepted (status : nat) (data : value) : bool :=
  response_ok status && truthy (default JUndef (get data "success")).

(** The submission run to its end against one JSON response, the redirect
    timer included. *)
Definition submitted (w : World) (status : nat) (data : value)
    : World * list Request :=
  settle (handleSubmit w).2 [Response status (Some data)] (handleSubmit w).1.

(** The backend's answer in the specification's scenario. *)
Definition welcome : value :=
  JObj [("success", JBool true); ("role", JStr "user")].

(** The sign-in form of the specification's scenario. *)
Definition filled : World :=
  handleInputChange FPassword "x" (handleInputChange FEmail "a@b.com" initial).

(** An answer the client cannot read: the request fails, the body is not
    JSON, or the JSON is [null]. *)
Definition unreadable (o : FetchOutcome) : bool :=
  match o with
  | NetworkError => true
  | Response _ None => true
  | Response _ (Some data) => nullish data
  end.

(** The outcome is a response that signs the user in. *)
Definition signs_in (o : FetchOutcome) : bool :=
  match o with
  | Response status (Some data) => accepted status data
  | _ => false
  end.

(** The submission run to its end against one settled [fetch], whatever
    it is. *)
Definition settled (w : World) (o : FetchOutcome) : World * list Request :=
  settle (handleSubmit w).2 [o] (handleSubmit w).1.

(** *** The session check of [App] *)

Definition session_request : Request :=
  {| req_url := "http://localhost:5000/api/check-session";
     req_method := "GET"; req_headers := [];
     req_credentials := Some "include"; req_body := NoBody |}.

(** The two [then] callbacks of the effect of [App]: [res => res.json()]
    and [data => { if (data.authenticated) setUser(data.user) }]; a
    rejection anywhere ends in the [catch], which only logs. *)
Definition after_session (o : FetchOutcome) (w : World) : World * Task World :=
  (match o with
   | Response _ (Some data) =>
       match get data "authenticated" with
       | Some flag =>
           if truthy flag
           then setUser (default JUndef (get data "user")) w
           else w
       | None => w
       end
   | _ => w
   end, Done).

(** The effect [App] runs once, when it mounts. *)
Definition checkSession (w : World) : World * Task World :=
  (w, AwaitFetch session_request after_session).

End Auth.

(** ** The legacy dashboard script (static/script.js, [initDashboard]) *)

Module Legacy.

(** Why the [catch] of the submit handler runs; [error.message] follows
    from it.  The text of an error raised by the engine itself is not fixed
    by the script. *)
Inductive Cause : Type :=
| HttpStatus (status : nat)
| BackendError (msg : value)
| EngineError.

Inductive Message : Type :=
| Text (s : string)
| AnalysisFailed (c : Cause).

(** The part of the page the two handlers work on: the files chosen in
    [fileInput], [currentReport], the [errorMsg] box (its content and
    whether it is displayed), the two [<pre>] panes, the two buttons, the
    [isLoggedIn] flag of [sessionStorage] and [window.location].  An
    optional element of the page is [None] when the page does not have it;
    [initDashboard] returns early unless [fileInput], [uploadForm] and
    [analyzeBtn] exist, and the translate handler is attached only to an
    existing button.  What is written to the score read-outs, bars and
    download links after a successful analysis is not kept, no handler
    reads it; [others] lists the ids of those elements the page has, since
    some values are converted to a string only when there is an element to
    take them. *)
Record Page : Type := mkPage {
  files : list File;
  currentReport : value;
  errorMsg : option (Message * bool);
  bugReportPre : option string;
  correctedCodePre : option string;
  analyzeBtn_disabled : bool;
  translateBtn_disabled : bool;
  translateBtn_text : string;
  isLoggedIn : bool;
  href : string;
  others : list string
}.

(** The user picks files in [fileInput]. *)
Definition chooseFiles (fs : list File) (p : Page) : Page :=
  {| files := fs; currentReport := currentReport p; errorMsg := errorMsg p;
     bugReportPre := bugReportPre p; correctedCodePre := correctedCodePre p;
     analyzeBtn_disabled := analyzeBtn_disabled p;
     translateBtn_disabled := translateBtn_disabled p;
     translateBtn_text := translateBtn_text p;
     isLoggedIn := isLoggedIn p; href := href p;
     others := others p |}.

Definition setErrorMsg (e : option (Message * bool)) (p : Page) : Page :=
  {| files := files p; currentReport := currentReport p; errorMsg := e;
     bugReportPre := bugReportPre p; correctedCodePre := correctedCodePre p;
     analyzeBtn_disabled := analyzeBtn_disabled p;
     translateBtn_disabled := translateBtn_disabled p;
     translateBtn_text := translateBtn_text p;
     isLoggedIn := isLoggedIn p; href := href p;
     others := others p |}.

Definition setCurrentReport (v : value) (p : Page) : Page :=
  {| files := files p; currentReport := v; errorMsg := errorMsg p;
     bugReportPre := bugReportPre p; correctedCodePre := correctedCodePre p;
     analyzeBtn_disabled := analyzeBtn_disabled p;
     translateBtn_disabled := translateBtn_disabled p;
     translateBtn_text := translateBtn_text p;
     isLoggedIn := isLoggedIn p; href := href p;
     others := others p |}.

Definition setPanes (bug code : option string) (p : Page) : Page :=
  {| files := files p; currentReport := currentReport p;
     errorMsg := errorMsg p;
     bugReportPre := bug; correctedCodePre := code;
     analyzeBtn_disabled := analyzeBtn_disabled p;
     translateBtn_disabled := translateBtn_disabled p;
     translateBtn_text := translateBtn_text p;
     isLoggedIn := isLoggedIn p; href := href p;
     others := others p |}.

(** [setLoadingState] *)
Definition setLoadingState (b : bool) (p : Page) : Page :=
  {| files := files p; currentReport := currentReport p;
     errorMsg := errorMsg p;
     bugReportPre := bugReportPre p; correctedCodePre := correctedCodePre p;
     analyzeBtn_disabled := b;
     translateBtn_disabled := translateBtn_disabled p;
     translateBtn_text := translateBtn_text p;
     isLoggedIn := isLoggedIn p; href := href p;
     others := others p |}.

Definition setTranslateBtn (disabled : bool) (text : string) (p : Page) : Page :=
  {| files := files p; currentReport := currentReport p;
     errorMsg := errorMsg p;
     bugReportPre := bugReportPre p; correctedCodePre := correctedCodePre p;
     analyzeBtn_disabled := analyzeBtn_disabled p;
     translateBtn_disabled := disabled;
     translateBtn_text := text;
     isLoggedIn := isLoggedIn p; href := href p;
     others := others p |}.

(** [sessionStorage.removeItem('isLoggedIn'); window.location.href = '/login'] *)
Definition toLogin (p : Page) : Page :=
  {| files := files p; currentReport := currentReport p;
     errorMsg := errorMsg p;
     bugReportPre := bugReportPre p; correctedCodePre := correctedCodePre p;
     analyzeBtn_disabled := analyzeBtn_disabled p;
     translateBtn_disabled := translateBtn_disabled p;
     translateBtn_text := translateBtn_text p;
     isLoggedIn := false; href := "/login";
     others := others p |}.

Definition showError (m : Message) (p : Page) : Page :=
  match errorMsg p with
  | Some _ => setErrorMsg (Some (m, true)) p
  | None => p
  end.

Definition hideError (p : Page) : Page :=
  match errorMsg p with
  | Some (m, _) => setErrorMsg (Some (m, false)) p
  | None => p
  end.

(** [10 * 1024 * 1024] *)
Definition maxSize : N := 10 * 1024 * 1024.

Definition analyze_request (file : File) : Request :=
  {| req_url := "/analyze"; req_method := "POST"; req_headers := [];
     req_credentials := Some "same-origin";
     req_body := FormData [("file", PFile file)] |}.

(** [document.getElementById(id)] finds one of the [others]. *)
Definition has (id : string) (p : Page) : bool :=
  existsb (String.eqb id) (others p).

(** [setText(el, v)] on an optional [<pre>], for a [v] that is not
    [null]: [textContent] takes the string of the value.  The outer [None]
    is the [TypeError] of a value that has no string; a page without the
    element converts nothing. *)
Definition pane_text (el : option string) (v : value)
    : option (option string) :=
  match el with
  | Some _ => Some <$> to_string v
  | None => Some None
  end.

(** The values the submit handler turns into strings between
    [currentReport = report] and the two panes, for the [scores] of the
    report: [overall] and [coverage] in template literals; the quality
    level, the dominant time complexity and the bug severity when an
    element is there to take them; the four scores of the Gemini block
    that are truthy, and the four breakdown scores, in template literals
    again.  ([eff] is put into a template only when it is a number.) *)
Definition readouts (p : Page) (scores : value) : list value :=
  let s := or_else scores (JObj []) in
  let field := fun k => default JUndef (get s k) in
  let inner := fun k k' =>
    if truthy (field k) then default JUndef (get (field k) k')
    else field k in
  [or_else (default JUndef (get scores "overall")) (JNum 0);
   or_else (default JUndef (get scores "estimated_coverage")) (JNum 0)]
  ++ (if has "qualityLevel" p || has "qualityLevelValue" p
      then [or_else (field "quality_level") (JStr "N/A")] else [])
  ++ (if has "timeComplexity" p || has "timeComplexityValue" p
      then [or_else (inner "time_complexity" "dominant") (JStr "N/A")]
      else [])
  ++ (if has "bugSeverityValue" p
      then [or_else (inner "bug_analysis" "severity") (JStr "N/A")]
      else [])
  ++ List.filter truthy
       (field <$> ["gemini_quality_score"; "maintainability_score";
                   "readability_score"; "best_practices_score"])
  ++ ((fun k => or_else (field k) (JNum 0)) <$>
        ["review_score"; "test_score"; "doc_score"; "ux_score"]).

(** The names put into the [href] of the two download links, after the
    panes: each when it is truthy and its link exists. *)
Definition links (p : Page) (payload : value) : list value :=
  let file := fun k id =>
    let name := default JUndef (get payload k) in
    if truthy name && has id p then [name] else [] in
  file "report_file" "downloadReport" ++ file "pdf_file" "downloadPdf".

(** The [try] block of the submit handler from [const payload = await
    response.json()] on, for a response that is [ok]: the page it leaves
    and, when it throws, the cause.  [new Error(payload.error)] converts
    its argument, and a value with no string makes it the engine's error. *)
Definition show_report (payload : value) (p : Page) : Page * option Cause :=
  match get payload "error" with
  | None => (p, Some EngineError)
  | Some e =>
      if truthy e
      then (p, Some (if printable e then BackendError e else EngineError))
      else
        let report := default JUndef (get payload "report") in
        let p1 := setCurrentReport report p in
        match get report "scores" with
        | None => (p1, Some EngineError)
        | Some scores =>
            match get scores "overall" with
            | None => (p1, Some EngineError)
            | Some _ =>
                if negb (forallb printable (readouts p1 scores))
                then (p1, Some EngineError)
                else
                  let bug := default JUndef (get report "bug_report") in
                  let code := default JUndef (get report "corrected_code") in
                  match pane_text (bugReportPre p1)
                          (or_else bug (JStr "[no bug report]")) with
                  | None => (p1, Some EngineError)
                  | Some bugPre =>
                      let p2 := setPanes bugPre (correctedCodePre p1) p1 in
                      match pane_text (correctedCodePre p2)
                              (or_else code (JStr "[no corrected code]")) with
                      | None => (p2, Some EngineError)
                      | Some codePre =>
                          let p3 := setPanes (bugReportPre p2) codePre p2 in
                          if forallb printable (links p3 payload)
                          then (p3, None)
                          else (p3, Some EngineError)
                      end
                  end
            end
        end
  end.

Definition catch_analysis (r : Page * option Cause) : Page :=
  match r.2 with
  | Some c => showError (AnalysisFailed c) r.1
  | None => r.1
  end.

(** What follows [await fetch("/analyze", ...)], with [catch] and
    [finally]. *)
Definition after_analyze (o : FetchOutcome) (p : Page) : Page * Task Page :=
  (setLoadingState false
     (match o with
      | NetworkError => catch_analysis (p, Some EngineError)
      | Response status body =>
          if (status =? 401)%nat then toLogin p
          else if negb (response_ok status)
          then catch_analysis (p, Some (HttpStatus status))
          else
            match body with
            | None => catch_analysis (p, Some EngineError)
            | Some payload => catch_analysis (show_report payload p)
            end
      end),
   Done).

(** The [submit] listener of [uploadForm]. *)
Definition submit (p : Page) : Page * Task Page :=
  let p := hideError p in
  match files p with
  | [] => (showError (Text "Please select a file first.") p, Done)
  | file :: _ =>
      if (maxSize <? file_size file)%N
      then (showError (Text "File size too large. Maximum 10MB allowed.") p,
            Done)
      else (hideError (setLoadingState true p),
            AwaitFetch (analyze_request file) after_analyze)
  end.

(** *** Translation *)

Definition translate_request (text : string) : Request :=
  {| req_url := "/translate_to_urdu"; req_method := "POST";
     req_headers := [("Content-Type", "application/json")];
     req_credentials := None;
     req_body := JsonBody (JObj [("text", JStr text)]) |}.

(** [translateToUrdu(text)] from the settled [fetch] on: the value it
    returns, [data.translated_text || text] or, from its [catch], [text],
    and the page after a possible [showError]. *)
Definition translated (text : string) (o : FetchOutcome) (p : Page)
    : Page * value :=
  let translation :=
    match o with
    | NetworkError => None
    | Response status body =>
        if response_ok status then
          data ← body;
          t ← get data "translated_text";
          Some (or_else t (JStr text))
        else None
    end in
  match translation with
  | Some v => (p, v)
  | None =>
      (showError (Text "Translation failed. Please try again.") p, JStr text)
  end.

(** A pane is sent for translation when it exists, is not empty and does
    not show its placeholder. *)
Definition translatable (pane : option string) (placeholder : string)
    : option string :=
  match pane with
  | Some text =>
      if negb (String.eqb text "") && negb (String.eqb text placeholder)
      then Some text else None
  | None => None
  end.

(** The end of the click handler: the button says so and is re-enabled by a
    timer. *)
Definition translate_done (p : Page) : Page * Task Page :=
  (setTranslateBtn (translateBtn_disabled p) "✅ Translated!" p,
   AwaitTimer 2000
     (fun p' => (setTranslateBtn false "🌐 Translate to Urdu" p', Done))).

(** The [catch] of the click handler: the button is restored at once. *)
Definition translate_caught (p : Page) : Page * Task Page :=
  (setTranslateBtn false "🌐 Translate to Urdu" p, Done).

(** The second half of the [try] block: the corrected code.  The pane is
    read when this half begins; the assignment to [textContent] converts
    what [translateToUrdu] returned, and throws when it has no string. *)
Definition translate_code (p : Page) : Page * Task Page :=
  match translatable (correctedCodePre p) "[no corrected code]" with
  | Some originalCode =>
      (p, AwaitFetch (translate_request originalCode)
            (fun o p' =>
               let r := translated originalCode o p' in
               match to_string r.2 with
               | Some s =>
                   translate_done (setPanes (bugReportPre r.1) (Some s) r.1)
               | None => translate_caught r.1
               end))
  | None => translate_done p
  end.

(** The first half: the bug report. *)
Definition translate_bug (p : Page) : Page * Task Page :=
  match translatable (bugReportPre p) "[no bug report]" with
  | Some originalBugReport =>
      (p, AwaitFetch (translate_request originalBugReport)
            (fun o p' =>
               let r := translated originalBugReport o p' in
               match to_string r.2 with
               | Some s =>
                   translate_code
                     (setPanes (Some s) (correctedCodePre r.1) r.1)
               | None => translate_caught r.1
               end))
  | None => translate_code p
  end.

(** The [click] listener of [translateBtn]. *)
Definition translate_click (p : Page) : Page * Task Page :=
  if negb (truthy (currentReport p))
  then (showError (Text "No report available to translate") p, Done)
  else translate_bug (setTranslateBtn true "⏳ Translating..." p).

(** [logout()]: in each of its three branches the session storage is
    cleared and the browser is sent to [/login]. *)
Definition logout_request : Request :=
  {| req_url := "/api/logout"; req_method := "POST";
     req_headers := [("Content-Type", "application/json");
                     ("X-Requested-With", "XMLHttpRequest")];
     req_credentials := Some "same-origin";
     req_body := NoBody |}.

Definition logout (p : Page) : Page * Task Page :=
  (p, AwaitFetch logout_request (fun _ p' => (toLogin p', Done))).

(** *** Sample pages *)

(** The dashboard page as served, with every optional element present. *)
Definition served : Page :=
  {| files := []; currentReport := JNull;
     errorMsg := Some (Text "", false);
     bugReportPre := Some ""; correctedCodePre := Some "";
     analyzeBtn_disabled := false;
     translateBtn_disabled := false;
     translateBtn_text := "🌐 Translate to Urdu";
     isLoggedIn := true; href := "/";
     others := ["qualityLevel"; "qualityLevelValue"; "timeComplexity";
                "timeComplexityValue"; "bugSeverityValue"; "downloadReport";
                "downloadPdf"] |}.

(** One byte more than [maxSize]. *)
Definition oversized : File :=
  {| file_name := "big.py"; file_size := 10485761; file_text := [] |}.

Definition small : File :=
  {| file_name := "main.py"; file_size := 13; file_text := [] |}.

(** The page after [small] was analysed: a report with a bug report and a
    corrected code. *)
Definition reported : Page :=
  (settle (submit (chooseFiles [small] served)).2
     [Response 200
        (Some (JObj
           [("report",
             JObj [("scores", JObj [("overall", JNum 82)]);
                   ("bug_report", JStr "Unused variable x");
                   ("corrected_code", JStr "def f(): pass")])]))]
     (submit (chooseFiles [small] served)).1).1.

(** An answer of [/translate_to_urdu]. *)
Definition urdu : value := JObj [("translated_text", JStr "ترجمہ")].

(** *** Further handlers and vocabulary *)

(** The submission run to its end against one settled [fetch]. *)
Definition submitted (p : Page) (o : FetchOutcome) : Page * list Request :=
  settle (submit p).2 [o] (submit p).1.

(** The click on the translate button run to its end against [env]. *)
Definition translation (p : Page) (env : list FetchOutcome)
    : Page * list Request :=
  settle (translate_click p).2 env (translate_click p).1.

(** The [click] listener of [resetBtn], on the part of the page modelled:
    the file input is emptied, the error box hidden, [currentReport]
    forgotten and the analyze button enabled. *)
Definition reset (p : Page) : Page :=
  setLoadingState false (setCurrentReport JNull (hideError (chooseFiles [] p))).

(** Why an analysis is refused before anything is taken from the answer:
    no answer, a status that is neither 401 nor a 2xx, a body that is not
    JSON or is [null], a truthy [payload.error] (the engine's own error
    when that value has no string to make the message of). *)
Definition refusal (o : FetchOutcome) : option Cause :=
  match o with
  | NetworkError => Some EngineError
  | Response status body =>
      if (status =? 401)%nat then None
      else if negb (response_ok status) then Some (HttpStatus status)
      else
        match body with
        | None => Some EngineError
        | Some payload =>
            match get payload "error" with
            | None => Some EngineError
            | Some e =>
                if truthy e
                then Some (if printable e then BackendError e else EngineError)
                else None
            end
        end
  end.

(** The error box with its display switched off, as [hideError] leaves
    it. *)
Definition hidden (box : option (Message * bool)) : option (Message * bool) :=
  match box with
  | Some (m, _) => Some (m, false)
  | None => None
  end.

(** A translation that does not arrive: the request fails, the status is
    not a 2xx, the body is not JSON, or the JSON is [null]. *)
Definition untranslated (o : FetchOutcome) : bool :=
  match o with
  | NetworkError => true
  | Response status body =>
      negb (response_ok status)
      || match body with
         | None => true
         | Some data => nullish data
         end
  end.

(** The click handler has come to the end of its [try] block on the page
    [l]: the button reads "Translated!", is disabled or not as [l] has it,
    and a timer of 2000 ms is left which restores it on whatever page it
    finds. *)
Definition translation_ends (l : Page) (r : Page * Task Page) : Prop :=
  translateBtn_text r.1 = "✅ Translated!"
  ∧ translateBtn_disabled r.1 = translateBtn_disabled l
  ∧ ∃ k, r.2 = AwaitTimer 2000 k
         ∧ ∀ l', k l' = (setTranslateBtn false "🌐 Translate to Urdu" l', Done).

(** The [catch] of the click handler has run: nothing is left to do and
    the button is restored. *)
Definition translation_caught (r : Page * Task Page) : Prop :=
  r.2 = Done
  ∧ translateBtn_text r.1 = "🌐 Translate to Urdu"
  ∧ translateBtn_disabled r.1 = false.

(** How a pane fares by its request: [text] was sent, the request settled
    as [o] on the page [l] and the handler went on to [r]; [before] and
    [after] are the pane on [l] and on the page of [r]. *)
Definition pane_fares (text : string) (o : FetchOutcome) (l : Page)
    (r : Page * Task Page) (before after : option string) : Prop :=
  (untranslated o = true ->
   after = Some text
   ∧ (is_Some (errorMsg l) ->
      errorMsg r.1 = Some (Text "Translation failed. Please try again.", true)))
  ∧ (∀ status data t,
       o = Response status (Some data) -> response_ok status = true ->
       get data "translated_text" = Some t ->
       errorMsg r.1 = errorMsg l
       ∧ (truthy t = false -> after = Some text)
       ∧ (truthy t = true -> plain t = true ->
          ∀ s, to_string t = Some s -> after = Some s)
       ∧ (truthy t = true -> to_string t = None ->
          after = before ∧ translation_caught r)).

(** A report whose bug report has a property named [toString], and an
    answer of [/translate_to_urdu] whose text has one. *)
Definition masked : value := JObj [("toString", JNum 1)].

Definition masked_report : value :=
  JObj [("report",
         JObj [("scores", JObj [("overall", JNum 82)]);
               ("bug_report", masked);
               ("corrected_code", JStr "x = 1")])].

Definition masked_urdu : value := JObj [("translated_text", masked)].

(** A report the backend sends in full. *)
Definition full_report : value :=
  JObj [("report",
         JObj [("scores", JObj [("overall", JNum 90)]);
               ("corrected_code", JStr "x = 1")]);
        ("report_file", JStr "report.json")].

End Legacy.

(** * Properties *)

(** ** The analysis dispatcher and the result store *)

Module DashboardSpec.
Import Dashboard.

Lemma trim_start_blank (txt : list N) :
  blank txt = true -> trim_start txt = [].
Proof.
  induction txt as [|c txt IH]; simpl; [done|].
  intros [Hc Ht]%andb_prop. rewrite Hc. auto.
Qed.

Lemma trim_start_nil_blank (txt : list N) :
  trim_start txt = [] -> blank txt = true.
Proof.
  induction txt as [|c txt IH]; simpl; [done|].
  destruct (is_js_space c); [auto | discriminate].
Qed.

Lemma blank_trim (txt : list N) : blank txt = true -> trim txt = [].
Proof.
  intros H. unfold trim. by rewrite (trim_start_blank _ H).
Qed.

Lemma trim_start_cons (txt : list N) :
  trim_start txt = []
  ∨ ∃ c rest, trim_start txt = c :: rest ∧ is_js_space c = false.
Proof.
  induction txt as [|c txt IH]; simpl; [by left|].
  destruct (is_js_space c) eqn:Hc; [done|]. right. eauto.
Qed.

Lemma trim_start_snoc (txt : list N) (c : N) :
  is_js_space c = false -> trim_start (txt ++ [c]) ≠ [].
Proof.
  intros Hc. induction txt as [|x txt IH]; simpl.
  - by rewrite Hc.
  - destruct (is_js_space x); [done | discriminate].
Qed.

Lemma trim_nil_blank (txt : list N) : trim txt = [] -> blank txt = true.
Proof.
  unfold trim. intros H. apply trim_start_nil_blank.
  destruct (trim_start_cons txt) as [Hnil | (c & rest & Heq & Hc)]; [done|].
  rewrite Heq in H. simpl in H.
  apply (f_equal (@rev N)) in H. rewrite rev_involutive in H. simpl in H.
  by apply trim_start_snoc in H.
Qed.

(** A code input is rejected exactly when it is blank. *)
Lemma getCodeToAnalyze_None (d : State) :
  getCodeToAnalyze d = None <-> blank (codeInput d) = true.
Proof.
  unfold getCodeToAnalyze. split.
  - destruct (trim (codeInput d)) eqn:Ht; [|discriminate].
    intros _. by apply trim_nil_blank.
  - intros H. by rewrite (blank_trim _ H).
Qed.

Lemma getCodeToAnalyze_Some (d : State) :
  blank (codeInput d) = false ->
  getCodeToAnalyze d = Some (trim (codeInput d)).
Proof.
  intros H. unfold getCodeToAnalyze.
  destruct (trim (codeInput d)) eqn:Ht; [|done].
  apply trim_nil_blank in Ht. congruence.
Qed.

(** What each button does on a code input that is not blank. *)
Lemma handler_dispatch (k : Kind) (d : State) :
  blank (codeInput d) = false ->
  handler k d =
    (setActiveAnalysis (Some k) (setIsAnalyzing true d),
     match k with
     | Security =>
         AwaitTimer 2000
           (fun d' => (finish (store Security security_findings d'), Done))
     | _ =>
         AwaitFetch (analysis_request k (trim (codeInput d)) d)
           (after_response k (language d))
     end).
Proof.
  intros H.
  destruct k; simpl;
    unfold analyzeQuality, analyzeBugs, generateDocs, backend_analysis,
      runSecurityScan;
    by rewrite (getCodeToAnalyze_Some _ H).
Qed.

Lemma handler_blank (k : Kind) (d : State) :
  blank (codeInput d) = true ->
  handler k d = (alert (noCodeError (language d)) d, Done).
Proof.
  intros H%getCodeToAnalyze_None.
  destruct k; simpl;
    unfold analyzeQuality, analyzeBugs, generateDocs, backend_analysis,
      runSecurityScan;
    by rewrite H.
Qed.

Lemma handler_pending (k : Kind) (d : State) :
  blank (codeInput d) = false -> pending_analysis (handler k d).2.
Proof.
  intros H. rewrite (handler_dispatch _ _ H).
  destruct k; simpl; constructor.
Qed.


(** C1. For each of the four analysis kinds, calling the handler while the
    code input is empty (or holds only white space) sends no request and
    suspends nothing: the only effect is one alert with the "no code"
    message of the current language, and run to the end against any
    supply of responses the handler still has sent nothing. *)
Theorem empty_code_sends_nothing (k : Kind) (s : Sys) (env : list FetchOutcome) :
  blank (codeInput (ui s)) = true ->
  sent (invoke k s) = sent s
  ∧ inflight (invoke k s) = inflight s
  ∧ ui (invoke k s) = alert (noCodeError (language (ui s))) (ui s)
  ∧ (settle (handler k (ui s)).2 env (handler k (ui s)).1).2 = [].
Proof.
  intros H. unfold invoke. rewrite (handler_blank _ _ H). simpl.
  by rewrite app_nil_r.
Qed.

Lemma empty_code_sends_nothing_witness :
  blank (codeInput (ui start)) = true
  ∧ sent (invoke Quality start) = sent start
  ∧ inflight (invoke Quality start) = inflight start
  ∧ ui (invoke Quality start)
    = alert (noCodeError (language (ui start))) (ui start)
  ∧ (settle (handler Quality (ui start)).2 [Response 200 None]
       (handler Quality (ui start)).1).2 = [].
Proof.
  split; [reflexivity|].
  apply (empty_code_sends_nothing Quality start [Response 200 None]).
  reflexivity.
Defined.

(** *** The event loop *)

Lemma click_idle (k : Kind) (s : Sys) :
  isAnalyzing (ui s) = false ->
  blank (codeInput (ui s)) = false ->
  step (Click k) s =
    {| ui := setActiveAnalysis (Some k) (setIsAnalyzing true (ui s));
       inflight := inflight s ++ [(handler k (ui s)).2];
       sent := sent s ++ request_of (handler k (ui s)).2;
       reading := reading s;
       leaving := leaving s |}.
Proof.
  intros Hidle Hcode. simpl. rewrite Hidle. unfold invoke, spawn.
  rewrite (handler_dispatch _ _ Hcode). by destruct k.
Qed.

Lemma click_busy (k : Kind) (s : Sys) :
  isAnalyzing (ui s) = true -> step (Click k) s = s.
Proof. intros H. simpl. by rewrite H. Qed.

Lemma serialized_busy (s : Sys) :
  serialized s -> (isAnalyzing (ui s) = true <-> inflight s ≠ []).
Proof.
  intros [[Hin Hb] | (t & Hin & _ & Hb)]; rewrite Hin, Hb; split; done.
Qed.

Lemma serialized_ui (f : State -> State) (s : Sys) :
  (∀ d, isAnalyzing (f d) = isAnalyzing d) ->
  serialized s -> serialized (with_ui f s).
Proof.
  intros Hf [[Hin Hb] | (t & Hin & Ht & Hb)]; [left | right].
  - split; simpl; [done | by rewrite Hf].
  - exists t. simpl. by rewrite Hf.
Qed.

Lemma serialized_same (s s' : Sys) :
  inflight s' = inflight s -> isAnalyzing (ui s') = isAnalyzing (ui s) ->
  serialized s -> serialized s'.
Proof.
  intros Hi Hb [[Hin Hb'] | (t & Hin & Ht & Hb')]; [left | right].
  - split; congruence.
  - exists t. split_and!; congruence.
Qed.

Lemma step_leaving (e : Event) (s : Sys) :
  leaving_logouts s -> leaving_logouts (step e s).
Proof.
  unfold leaving_logouts. intros Hl.
  destruct e as [k|i o|i|txt|f|i|l|k| |i o]; simpl; try done.
  - by destruct (isAnalyzing (ui s)); [|unfold invoke, spawn].
  - destruct (inflight s !! i) as [t|]; [|done].
    by destruct (deliver t o (ui s)).
  - destruct (inflight s !! i) as [t|]; [|done].
    by destruct (elapse t (ui s)).
  - by destruct (reading s !! i).
  - by destruct (truthy _).
  - apply Forall_app. split; [done|]. by apply Forall_singleton.
  - destruct (leaving s !! i) as [t|] eqn:Ht; [|done].
    assert (t = (handleLogout initial).2) as ->.
    { eapply Forall_lookup_1 in Hl; eauto. }
    simpl. by apply Forall_delete.
Qed.

Lemma run_leaving (es : list Event) (s : Sys) :
  leaving_logouts s -> leaving_logouts (run es s).
Proof.
  revert s. induction es as [|e es IH]; intros s Hs; simpl; [done|].
  apply IH. by apply step_leaving.
Qed.

Lemma step_serialized (e : Event) (s : Sys) :
  leaving_logouts s -> serialized s -> serialized (step e s).
Proof.
  intros Hl Hs. destruct e as [k|i o|i|txt|f|i|l|k| |i o].
  - simpl. destruct (isAnalyzing (ui s)) eqn:Hb; [done|].
    destruct Hs as [[Hin _] | (t & _ & _ & Hb')]; [|congruence].
    unfold invoke, spawn. destruct (blank (codeInput (ui s))) eqn:Hc.
    + rewrite (handler_blank _ _ Hc). simpl. by left.
    + pose proof (handler_pending k _ Hc) as Hp.
      rewrite (handler_dispatch _ _ Hc) in *. simpl in *. right.
      eexists. split; [|split; [exact Hp | done]].
      rewrite Hin. by destruct k.
  - simpl. destruct Hs as [[Hin Hb] | (t & Hin & Ht & Hb)].
    + rewrite Hin. simpl. by left.
    + rewrite Hin. destruct i as [|i]; simpl; [|right; eauto].
      destruct Ht; simpl.
      * unfold after_response.
        (destruct (analysis_data o) as [data|];
           [destruct (get data "results")|]); simpl; left; split; simpl;
          rewrite ?Hin; done.
      * right. eexists. split; [done|]. split; [constructor | done].
  - simpl. destruct Hs as [[Hin Hb] | (t & Hin & Ht & Hb)].
    + rewrite Hin. simpl. by left.
    + rewrite Hin. destruct i as [|i]; simpl; [|right; eauto].
      destruct Ht; simpl.
      * right. eexists. split; [done|]. split; [constructor | done].
      * left; split; simpl; rewrite ?Hin; done.
  - by apply serialized_ui.
  - simpl. destruct f as [f|]; simpl.
    + destruct Hs as [[Hin Hb] | (t & Hin & Ht & Hb)]; [by left | right; eauto].
    + destruct Hs as [[Hin Hb] | (t & Hin & Ht & Hb)]; [by left | right; eauto].
  - simpl. destruct (reading s !! i); [|done].
    destruct Hs as [[Hin Hb] | (t & Hin & Ht & Hb)]; [by left | right; eauto].
  - by apply serialized_ui.
  - simpl. destruct (truthy _); [|done]. by apply serialized_ui.
  - by eapply serialized_same; [| |exact Hs].
  - simpl. destruct (leaving s !! i) as [t|] eqn:Ht; [|done].
    assert (t = (handleLogout initial).2) as ->.
    { eapply Forall_lookup_1 in Hl; eauto. }
    by eapply serialized_same; [| |exact Hs].
Qed.

Lemma run_serialized (es : list Event) (s : Sys) :
  leaving_logouts s -> serialized s -> serialized (run es s).
Proof.
  revert s. induction es as [|e es IH]; intros s Hl Hs; simpl; [done|].
  apply IH; [by apply step_leaving | by apply step_serialized].
Qed.

(** C5. In every state the dashboard reaches from its first render, through
    any sequence of clicks, edits, uploads, settled responses and elapsed
    timers, at most one analysis is in flight; the busy flag is set exactly
    while one is; and while one is, a click on any of the four buttons does
    nothing. *)
Theorem one_analysis_in_flight (es : list Event) :
  (length (inflight (run es start)) ≤ 1)%nat
  ∧ (isAnalyzing (ui (run es start)) = true <-> inflight (run es start) ≠ [])
  ∧ (inflight (run es start) ≠ [] ->
     ∀ k, step (Click k) (run es start) = run es start).
Proof.
  assert (serialized (run es start)) as Hs.
  { apply run_serialized; [by constructor | by left]. }
  split; [|split].
  - destruct Hs as [[-> _] | (t & -> & _)]; simpl; lia.
  - by apply serialized_busy.
  - intros Hin k. apply click_busy. by apply serialized_busy.
Qed.

Lemma one_analysis_in_flight_witness :
  inflight (run [Click Quality] typed) ≠ []
  ∧ step (Click Bugs) (run [Click Quality] typed) = run [Click Quality] typed.
Proof.
  assert (inflight (run [Click Quality] typed) ≠ []) as Hin by discriminate.
  split; [exact Hin|].
  destruct (one_analysis_in_flight
              [Edit (text_of_string "def f(): pass"); Click Quality])
    as (_ & _ & Hblocked).
  exact (Hblocked Hin Bugs).
Defined.

(** The scenario of the specification: "bugs" is clicked while "quality"
    is dispatching. *)
Example bugs_while_quality_dispatching :
  let s := run [Edit (text_of_string "def f(): pass"); Click Quality] start in
  step (Click Bugs) s = s
  ∧ length (sent s) = 1
  ∧ activeAnalysis (ui s) = Some Quality.
Proof. vm_compute. done. Qed.

(** *** One run of an analysis *)

Lemma key_inj (k k' : Kind) : key k = key k' -> k = k'.
Proof. by destruct k, k'. Qed.

Lemma click_from_idle (k : Kind) (s : Sys) :
  idle s -> blank (codeInput (ui s)) = false ->
  inflight (step (Click k) s) = [(handler k (ui s)).2]
  ∧ sent (step (Click k) s) = sent s ++ request_of (handler k (ui s)).2
  ∧ isAnalyzing (ui (step (Click k) s)) = true
  ∧ activeAnalysis (ui (step (Click k) s)) = Some k.
Proof.
  intros [Hin Hb] Hc. rewrite (click_idle _ _ Hb Hc). simpl.
  by rewrite Hin.
Qed.

(** C2. The security scan is simulated on the client.  Clicked on an idle
    dashboard with some code, it sends no request and leaves one timer of
    2000 ms behind; no settled response touches that run; when the timer
    elapses, in whatever state the dashboard is by then, still nothing is
    sent, the fixed payload (score 75, the two fixed issues) becomes the
    "security" entry of the result store and the dashboard is idle
    again. *)
Theorem security_scan_is_simulated (s s2 : Sys) (o : FetchOutcome) :
  idle s -> blank (codeInput (ui s)) = false ->
  inflight s2 = inflight (step (Click Security) s) ->
  sent (step (Click Security) s) = sent s
  ∧ (∃ k, inflight (step (Click Security) s) = [AwaitTimer 2000 k])
  ∧ isAnalyzing (ui (step (Click Security) s)) = true
  ∧ step (Settled 0 o) s2 = s2
  ∧ sent (step (Elapsed 0) s2) = sent s2
  ∧ inflight (step (Elapsed 0) s2) = []
  ∧ isAnalyzing (ui (step (Elapsed 0) s2)) = false
  ∧ results (ui (step (Elapsed 0) s2)) !! "security" =
      Some (JObj
        [("vulnerabilities", JNum 2);
         ("securityScore", JNum 75);
         ("issues",
          JArr [JObj [("severity", JStr "high");
                      ("type", JStr "SQL Injection");
                      ("line", JNum 45);
                      ("description", JStr "Unsanitized user input")];
                JObj [("severity", JStr "medium");
                      ("type", JStr "XSS Risk");
                      ("line", JNum 78);
                      ("description", JStr "Unescaped output")]])]).
Proof.
  intros Hidle Hc Hin2.
  destruct (click_from_idle Security s Hidle Hc) as (Hin & Hsent & Hb & _).
  rewrite Hin in Hin2.
  rewrite (handler_dispatch _ _ Hc) in Hin, Hsent, Hin2.
  cbn [snd request_of] in Hin, Hsent, Hin2.
  assert (step (Elapsed 0) s2 =
          {| ui := finish (store Security security_findings (ui s2));
             inflight := []; sent := sent s2; reading := reading s2;
             leaving := leaving s2 |})
    as ->.
  { simpl. rewrite Hin2. simpl. unfold resume, spawn. simpl.
    by rewrite Hin2, app_nil_r. }
  assert (step (Settled 0 o) s2 = s2) as ->.
  { simpl. by rewrite Hin2. }
  rewrite Hsent, Hin, app_nil_r. simpl.
  split_and!; [done | eauto | done | done | done | done | done |].
  by rewrite lookup_insert_eq.
Qed.


(** C4. A successful run of kind [k], started on an idle dashboard and
    completed in whatever state the dashboard is by then, makes the payload
    the value of [k]'s entry of the result store, whatever the entry held
    before, and changes no other entry: not those of the other three kinds,
    nor any other key. *)
Theorem success_overwrites_own_entry (k : Kind) (s s2 : Sys) (e : Event)
    (v : value) :
  idle s -> blank (codeInput (ui s)) = false ->
  inflight s2 = inflight (step (Click k) s) ->
  completes k e v ->
  results (ui (step e s2)) !! key k = Some v
  ∧ (∀ k', k' ≠ k ->
       results (ui (step e s2)) !! key k' = results (ui s2) !! key k')
  ∧ (∀ j : string, j ≠ key k ->
       results (ui (step e s2)) !! j = results (ui s2) !! j).
Proof.
  intros Hidle Hc Hin2 He.
  destruct (click_from_idle k s Hidle Hc) as (Hin & _).
  rewrite Hin in Hin2.
  rewrite (handler_dispatch _ _ Hc) in Hin2.
  cbn [snd] in Hin2.
  assert (results (ui (step e s2)) = <[key k := v]> (results (ui s2))) as ->.
  { destruct k; simpl in He.
    1-3: destruct He as (status & data & -> & Hok & Hres);
      simpl; rewrite Hin2; simpl; unfold after_response; simpl;
      rewrite Hok, Hres; done.
    destruct He as [-> ->]. simpl. by rewrite Hin2. }
  split; [by rewrite lookup_insert_eq|]. split.
  - intros k' Hk. rewrite lookup_insert_ne; [done|].
    intros Heq. by apply key_inj in Heq.
  - intros j Hj. by rewrite lookup_insert_ne.
Qed.

Lemma security_scan_is_simulated_witness :
  idle typed
  ∧ blank (codeInput (ui typed)) = false
  ∧ sent (step (Click Security) typed) = []
  ∧ results (ui (run [Click Security; Elapsed 0] typed)) !! "security"
    = Some security_findings.
Proof.
  split; [by split|]. split; [reflexivity|].
  pose proof (security_scan_is_simulated typed (step (Click Security) typed)
                NetworkError (conj eq_refl eq_refl) eq_refl eq_refl)
    as (H1 & _ & _ & _ & _ & _ & _ & H2).
  split; [exact H1 | exact H2].
Defined.


(** The scenario of the specification: "quality" on [def f(): pass], the
    backend answers [{results: {overall_score: 82, issues: []}}]. *)
Lemma success_overwrites_own_entry_witness :
  idle typed
  ∧ blank (codeInput (ui typed)) = false
  ∧ results
      (ui (step (Settled 0 (Response 200 (Some scenario_body)))
             (step (Click Quality) typed))) !! "quality"
    = Some (JObj [("overall_score", JNum 82); ("issues", JArr [])])
  ∧ results
      (ui (step (Settled 0 (Response 200 (Some scenario_body)))
             (step (Click Quality) typed))) !! "bugs"
    = results (ui (step (Click Quality) typed)) !! "bugs".
Proof.
  split; [by split|]. split; [reflexivity|].
  assert (completes Quality (Settled 0 (Response 200 (Some scenario_body)))
            (JObj [("overall_score", JNum 82); ("issues", JArr [])])) as He.
  { exists 200, scenario_body. by repeat split. }
  pose proof (success_overwrites_own_entry Quality typed
                (step (Click Quality) typed) _ _
                (conj eq_refl eq_refl) eq_refl eq_refl He) as (H1 & H2 & _).
  split; [exact H1|].
  apply (H2 Bugs). discriminate.
Defined.

(** *** The multipart payload *)

(** C9. Every dispatch of the quality, bug or documentation analysis sends
    exactly one POST to the endpoint of its kind whose first part, "file",
    is the trimmed code under a filename: "code.py" when no file has been
    uploaded, the name of the uploaded file when there is one (a name a file
    picker delivers, which is never empty). *)
Theorem blob_is_named_after_the_upload (k : Kind) (s : Sys) :
  k ≠ Security ->
  isAnalyzing (ui s) = false ->
  blank (codeInput (ui s)) = false ->
  ∃ (filename : string) (rest : list (string * Part)),
    sent (step (Click k) s)
    = sent s
      ++ [{| req_url := endpoint k; req_method := "POST";
             req_headers := []; req_credentials := Some "include";
             req_body :=
               FormData (("file", PBlob (trim (codeInput (ui s))) filename)
                         :: rest) |}]
    ∧ (uploadedFile (ui s) = None -> filename = "code.py")
    ∧ (∀ f, uploadedFile (ui s) = Some f -> file_name f ≠ "" ->
         filename = file_name f).
Proof.
  intros Hk Hb Hc. rewrite (click_idle _ _ Hb Hc). simpl.
  rewrite (handler_dispatch _ _ Hc).
  exists (blob_name (ui s)). unfold blob_name.
  destruct k; [| | |done]; simpl; eexists;
    (split; [reflexivity|]); split.
  all: try (intros ->; done).
  all: intros f -> Hf; by apply String.eqb_neq in Hf as ->.
Qed.

Lemma blob_is_named_after_the_upload_witness :
  Bugs ≠ Security
  ∧ isAnalyzing (ui uploaded) = false
  ∧ blank (codeInput (ui uploaded)) = false
  ∧ uploadedFile (ui uploaded) = Some main_py
  ∧ file_name main_py ≠ ""
  ∧ ∃ (filename : string) (rest : list (string * Part)),
      sent (step (Click Bugs) uploaded)
      = sent uploaded
        ++ [{| req_url := endpoint Bugs; req_method := "POST";
               req_headers := []; req_credentials := Some "include";
               req_body :=
                 FormData
                   (("file", PBlob (trim (codeInput (ui uploaded))) filename)
                    :: rest) |}]
      ∧ filename = "main.py".
Proof.
  assert (Bugs ≠ Security) as Hk by discriminate.
  assert (file_name main_py ≠ "") as Hn by discriminate.
  split; [exact Hk|]. split; [reflexivity|]. split; [reflexivity|].
  split; [reflexivity|]. split; [exact Hn|].
  destruct (blob_is_named_after_the_upload Bugs uploaded Hk eq_refl eq_refl)
    as (filename & rest & Hsent & _ & Hname).
  exists filename, rest. split; [exact Hsent|].
  exact (Hname main_py eq_refl Hn).
Defined.

Example pasted_code_is_code_py :
  ∃ code rest,
    sent (step (Click Docs) typed)
    = [{| req_url := "http://localhost:5000/api/analyze/documentation";
          req_method := "POST"; req_headers := [];
          req_credentials := Some "include";
          req_body := FormData (("file", PBlob code "code.py") :: rest) |}].
Proof. by eexists _, _. Qed.

(** *** The issue lists of the result views *)








Example eleventh_issue_is_not_listed :
  item_line <$> default []
    (entries (QualityResults_issues twelve))
  = (fun n : nat => JNum (Z.of_nat n)) <$> seq 1 10.
Proof. reflexivity. Qed.

End DashboardSpec.

(** ** The auth client *)

Module AuthSpec.
Import Auth.

Lemma join_elem_strings (msgs : list string) :
  mapM join_elem (JStr <$> msgs) = Some msgs.
Proof.
  induction msgs as [|m msgs IH]; [done|].
  rewrite fmap_cons. simpl. by rewrite IH.
Qed.

Lemma accepted_inv (status : nat) (data : value) :
  accepted status data = true ->
  response_ok status = true
  ∧ ∃ flag, get data "success" = Some flag ∧ truthy flag = true.
Proof.
  unfold accepted. intros [Hok Hflag]%andb_prop. split; [done|].
  destruct (get data "success") as [flag|]; [eauto | done].
Qed.

Lemma after_auth_accepted (login : bool) (mail : string) (status : nat)
    (data : value) (w : World) :
  accepted status data = true ->
  after_auth login mail (Response status (Some data)) w
  = (setLoading false
       (setUser
          (identity mail
             (or_else (default JUndef (get data "role")) (JStr "user")))
          (setSuccess (if login then "Login successful!"
                       else "Account created successfully!") w)),
     AwaitTimer 1000 (fun w' => (navigate "/dashboard" w', Done))).
Proof.
  intros (Hok & flag & Hflag & Ht)%accepted_inv.
  unfold after_auth, attempt. cbn [mbind option_bind].
  rewrite Hok, Hflag. cbn [fmap option_fmap option_map]. rewrite Ht.
  by destruct data.
Qed.

Lemma after_auth_rejected (login : bool) (mail : string) (status : nat)
    (data : value) (w : World) :
  accepted status data = false ->
  after_auth login mail (Response status (Some data)) w
  = (setLoading false
       (default
          (setError (JStr "Failed to connect to server. Please try again.") w)
          (report_errors data w)),
     Done).
Proof.
  unfold accepted, after_auth, attempt. cbn [mbind option_bind].
  destruct (response_ok status); simpl.
  - destruct (get data "success") as [flag|] eqn:Hflag; simpl.
    + intros ->. by destruct (report_errors data w).
    + by destruct data.
  - intros _. by destruct (report_errors data w).
Qed.

(** C6. A login form submitted with an e-mail address and a password sends
    one POST of [{username, password}] to [/login].  When the response is a
    2xx whose JSON has a truthy [success], the client's identity becomes
    [{username: <the e-mail>, role: <data.role, or "user" without one>}],
    the success message is shown and the location becomes [/dashboard]
    (after the timer of 1000 ms).  Otherwise the identity and the location
    stay as they were and an error is shown instead: the backend's list of
    validation messages joined by ", " when it sent [errors], else its
    [error] when it sent one. *)
Theorem login_outcome (w : World) (status : nat) (data : value) :
  isLogin w = true ->
  (submitted w status data).2
  = [{| req_url := "http://localhost:5000/api/login"; req_method := "POST";
        req_headers := [("Content-Type", "application/json")];
        req_credentials := Some "include";
        req_body := JsonBody (JObj [("username", JStr (email w));
                                    ("password", JStr (password w))]) |}]
  ∧ loading (submitted w status data).1 = false
  ∧ (accepted status data = true ->
       user (submitted w status data).1
       = JObj [("username", JStr (email w));
               ("role", or_else (default JUndef (get data "role"))
                          (JStr "user"))]
       ∧ location (submitted w status data).1 = "/dashboard"
       ∧ success (submitted w status data).1 = "Login successful!"
       ∧ error (submitted w status data).1 = JStr "")
  ∧ (accepted status data = false ->
       user (submitted w status data).1 = user w
       ∧ location (submitted w status data).1 = location w
       ∧ success (submitted w status data).1 = ""
       ∧ (∀ msgs : list string,
            get data "errors" = Some (JArr (JStr <$> msgs)) ->
            error (submitted w status data).1
            = JStr (join_strings ", " msgs))
       ∧ (∀ errors msg,
            get data "errors" = Some errors -> truthy errors = false ->
            get data "error" = Some msg -> truthy msg = true ->
            error (submitted w status data).1 = msg)).
Proof.
  intros Hlogin. unfold submitted, handleSubmit, auth_request, credentials.
  rewrite Hlogin. cbn [fst snd settle].
  destruct (accepted status data) eqn:Hacc.
  - rewrite (after_auth_accepted _ _ _ _ _ Hacc). simpl. by split_and!.
  - rewrite (after_auth_rejected _ _ _ _ _ Hacc). cbn [settle fst snd].
    unfold report_errors.
    destruct (get data "errors") as [errors|] eqn:He; simpl.
    2: { split_and!; [done | done | done |].
         intros _. split_and!; [done | done | done | |]; intros; done. }
    destruct (truthy errors) eqn:Hte.
    + destruct (join errors ", ") as [joined|] eqn:Hj; simpl;
        (split_and!; [done | done | done |];
         intros _; split_and!; [done | done | done | | ]).
      all: try (intros errors' msg [= <-]; congruence).
      all: intros msgs [= ->]; simpl in Hj;
        rewrite join_elem_strings in Hj; by simplify_eq/=.
    + destruct (get data "error") as [err|] eqn:Herr; simpl.
      2: { split_and!; [done | done | done |].
           intros _. split_and!; [done | done | done | |];
             intros; simplify_eq/=. }
      destruct (truthy err) eqn:Hterr; simpl;
        (split_and!; [done | done | done |];
         intros _; split_and!; [done | done | done | | ]).
      all: try (intros msgs [= ->]; done).
      all: intros errors' msg _ _ [= <-]; congruence.
Qed.

(** The scenario of the specification: [{username: "a@b.com", password:
    "x"}] is submitted and the backend answers [{success: true, role:
    "user"}]. *)
Lemma login_outcome_witness :
  isLogin filled = true
  ∧ accepted 200 welcome = true
  ∧ (submitted filled 200 welcome).2
    = [{| req_url := "http://localhost:5000/api/login"; req_method := "POST";
          req_headers := [("Content-Type", "application/json")];
          req_credentials := Some "include";
          req_body := JsonBody (JObj [("username", JStr "a@b.com");
                                      ("password", JStr "x")]) |}]
  ∧ user (submitted filled 200 welcome).1
    = JObj [("username", JStr "a@b.com"); ("role", JStr "user")]
  ∧ location (submitted filled 200 welcome).1 = "/dashboard".
Proof.
  split; [reflexivity|]. split; [reflexivity|].
  destruct (login_outcome filled 200 welcome eq_refl) as (Hreq & _ & Hyes & _).
  destruct (Hyes eq_refl) as (Huser & Hloc & _).
  split; [exact Hreq|]. split; [exact Huser | exact Hloc].
Defined.

(** A rejected login: the backend's validation list, or its message. *)
Example login_rejected_with_errors :
  error (submitted filled 400
           (JObj [("errors", JArr [JStr "Invalid email";
                                   JStr "Password too short"])])).1
  = JStr "Invalid email, Password too short"
  ∧ error (submitted filled 401 (JObj [("error", JStr "Invalid credentials")])).1
    = JStr "Invalid credentials"
  ∧ user (submitted filled 401 (JObj [("error", JStr "Invalid credentials")])).1
    = JNull.
Proof. by split_and!. Qed.

End AuthSpec.

(** ** Input validation and requests per action, across the clients *)

Module ClientsSpec.

(** C7, as the code has it.  In the React dashboard no input handler
    validates anything: a picked file becomes [uploadedFile] and is read,
    its text replaces the code input whatever its size and content, and so
    does any text typed or pasted; none of this sends a request.  The
    legacy upload form validates on the client: with no file chosen, or
    with a file larger than 10 * 1024 * 1024 bytes, the submission sends
    nothing, whatever the network would answer, and shows an error where
    the page has an error box; any other file is posted to [/analyze]
    unchanged. *)
Theorem validation_on_the_client :
  (∀ (s : Dashboard.Sys) (f : File),
     Dashboard.uploadedFile (Dashboard.ui (Dashboard.step (Dashboard.Pick (Some f)) s))
     = Some f
     ∧ Dashboard.reading (Dashboard.step (Dashboard.Pick (Some f)) s)
       = Dashboard.reading s ++ [f]
     ∧ Dashboard.sent (Dashboard.step (Dashboard.Pick (Some f)) s)
       = Dashboard.sent s)
  ∧ (∀ (s : Dashboard.Sys) (i : nat) (f : File),
       Dashboard.reading s !! i = Some f ->
       Dashboard.codeInput (Dashboard.ui (Dashboard.step (Dashboard.Loaded i) s))
       = file_text f
       ∧ Dashboard.sent (Dashboard.step (Dashboard.Loaded i) s)
         = Dashboard.sent s)
  ∧ (∀ (s : Dashboard.Sys) (txt : list N),
       Dashboard.codeInput (Dashboard.ui (Dashboard.step (Dashboard.Edit txt) s))
       = txt
       ∧ Dashboard.sent (Dashboard.step (Dashboard.Edit txt) s)
         = Dashboard.sent s)
  ∧ Legacy.maxSize = 10485760%N
  ∧ (∀ (p : Legacy.Page) (env : list FetchOutcome),
       Legacy.files p = [] ->
       (settle (Legacy.submit p).2 env (Legacy.submit p).1).2 = []
       ∧ (is_Some (Legacy.errorMsg p) ->
          Legacy.errorMsg (Legacy.submit p).1
          = Some (Legacy.Text "Please select a file first.", true)))
  ∧ (∀ (p : Legacy.Page) (f : File) (fs : list File)
       (env : list FetchOutcome),
       Legacy.files p = f :: fs ->
       (Legacy.maxSize < file_size f)%N ->
       (settle (Legacy.submit p).2 env (Legacy.submit p).1).2 = []
       ∧ (is_Some (Legacy.errorMsg p) ->
          Legacy.errorMsg (Legacy.submit p).1
          = Some (Legacy.Text "File size too large. Maximum 10MB allowed.",
                  true)))
  ∧ (∀ (p : Legacy.Page) (f : File) (fs : list File),
       Legacy.files p = f :: fs ->
       (file_size f ≤ Legacy.maxSize)%N ->
       ∃ k, (Legacy.submit p).2
            = AwaitFetch
                {| req_url := "/analyze"; req_method := "POST";
                   req_headers := [];
                   req_credentials := Some "same-origin";
                   req_body := FormData [("file", PFile f)] |} k).
Proof.
  split_and!.
  - intros s f. by split_and!.
  - intros s i f Hf. simpl. by rewrite Hf.
  - intros s txt. by split_and!.
  - reflexivity.
  - intros p env Hfiles. unfold Legacy.submit, Legacy.hideError.
    destruct (Legacy.errorMsg p) as [[m shown]|] eqn:He; simpl;
      rewrite Hfiles; simpl; (split; [done|]).
    + intros _. unfold Legacy.showError. simpl. done.
    + by intros [? ?].
  - intros p f fs env Hfiles Hbig. apply N.ltb_lt in Hbig.
    unfold Legacy.submit, Legacy.hideError.
    destruct (Legacy.errorMsg p) as [[m shown]|] eqn:He; simpl;
      rewrite Hfiles, Hbig; simpl; (split; [done|]).
    + intros _. unfold Legacy.showError. simpl. done.
    + by intros [? ?].
  - intros p f fs Hfiles Hsmall. apply N.ltb_ge in Hsmall.
    unfold Legacy.submit, Legacy.hideError.
    destruct (Legacy.errorMsg p) as [[m shown]|] eqn:He; simpl;
      rewrite Hfiles, Hsmall; simpl; eauto.
Qed.

Lemma validation_on_the_client_witness :
  Legacy.files (Legacy.chooseFiles [Legacy.small] Legacy.served)
  = [Legacy.small]
  ∧ (file_size Legacy.small ≤ Legacy.maxSize)%N
  ∧ Dashboard.reading Dashboard.start !! 0 = None
  ∧ Dashboard.codeInput
      (Dashboard.ui
         (Dashboard.step (Dashboard.Edit [9%N; 0%N; 65279%N]) Dashboard.start))
    = [9%N; 0%N; 65279%N]
  ∧ ∃ k, (Legacy.submit (Legacy.chooseFiles [Legacy.small] Legacy.served)).2
         = AwaitFetch
             {| req_url := "/analyze"; req_method := "POST";
                req_headers := [];
                req_credentials := Some "same-origin";
                req_body := FormData [("file", PFile Legacy.small)] |} k.
Proof.
  assert (file_size Legacy.small ≤ Legacy.maxSize)%N as Hsize by done.
  split; [reflexivity|]. split; [exact Hsize|]. split; [reflexivity|].
  destruct validation_on_the_client as (_ & _ & Hedit & _ & _ & _ & Hpost).
  split.
  - apply (Hedit Dashboard.start [9%N; 0%N; 65279%N]).
  - exact (Hpost (Legacy.chooseFiles [Legacy.small] Legacy.served)
             Legacy.small [] eq_refl Hsize).
Defined.

(** The legacy form turns a file of 10 MB and one byte away by itself: no
    request leaves the client, whatever the backend would have answered,
    and the size error is shown. *)
Lemma oversized_file_is_rejected_on_the_client :
  file_size Legacy.oversized = 10485761%N
  ∧ (settle (Legacy.submit (Legacy.chooseFiles [Legacy.oversized] Legacy.served)).2
       [Response 200 (Some (JObj []))]
       (Legacy.submit (Legacy.chooseFiles [Legacy.oversized] Legacy.served)).1).2
    = []
  ∧ Legacy.errorMsg
      (Legacy.submit (Legacy.chooseFiles [Legacy.oversized] Legacy.served)).1
    = Some (Legacy.Text "File size too large. Maximum 10MB allowed.", true).
Proof. by split_and!. Qed.

(** *** Requests per user action *)

Lemma dashboard_requests (k : Dashboard.Kind) (d : Dashboard.State)
    (env : list FetchOutcome) :
  (length (settle (Dashboard.handler k d).2 env (Dashboard.handler k d).1).2
   ≤ 1)%nat.
Proof.
  destruct (Dashboard.blank (Dashboard.codeInput d)) eqn:Hc.
  - rewrite (DashboardSpec.handler_blank _ _ Hc). simpl. lia.
  - rewrite (DashboardSpec.handler_dispatch _ _ Hc).
    destruct k, env as [|o env]; simpl; try lia;
      unfold Dashboard.after_response;
      (destruct (Dashboard.analysis_data o) as [data|];
       [destruct (get data "results")|]); simpl; lia.
Qed.

Lemma auth_requests (w : Auth.World) (env : list FetchOutcome) :
  (length (settle (Auth.handleSubmit w).2 env (Auth.handleSubmit w).1).2
   ≤ 1)%nat.
Proof.
  unfold Auth.handleSubmit. destruct env as [|o env]; simpl; [lia|].
  unfold Auth.after_auth.
  destruct (Auth.attempt _ _ _ _) as [[w' t]|] eqn:Ha; simpl; [|lia].
  assert (t = Done ∨ ∃ k, t = AwaitTimer 1000 k ∧ ∀ x, (k x).2 = Done) as Ht.
  { unfold Auth.attempt in Ha. destruct o as [|status [data|]]; try done.
    simpl in Ha.
    destruct (if response_ok status then _ else _) as [[|]|]; try done.
    - destruct (get data "role"); simpl in Ha; [|done].
      injection Ha as <- <-. right. eauto.
    - destruct (Auth.report_errors data _); simpl in Ha; [|done].
      injection Ha as <- <-. by left. }
  destruct Ht as [-> | (k & -> & Hk)]; simpl; [lia|].
  specialize (Hk (Auth.setLoading false w')).
  destruct (k (Auth.setLoading false w')) as [w'' t']. simpl in Hk.
  subst t'. simpl. lia.
Qed.

Lemma legacy_submit_requests (p : Legacy.Page) (env : list FetchOutcome) :
  (length (settle (Legacy.submit p).2 env (Legacy.submit p).1).2 ≤ 1)%nat.
Proof.
  unfold Legacy.submit.
  destruct (Legacy.files (Legacy.hideError p)) as [|f fs]; simpl; [lia|].
  destruct (Legacy.maxSize <? file_size f)%N; simpl; [lia|].
  destruct env as [|o env]; simpl; lia.
Qed.

Lemma translate_done_requests (p : Legacy.Page) (env : list FetchOutcome) :
  (settle (Legacy.translate_done p).2 env (Legacy.translate_done p).1).2 = [].
Proof. reflexivity. Qed.

Lemma translate_code_requests (p : Legacy.Page) (env : list FetchOutcome) :
  (length (settle (Legacy.translate_code p).2 env
             (Legacy.translate_code p).1).2 ≤ 1)%nat.
Proof.
  unfold Legacy.translate_code.
  destruct (Legacy.translatable _ _) as [code|].
  - destruct env as [|o env]; simpl; [lia|].
    destruct (to_string _); simpl; lia.
  - rewrite translate_done_requests. simpl. lia.
Qed.

Lemma translate_bug_requests (p : Legacy.Page) (env : list FetchOutcome) :
  (length (settle (Legacy.translate_bug p).2 env
             (Legacy.translate_bug p).1).2 ≤ 2)%nat.
Proof.
  unfold Legacy.translate_bug.
  destruct (Legacy.translatable _ _) as [bug|].
  - destruct env as [|o env]; cbn [fst snd settle length]; [lia|].
    cbv zeta. destruct (to_string _); [|simpl; lia].
    match goal with
    | |- context [Legacy.translate_code ?q] =>
        pose proof (translate_code_requests q env) as Hc;
        destruct (Legacy.translate_code q) as [q' t']
    end.
    simpl in Hc. destruct (settle t' env q') as [q'' rs]. simpl in *. lia.
  - pose proof (translate_code_requests p env). lia.
Qed.

(** C8, as the code has it.  Whatever the network answers, and however
    often it fails, a click on an analysis button, a submission of the
    sign-in form, a submission of the legacy upload form and a logout each
    send at most one request, and a click on the legacy translate button
    sends at most two: one per pane that has something to translate.
    Nothing is sent again after a failure. *)
Theorem requests_per_action (env : list FetchOutcome) :
  (∀ (k : Dashboard.Kind) (d : Dashboard.State),
     (length (settle (Dashboard.handler k d).2 env
                (Dashboard.handler k d).1).2 ≤ 1)%nat)
  ∧ (∀ w : Auth.World,
       (length (settle (Auth.handleSubmit w).2 env
                  (Auth.handleSubmit w).1).2 ≤ 1)%nat)
  ∧ (∀ p : Legacy.Page,
       (length (settle (Legacy.submit p).2 env (Legacy.submit p).1).2
        ≤ 1)%nat)
  ∧ (∀ w : Auth.World,
       (length (settle (Auth.handleLogoutClick w).2 env
                  (Auth.handleLogoutClick w).1).2 ≤ 1)%nat)
  ∧ (∀ p : Legacy.Page,
       (length (settle (Legacy.logout p).2 env (Legacy.logout p).1).2
        ≤ 1)%nat)
  ∧ (∀ p : Legacy.Page,
       (length (settle (Legacy.translate_click p).2 env
                  (Legacy.translate_click p).1).2 ≤ 2)%nat).
Proof.
  split_and!.
  - intros k d. apply dashboard_requests.
  - intros w. apply auth_requests.
  - intros p. apply legacy_submit_requests.
  - intros w. destruct env; simpl; lia.
  - intros p. destruct env; simpl; lia.
  - intros p. unfold Legacy.translate_click.
    destruct (negb (truthy (Legacy.currentReport p))); simpl; [lia|].
    apply translate_bug_requests.
Qed.

(** One click on the translate button of a page that shows a report sends
    two requests, one for each pane. *)
Lemma translate_click_sends_two_requests :
  (settle (Legacy.translate_click Legacy.reported).2
     [Response 200 (Some Legacy.urdu); Response 200 (Some Legacy.urdu)]
     (Legacy.translate_click Legacy.reported).1).2
  = [Legacy.translate_request "Unused variable x";
     Legacy.translate_request "def f(): pass"]
  ∧ ¬ (length
         (settle (Legacy.translate_click Legacy.reported).2
            [Response 200 (Some Legacy.urdu); Response 200 (Some Legacy.urdu)]
            (Legacy.translate_click Legacy.reported).1).2 ≤ 1)%nat.
Proof. split; [reflexivity|]. vm_compute. lia. Qed.

End ClientsSpec.

(** * Further properties *)

Set Warnings "-clear-no-such-hyp".

(** ** The dashboard over whole runs *)

Module DashboardRuns.
Import Dashboard.

Lemma key_in_kinds (k : Kind) : key k ∈ kind_keys.
Proof. destruct k; unfold kind_keys; simpl; set_solver. Qed.

Lemma handler_pending_of (k : Kind) (d : State) :
  blank (codeInput d) = false -> pending_of k (handler k d).2.
Proof.
  intros Hc. rewrite (DashboardSpec.handler_dispatch _ _ Hc).
  destruct k; simpl; by constructor.
Qed.

Lemma coherent_ui (f : State -> State) (s : Sys) :
  (∀ d, isAnalyzing (f d) = isAnalyzing d) ->
  (∀ d, activeAnalysis (f d) = activeAnalysis d) ->
  (∀ d, results (f d) = results d) ->
  (∀ d, dom (expandedSections d) ⊆ dom (expandedSections (f d))) ->
  coherent s -> coherent (with_ui f s).
Proof.
  intros Hb Ha Hr He (Hrun & Hk & Hx). unfold coherent, idle. simpl.
  rewrite Hb, Ha, Hr. split; [done|]. split; [done|].
  specialize (He (ui s)). set_solver.
Qed.

Lemma coherent_same_ui (s s' : Sys) :
  ui s' = ui s -> inflight s' = inflight s -> coherent s -> coherent s'.
Proof. unfold coherent, idle. by intros -> ->. Qed.

Lemma coherent_finish (s : Sys) (d : State) :
  results d = results (ui s) ->
  expandedSections d = expandedSections (ui s) ->
  coherent s ->
  coherent {| ui := finish d; inflight := []; sent := sent s;
              reading := reading s; leaving := leaving s |}.
Proof.
  intros Hr He (_ & Hk & Hx). unfold coherent, idle. simpl.
  rewrite Hr, He. split; [by left|]. done.
Qed.

Lemma coherent_store (s : Sys) (k : Kind) (v : value) :
  coherent s ->
  coherent {| ui := finish (store k v (ui s)); inflight := [];
              sent := sent s; reading := reading s; leaving := leaving s |}.
Proof.
  intros (_ & Hk & Hx). unfold coherent, idle. simpl.
  split; [by left|]. rewrite !dom_insert_L.
  pose proof (key_in_kinds k). set_solver.
Qed.

Lemma coherent_frame (s s' : Sys) :
  inflight s' = inflight s ->
  isAnalyzing (ui s') = isAnalyzing (ui s) ->
  activeAnalysis (ui s') = activeAnalysis (ui s) ->
  results (ui s') = results (ui s) ->
  expandedSections (ui s') = expandedSections (ui s) ->
  coherent s -> coherent s'.
Proof. unfold coherent, idle. by intros -> -> -> -> ->. Qed.

Lemma step_coherent (e : Event) (s : Sys) :
  leaving_logouts s -> coherent s -> coherent (step e s).
Proof.
  intros Hl Hs. destruct e as [k|i o|i|txt|f|i|l|k| |i o].
  - destruct (isAnalyzing (ui s)) eqn:Hb;
      [by rewrite (DashboardSpec.click_busy _ _ Hb)|].
    destruct Hs as ([[[Hin _] Ha] | (k' & t & _ & _ & Hb' & _)] & Hk & Hx);
      [|congruence].
    destruct (blank (codeInput (ui s))) eqn:Hc.
    + simpl. rewrite Hb. unfold invoke, spawn.
      rewrite (DashboardSpec.handler_blank _ _ Hc). simpl.
      split; [by left|]. done.
    + rewrite (DashboardSpec.click_idle _ _ Hb Hc).
      split; [|done]. right. exists k, (handler k (ui s)).2. simpl.
      rewrite Hin. split; [done|].
      split; [by apply handler_pending_of | done].
  - simpl. pose proof Hs as ([[[Hin _] _] | (k & t & Hin & Ht & _)] & _).
    + rewrite Hin. done.
    + rewrite Hin. destruct i as [|i]; [|done]. simpl.
      destruct Ht as [k t code d Hk|]; [|done]. simpl.
      unfold after_response, resume, spawn.
      destruct (analysis_data o) as [data|];
        [destruct (get data "results") as [v|]|]; simpl;
        rewrite Hin, app_nil_r; simpl.
      * by apply coherent_store.
      * change (tearDown (ui s)) with (finish (setGone RenderError (ui s))).
        by apply coherent_finish.
      * by apply coherent_finish.
  - simpl. pose proof Hs as ([[[Hin _] _] | (k & t & Hin & Ht & _)] & _).
    + rewrite Hin. done.
    + rewrite Hin. destruct i as [|i]; [|done]. simpl.
      destruct Ht as [k t code d Hk|]; [done|]. simpl.
      unfold resume, spawn. simpl. rewrite Hin, app_nil_r. simpl.
      by apply coherent_store.
  - by apply coherent_ui.
  - simpl. destruct f as [f|]; simpl; by eapply coherent_same_ui.
  - simpl. destruct (reading s !! i); [|done]. by eapply coherent_same_ui.
  - by apply coherent_ui.
  - simpl. destruct (truthy _); [|done]. apply coherent_ui; try done.
    intros d. simpl. rewrite dom_insert_L. set_solver.
  - by eapply coherent_same_ui.
  - simpl. destruct (leaving s !! i) as [t|] eqn:Ht; [|done].
    assert (t = (handleLogout initial).2) as ->.
    { eapply Forall_lookup_1 in Hl; eauto. }
    by eapply coherent_frame; [| | | | |exact Hs].
Qed.

Lemma start_coherent : coherent start.
Proof.
  unfold coherent, idle. simpl. split; [by left|].
  rewrite !dom_empty_L. done.
Qed.

Lemma start_leaving : leaving_logouts start.
Proof. by constructor. Qed.

Lemma run_coherent (es : list Event) (s : Sys) :
  leaving_logouts s -> coherent s -> coherent (run es s).
Proof.
  revert s. induction es as [|e es IH]; intros s Hl Hs; simpl; [done|].
  apply IH; [by apply DashboardSpec.step_leaving | by apply step_coherent].
Qed.

Lemma reached_coherent (es : list Event) : coherent (run es start).
Proof. apply run_coherent; [apply start_leaving | apply start_coherent]. Qed.

(** X1. In every state the dashboard reaches, the busy flag is set exactly
    when a kind is active, and the active kind is the one whose handler is
    suspended: a request to that kind's endpoint is in flight, or, for the
    security scan, its timer of 2000 ms is running. *)
Theorem active_kind_is_the_one_in_flight (es : list Event) :
  (isAnalyzing (ui (run es start)) = true
   <-> is_Some (activeAnalysis (ui (run es start))))
  ∧ ∀ k, activeAnalysis (ui (run es start)) = Some k ->
      ∃ t, inflight (run es start) = [t]
           ∧ (k = Security -> ∃ f, t = AwaitTimer 2000 f)
           ∧ (k ≠ Security ->
              ∃ r f, t = AwaitFetch r f ∧ req_url r = endpoint k).
Proof.
  destruct (reached_coherent es)
    as ([[[Hin Hb] Ha] | (k & t & Hin & Ht & Hb & Ha)] & _).
  - rewrite Hb, Ha. split; [split; [done | by intros [? ?]] | done].
  - rewrite Hb, Ha. split; [split; eauto|].
    intros k' [= <-]. exists t. split; [done|].
    destruct Ht as [k l code d Hk|]; split; try done; eauto.
Qed.

Lemma active_kind_is_the_one_in_flight_witness :
  activeAnalysis (ui (run [Click Docs] typed)) = Some Docs
  ∧ Docs ≠ Security
  ∧ ∃ t r f, inflight (run [Click Docs] typed) = [t]
             ∧ t = AwaitFetch r f
             ∧ req_url r = "http://localhost:5000/api/analyze/documentation".
Proof.
  assert (Docs ≠ Security) as Hk by discriminate.
  split; [reflexivity|]. split; [exact Hk|].
  destruct (active_kind_is_the_one_in_flight
              [Edit (text_of_string "def f(): pass"); Click Docs])
    as [_ H].
  destruct (H Docs eq_refl) as (t & Hin & _ & Hfetch).
  destruct (Hfetch Hk) as (r & f & Ht & Hr).
  exists t, r, f. split; [exact Hin|]. split; [exact Ht | exact Hr].
Defined.

(** X2. Whatever the backend sends and whatever the user does, the result
    store never gets a key other than "quality", "bugs", "docs" and
    "security", and every key it has also has an expansion flag. *)
Theorem store_has_only_kind_keys (es : list Event) (j : string) :
  is_Some (results (ui (run es start)) !! j) ->
  (j = "quality" ∨ j = "bugs" ∨ j = "docs" ∨ j = "security")
  ∧ is_Some (expandedSections (ui (run es start)) !! j).
Proof.
  destruct (reached_coherent es) as (_ & Hk & Hx).
  intros Hj%elem_of_dom. split.
  - apply Hk in Hj. unfold kind_keys in Hj. set_solver.
  - apply elem_of_dom. by apply Hx.
Qed.

Lemma store_has_only_kind_keys_witness :
  is_Some (results
             (ui (run [Click Quality;
                       Settled 0 (Response 200 (Some scenario_body))] typed))
           !! "quality")
  ∧ is_Some (expandedSections
               (ui (run [Click Quality;
                         Settled 0 (Response 200 (Some scenario_body))] typed))
             !! "quality").
Proof.
  assert (is_Some (results
             (ui (run [Click Quality;
                       Settled 0 (Response 200 (Some scenario_body))] typed))
           !! "quality")) as H.
  { eexists. reflexivity. }
  split; [exact H|].
  exact (proj2 (store_has_only_kind_keys
                  [Edit (text_of_string "def f(): pass"); Click Quality;
                   Settled 0 (Response 200 (Some scenario_body))]
                  "quality" H)).
Defined.

(** X3. An analysis in flight comes to an end with the answer it is
    waiting for.  In every state the dashboard reaches with an analysis in
    flight a kind is active.  If it is not the security scan, the settling
    of the request, whatever it settles as, leaves nothing in flight.
    Unless the answer is a 2xx whose JSON is [null], the busy flag and the
    active kind are cleared; after a failed run (no answer, a status that
    is not a 2xx, a body that is not JSON) the store and the expansion
    flags are as before and the handler has not taken the component off
    the page.  On a 2xx whose JSON is [null] nothing fails in the handler:
    no alert is raised, the store is not updated, and React unmounts the
    component when it applies the updater.  If the active kind is the
    security scan, the elapsing of the timer brings the dashboard back to
    idle. *)
Theorem in_flight_analysis_resolves (es : list Event) (o : FetchOutcome) :
  inflight (run es start) ≠ [] ->
  (∃ k, activeAnalysis (ui (run es start)) = Some k)
  ∧ (activeAnalysis (ui (run es start)) ≠ Some Security ->
       inflight (step (Settled 0 o) (run es start)) = []
       ∧ (tears_down o = false ->
            isAnalyzing (ui (step (Settled 0 o) (run es start))) = false
            ∧ activeAnalysis (ui (step (Settled 0 o) (run es start))) = None)
       ∧ (failed o = true ->
            results (ui (step (Settled 0 o) (run es start)))
            = results (ui (run es start))
            ∧ expandedSections (ui (step (Settled 0 o) (run es start)))
              = expandedSections (ui (run es start))
            ∧ gone (ui (step (Settled 0 o) (run es start)))
              = gone (ui (run es start)))
       ∧ (tears_down o = true ->
            gone (ui (step (Settled 0 o) (run es start))) = Some RenderError
            ∧ alerts (ui (step (Settled 0 o) (run es start)))
              = alerts (ui (run es start))
            ∧ results (ui (step (Settled 0 o) (run es start)))
              = results (ui (run es start))))
  ∧ (activeAnalysis (ui (run es start)) = Some Security ->
       idle (step (Elapsed 0) (run es start))
       ∧ activeAnalysis (ui (step (Elapsed 0) (run es start))) = None).
Proof.
  destruct (reached_coherent es)
    as ([[[Hin Hb] Ha] | (k & t & Hin & Ht & Hb & Ha)] & _); [done|].
  intros _. rewrite Ha. split; [eauto|].
  destruct Ht as [k l code d Hk|].
  - split; [|by intros [= ->]]. intros _.
    simpl. rewrite Hin. simpl. unfold resume, spawn, idle, after_response.
    destruct o as [|status [data|]]; simpl.
    + rewrite Hin. by split_and!.
    + destruct (response_ok status); simpl.
      * destruct data; simpl; rewrite Hin; by split_and!.
      * rewrite Hin. by split_and!.
    + destruct (response_ok status); simpl; rewrite Hin; by split_and!.
  - split; [done|]. intros _.
    simpl. rewrite Hin. simpl. unfold resume, spawn, idle. simpl.
    by rewrite Hin.
Qed.

Lemma in_flight_analysis_resolves_witness :
  inflight (run [Click Quality] typed) ≠ []
  ∧ activeAnalysis (ui (run [Click Quality] typed)) ≠ Some Security
  ∧ tears_down NetworkError = false
  ∧ isAnalyzing (ui (run [Click Quality; Settled 0 NetworkError] typed))
    = false.
Proof.
  assert (inflight (run [Click Quality] typed) ≠ []) as H by discriminate.
  assert (activeAnalysis (ui (run [Click Quality] typed)) ≠ Some Security)
    as Hk by discriminate.
  split; [exact H|]. split; [exact Hk|]. split; [reflexivity|].
  destruct (in_flight_analysis_resolves
              [Edit (text_of_string "def f(): pass"); Click Quality]
              NetworkError H) as (_ & Hfetch & _).
  destruct (Hfetch Hk) as (_ & Hidle & _).
  exact (proj1 (Hidle eq_refl)).
Defined.

(** A 2xx answer [null] to "quality": no alert, and the component is
    gone. *)
Example null_answer_unmounts_the_dashboard :
  gone (ui (run [Click Quality; Settled 0 (Response 200 (Some JNull))] typed))
  = Some RenderError
  ∧ alerts (ui (run [Click Quality; Settled 0 (Response 200 (Some JNull))]
                  typed)) = [].
Proof. by split. Qed.

Lemma step_sent (e : Event) (s : Sys) :
  leaving_logouts s -> coherent s ->
  ∃ new, sent (step e s) = sent s ++ new
         ∧ (length new ≤ if is_click e then 1 else 0)%nat.
Proof.
  intros Hl Hs.
  assert (∀ s', sent s' = sent s ->
            ∃ new, sent s' = sent s ++ new ∧ (length new ≤ 0)%nat) as Hnone.
  { intros s' ->. exists []. by rewrite app_nil_r. }
  destruct e as [k|i o|i|txt|f|i|l|k| |i o]; simpl.
  - destruct (isAnalyzing (ui s)).
    + exists []. rewrite app_nil_r. split; [done | simpl; lia].
    + exists (request_of (handler k (ui s)).2). split; [done|].
      destruct (handler k (ui s)).2; simpl; lia.
  - apply Hnone.
    destruct Hs as ([[[Hin _] _] | (k & t & Hin & Ht & _)] & _);
      rewrite Hin; [done|].
    destruct i as [|i]; [|done]. simpl.
    destruct Ht as [k t code d Hk|]; [|done]. simpl.
    unfold after_response.
    (destruct (analysis_data o) as [data|];
     [destruct (get data "results")|]); simpl; by rewrite app_nil_r.
  - apply Hnone.
    destruct Hs as ([[[Hin _] _] | (k & t & Hin & Ht & _)] & _);
      rewrite Hin; [done|].
    destruct i as [|i]; [|done]. simpl.
    destruct Ht as [k t code d Hk|]; [done|]. simpl. by rewrite app_nil_r.
  - by apply Hnone.
  - by apply Hnone.
  - apply Hnone. by destruct (reading s !! i).
  - by apply Hnone.
  - apply Hnone. by destruct (truthy _).
  - exists [logout_request]. split; [done | simpl; lia].
  - apply Hnone. destruct (leaving s !! i) as [t|] eqn:Ht; [|done].
    assert (t = (handleLogout initial).2) as ->.
    { eapply Forall_lookup_1 in Hl; eauto. }
    simpl. by rewrite app_nil_r.
Qed.

Lemma run_sent (es : list Event) (s : Sys) :
  leaving_logouts s -> coherent s ->
  ∃ new, sent (run es s) = sent s ++ new ∧ (length new ≤ clicks es)%nat.
Proof.
  revert s. induction es as [|e es IH]; intros s Hl Hs; simpl.
  - exists []. by rewrite app_nil_r.
  - destruct (step_sent e s Hl Hs) as (new1 & H1 & Hl1).
    destruct (IH _ (DashboardSpec.step_leaving e s Hl)
                (step_coherent e s Hl Hs)) as (new2 & H2 & Hl2).
    exists (new1 ++ new2). rewrite H2, H1, <- app_assoc.
    split; [done|]. rewrite length_app. lia.
Qed.

(** X4. Requests leave the dashboard only on clicks on its buttons: along
    any sequence of events the requests sent so far are never withdrawn or
    reordered (each further stretch of events only appends), and their
    number is at most the number of clicks on the four action buttons and
    on the Logout button; responses, timers, edits, uploads, language
    changes and toggles send nothing.  A click on Logout sends its request
    whether an analysis is in flight or not, and whatever that request
    settles as, the browser is sent to [/]. *)
Theorem requests_only_on_clicks (es more : list Event) :
  (length (sent (run es start)) ≤ clicks es)%nat
  ∧ (∃ new, sent (run (es ++ more) start) = sent (run es start) ++ new
            ∧ (length new ≤ clicks more)%nat)
  ∧ sent (step Logout (run es start))
    = sent (run es start)
      ++ [{| req_url := "http://localhost:5000/api/logout";
             req_method := "POST"; req_headers := [];
             req_credentials := Some "include"; req_body := NoBody |}]
  ∧ ∀ i o, is_Some (leaving (run es start) !! i) ->
      gone (ui (step (LoggedOut i o) (run es start))) = Some (Navigated "/")
      ∧ sent (step (LoggedOut i o) (run es start)) = sent (run es start).
Proof.
  split_and!.
  - destruct (run_sent es start start_leaving start_coherent)
      as (new & -> & Hl). done.
  - unfold run. rewrite foldl_app.
    apply (run_sent more);
      [apply DashboardSpec.run_leaving, start_leaving | apply reached_coherent].
  - done.
  - intros i o [t Ht]. simpl. rewrite Ht.
    pose proof (DashboardSpec.run_leaving es start start_leaving) as Hl.
    assert (t = (handleLogout initial).2) as ->.
    { eapply Forall_lookup_1 in Hl; eauto. }
    simpl. by rewrite app_nil_r.
Qed.

End DashboardRuns.

(** ** The dashboard, one interaction at a time *)

Module DashboardBehaviour.
Import Dashboard.

Lemma blank_app (a b : list N) : blank (a ++ b) = blank a && blank b.
Proof. apply forallb_app. Qed.

Lemma blank_rev (a : list N) : blank (rev a) = blank a.
Proof.
  induction a as [|c a IH]; [done|].
  simpl. rewrite blank_app, IH. simpl. destruct (is_js_space c), (blank a); done.
Qed.

Lemma trim_start_suffix (s : list N) :
  ∃ pre, s = pre ++ trim_start s ∧ blank pre = true.
Proof.
  induction s as [|c s (pre & Hs & Hpre)]; simpl.
  - by exists [].
  - destruct (is_js_space c) eqn:Hc.
    + exists (c :: pre). simpl. rewrite Hc, Hpre. by rewrite <- Hs.
    + by exists [].
Qed.

Lemma trim_start_blank_app (pre s : list N) :
  blank pre = true -> trim_start (pre ++ s) = trim_start s.
Proof.
  induction pre as [|c pre IH]; simpl; [done|].
  intros [Hc Hpre]%andb_prop. rewrite Hc. auto.
Qed.

Lemma trim_start_app_blank (s post : list N) :
  trim_start s ≠ [] -> trim_start (s ++ post) = trim_start s ++ post.
Proof.
  induction s as [|c s IH]; simpl; [done|].
  destruct (is_js_space c); auto.
Qed.

(** What [trim] keeps is the input without a blank prefix and a blank
    suffix. *)
Lemma trim_decompose (s : list N) :
  ∃ pre post, s = pre ++ trim s ++ post
              ∧ blank pre = true ∧ blank post = true.
Proof.
  destruct (trim_start_suffix s) as (pre & Hs & Hpre).
  destruct (trim_start_suffix (rev (trim_start s))) as (q & Hq & Hblank).
  exists pre, (rev q). split; [|by rewrite blank_rev].
  unfold trim. rewrite <- rev_app_distr, <- Hq, rev_involutive. done.
Qed.

Lemma trim_ends (s : list N) :
  trim s ≠ [] ->
  (∃ c, head (trim s) = Some c ∧ is_js_space c = false)
  ∧ (∃ c, last (trim s) = Some c ∧ is_js_space c = false).
Proof.
  intros Hne.
  destruct (DashboardSpec.trim_start_cons s) as [Hnil | (c0 & t & Ht & Hc0)].
  { exfalso. apply Hne. unfold trim. by rewrite Hnil. }
  destruct (DashboardSpec.trim_start_cons (rev (trim_start s)))
    as [Hnil | (c1 & u & Hu & Hc1)].
  { exfalso. apply Hne. unfold trim. by rewrite Hnil. }
  destruct (trim_start_suffix (rev (trim_start s))) as (q & Hq & Hblank).
  split.
  - exists c0. split; [|done].
    assert (trim_start s = trim s ++ rev q) as Hsplit.
    { unfold trim. by rewrite <- rev_app_distr, <- Hq, rev_involutive. }
    rewrite Ht in Hsplit. destruct (trim s) as [|x xs]; [done|].
    simpl in *. congruence.
  - exists c1. split; [|done]. unfold trim. rewrite Hu. simpl.
    by rewrite last_snoc.
Qed.

Lemma trim_ignores_blank_ends (pre s post : list N) :
  blank pre = true -> blank post = true ->
  trim (pre ++ s ++ post) = trim s.
Proof.
  intros Hpre Hpost. unfold trim.
  rewrite (trim_start_blank_app _ _ Hpre).
  destruct (DashboardSpec.trim_start_cons s) as [Hnil | (c & t & Ht & Hc)].
  - rewrite Hnil.
    assert (blank (s ++ post) = true) as Hb.
    { rewrite blank_app, Hpost.
      by rewrite (DashboardSpec.trim_start_nil_blank _ Hnil). }
    by rewrite (DashboardSpec.trim_start_blank _ Hb).
  - rewrite trim_start_app_blank by (rewrite Ht; done).
    rewrite rev_app_distr.
    rewrite trim_start_blank_app by (by rewrite blank_rev). done.
Qed.

(** X5. The code that is sent is the editor's text without its leading and
    trailing white space and nothing else: the text of the editor is a
    blank stretch, the blob, and a blank stretch; the blob begins and ends
    with a character that is not white space. *)
Theorem sent_code_is_the_trimmed_text (k : Kind) (s : Sys) :
  k ≠ Security ->
  isAnalyzing (ui s) = false ->
  blank (codeInput (ui s)) = false ->
  ∃ code filename rest pre post,
    sent (step (Click k) s)
    = sent s
      ++ [{| req_url := endpoint k; req_method := "POST";
             req_headers := []; req_credentials := Some "include";
             req_body := FormData (("file", PBlob code filename) :: rest) |}]
    ∧ codeInput (ui s) = pre ++ code ++ post
    ∧ blank pre = true ∧ blank post = true
    ∧ (∃ c, head code = Some c ∧ is_js_space c = false)
    ∧ (∃ c, last code = Some c ∧ is_js_space c = false).
Proof.
  intros Hk Hb Hc. rewrite (DashboardSpec.click_idle _ _ Hb Hc). simpl.
  rewrite (DashboardSpec.handler_dispatch _ _ Hc).
  destruct (trim_decompose (codeInput (ui s))) as (pre & post & Hs & Hpre & Hpost).
  assert (trim (codeInput (ui s)) ≠ []) as Hne.
  { intros Hnil%DashboardSpec.trim_nil_blank. congruence. }
  destruct (trim_ends _ Hne) as [Hhead Hlast].
  exists (trim (codeInput (ui s))), (blob_name (ui s)).
  destruct k; [| | |done]; simpl; eexists; exists pre, post;
    (split; [reflexivity|]); done.
Qed.

Lemma sent_code_is_the_trimmed_text_witness :
  Quality ≠ Security
  ∧ isAnalyzing (ui (step (Edit [32; 10; 120; 32; 61; 32; 49; 10]%N) start))
    = false
  ∧ blank (codeInput (ui (step (Edit [32; 10; 120; 32; 61; 32; 49; 10]%N) start)))
    = false
  ∧ ∃ code filename rest pre post,
      sent (run [Edit [32; 10; 120; 32; 61; 32; 49; 10]%N; Click Quality] start)
      = sent (step (Edit [32; 10; 120; 32; 61; 32; 49; 10]%N) start)
        ++ [{| req_url := endpoint Quality; req_method := "POST";
               req_headers := []; req_credentials := Some "include";
               req_body := FormData (("file", PBlob code filename) :: rest) |}]
      ∧ [32; 10; 120; 32; 61; 32; 49; 10]%N = pre ++ code ++ post
      ∧ blank pre = true ∧ blank post = true
      ∧ (∃ c, head code = Some c ∧ is_js_space c = false)
      ∧ (∃ c, last code = Some c ∧ is_js_space c = false).
Proof.
  assert (Quality ≠ Security) as Hk by discriminate.
  split; [exact Hk|]. split; [reflexivity|]. split; [reflexivity|].
  exact (sent_code_is_the_trimmed_text Quality
           (step (Edit [32; 10; 120; 32; 61; 32; 49; 10]%N) start)
           Hk eq_refl eq_refl).
Defined.

(** X6. White space around the code makes no difference to what an
    analysis works on: with a blank stretch put before and after it, the
    editor's text yields the same code to analyse, or is turned down all
    the same. *)
Theorem surrounding_space_is_ignored (pre post : list N) (d : State) :
  blank pre = true -> blank post = true ->
  getCodeToAnalyze (setCodeInput (pre ++ codeInput d ++ post) d)
  = getCodeToAnalyze d.
Proof.
  intros Hpre Hpost. unfold getCodeToAnalyze. simpl.
  by rewrite (trim_ignores_blank_ends _ _ _ Hpre Hpost).
Qed.

Lemma surrounding_space_is_ignored_witness :
  blank [9; 32]%N = true
  ∧ blank [13; 10; 65279]%N = true
  ∧ getCodeToAnalyze
      (setCodeInput ([9; 32]%N ++ codeInput (ui typed) ++ [13; 10; 65279]%N)
         (ui typed))
    = getCodeToAnalyze (ui typed).
Proof.
  split; [reflexivity|]. split; [reflexivity|].
  exact (surrounding_space_is_ignored [9; 32]%N [13; 10; 65279]%N (ui typed)
           eq_refl eq_refl).
Defined.

(** *** Sections of the results panel *)

(** X7. A click on a section header changes that section's expanded flag
    and nothing else: the result store, the requests sent and the handlers
    in flight stay as they are, the other sections keep their flags, the
    clicked section flips, and a second click brings it back. *)
Theorem toggle_flips_one_flag (k : Kind) (s : Sys) :
  results (ui (step (Toggle k) s)) = results (ui s)
  ∧ sent (step (Toggle k) s) = sent s
  ∧ inflight (step (Toggle k) s) = inflight s
  ∧ (∀ k', k' ≠ k ->
       sectionExpanded k' (ui (step (Toggle k) s))
       = sectionExpanded k' (ui s))
  ∧ (sectionShown k (ui s) = true ->
       sectionExpanded k (ui (step (Toggle k) s))
       = negb (sectionExpanded k (ui s)))
  ∧ sectionExpanded k (ui (step (Toggle k) (step (Toggle k) s)))
    = sectionExpanded k (ui s).
Proof.
  unfold sectionShown, sectionExpanded. simpl.
  destruct (truthy (default JUndef (results (ui s) !! key k))) eqn:Hshown;
    simpl; [|rewrite Hshown; by split_and!].
  rewrite Hshown. simpl. split_and!; try done.
  - intros k' Hk. rewrite lookup_insert_ne; [done|].
    intros Heq. by apply DashboardSpec.key_inj in Heq.
  - intros _. by rewrite lookup_insert_eq.
  - rewrite !lookup_insert_eq. simpl. by rewrite negb_involutive.
Qed.




(** *** Uploads *)

(** X9. Each picked file gets a reader of its own, and the readers may
    finish in any order: when a second file is picked before the first is
    read and the first is read last, the dashboard holds the second file's
    name with the first file's text, and an analysis then sends that text
    under that name. *)
Theorem readers_can_cross (s : Sys) (f1 f2 : File) :
  reading s = [] ->
  isAnalyzing (ui s) = false ->
  blank (file_text f1) = false ->
  file_name f2 ≠ "" ->
  uploadedFile (ui (run [Pick (Some f1); Pick (Some f2); Loaded 1; Loaded 0] s))
  = Some f2
  ∧ codeInput (ui (run [Pick (Some f1); Pick (Some f2); Loaded 1; Loaded 0] s))
    = file_text f1
  ∧ ∃ rest,
      sent (run [Pick (Some f1); Pick (Some f2); Loaded 1; Loaded 0;
                 Click Quality] s)
      = sent s
        ++ [{| req_url := endpoint Quality; req_method := "POST";
               req_headers := []; req_credentials := Some "include";
               req_body :=
                 FormData (("file", PBlob (trim (file_text f1)) (file_name f2))
                           :: rest) |}].
Proof.
  intros Hr Hb Hc Hn.
  assert (run [Pick (Some f1); Pick (Some f2); Loaded 1; Loaded 0] s
          = {| ui := setCodeInput (file_text f1)
                       (setCodeInput (file_text f2)
                          (setUploadedFile (Some f2)
                             (setUploadedFile (Some f1) (ui s))));
               inflight := inflight s; sent := sent s; reading := [];
               leaving := leaving s |})
    as Hrun.
  { simpl. rewrite Hr. done. }
  change (run [Pick (Some f1); Pick (Some f2); Loaded 1; Loaded 0;
               Click Quality] s)
    with (step (Click Quality)
            (run [Pick (Some f1); Pick (Some f2); Loaded 1; Loaded 0] s)).
  rewrite Hrun. split; [done|]. split; [done|].
  rewrite DashboardSpec.click_idle by done.
  rewrite DashboardSpec.handler_dispatch by done.
  simpl. unfold analysis_request, form_data, blob_name. simpl.
  apply String.eqb_neq in Hn. rewrite Hn. eauto.
Qed.

Lemma readers_can_cross_witness :
  reading start = []
  ∧ isAnalyzing (ui start) = false
  ∧ blank (file_text main_py) = false
  ∧ file_name utils_js ≠ ""
  ∧ uploadedFile
      (ui (run [Pick (Some main_py); Pick (Some utils_js); Loaded 1; Loaded 0]
             start))
    = Some utils_js
  ∧ codeInput
      (ui (run [Pick (Some main_py); Pick (Some utils_js); Loaded 1; Loaded 0]
             start))
    = file_text main_py.
Proof.
  assert (file_name utils_js ≠ "") as Hn by discriminate.
  split; [reflexivity|]. split; [reflexivity|]. split; [reflexivity|].
  split; [exact Hn|].
  destruct (readers_can_cross start main_py utils_js eq_refl eq_refl eq_refl Hn)
    as (H1 & H2 & _).
  split; [exact H1 | exact H2].
Defined.

Lemma step_keeps_upload (e : Event) (s : Sys) :
  leaving_logouts s -> coherent s -> is_pick e = false ->
  uploadedFile (ui (step e s)) = uploadedFile (ui s).
Proof.
  intros Hl Hs He. destruct e as [k|i o|i|txt|f|i|l|k| |i o]; simpl.
  - destruct (isAnalyzing (ui s)); [done|].
    unfold invoke, spawn. simpl.
    destruct (blank (codeInput (ui s))) eqn:Hc.
    + by rewrite (DashboardSpec.handler_blank _ _ Hc).
    + by rewrite (DashboardSpec.handler_dispatch _ _ Hc).
  - destruct Hs as ([[[Hin _] _] | (k & t & Hin & Ht & _)] & _);
      rewrite Hin; [done|].
    destruct i as [|i]; [|done]. simpl.
    destruct Ht as [k t code d Hk|]; [|done]. simpl.
    unfold after_response.
    by destruct (analysis_data o) as [data|];
      [destruct (get data "results")|].
  - destruct Hs as ([[[Hin _] _] | (k & t & Hin & Ht & _)] & _);
      rewrite Hin; [done|].
    destruct i as [|i]; [|done]. simpl.
    by destruct Ht as [k t code d Hk|].
  - done.
  - by destruct f.
  - by destruct (reading s !! i).
  - done.
  - by destruct (truthy _).
  - done.
  - destruct (leaving s !! i) as [t|] eqn:Ht; [|done].
    assert (t = (handleLogout initial).2) as ->.
    { eapply Forall_lookup_1 in Hl; eauto. }
    done.
Qed.

(** X10. Nothing but picking another file changes the uploaded file: once a
    file has been picked, its name stays attached to every later analysis,
    whatever is typed into the editor, analysed, answered or toggled in
    between. *)
Theorem upload_stays_until_replaced (es more : list Event) :
  forallb (fun e => negb (is_pick e)) more = true ->
  uploadedFile (ui (run (es ++ more) start))
  = uploadedFile (ui (run es start)).
Proof.
  unfold run at 1. rewrite foldl_app. fold (run es start).
  pose proof (DashboardRuns.reached_coherent es) as Hs.
  pose proof (DashboardSpec.run_leaving es start DashboardRuns.start_leaving)
    as Hl.
  revert Hl Hs. generalize (run es start). clear es.
  induction more as [|e more IH]; intros s Hl Hs Hmore; simpl; [done|].
  simpl in Hmore. apply andb_prop in Hmore as [He Hmore].
  apply negb_true_iff in He.
  rewrite IH;
    [| by apply DashboardSpec.step_leaving
     | by apply DashboardRuns.step_coherent | done].
  by apply step_keeps_upload.
Qed.

Lemma upload_stays_until_replaced_witness :
  forallb (fun e => negb (is_pick e))
    [Edit (text_of_string "x = 1"); Click Bugs; Settled 0 NetworkError;
     Pick None] = true
  ∧ uploadedFile
      (ui (run ([Pick (Some main_py); Loaded 0]
                ++ [Edit (text_of_string "x = 1"); Click Bugs;
                    Settled 0 NetworkError; Pick None]) start))
    = Some main_py.
Proof.
  split; [reflexivity|].
  exact (upload_stays_until_replaced [Pick (Some main_py); Loaded 0]
           [Edit (text_of_string "x = 1"); Click Bugs; Settled 0 NetworkError;
            Pick None] eq_refl).
Defined.

(** *** The issue lists, off the beaten path *)

Lemma issue_slot_first_ten (row : value -> option IssueItem)
    (xs xs' : list value) :
  take 10 xs = take 10 xs' ->
  issue_slot slice_0_10 row (JArr xs) = issue_slot slice_0_10 row (JArr xs').
Proof.
  intros Hten. unfold issue_slot, slice_0_10. simpl. rewrite Hten.
  destruct xs as [|x xs], xs' as [|x' xs']; simpl in *; done.
Qed.

(** X11. The quality view and the bug view look at nothing beyond the tenth
    entry: two payloads whose lists agree on their first ten entries are
    rendered alike, rows, missing card or [TypeError], whatever follows. *)
Theorem views_ignore_entries_after_the_tenth (r r' : value)
    (xs xs' : list value) :
  take 10 xs = take 10 xs' ->
  (get r "issues" = Some (JArr xs) -> get r' "issues" = Some (JArr xs') ->
   QualityResults_issues r = QualityResults_issues r')
  ∧ (get r "bugs" = Some (JArr xs) -> get r' "bugs" = Some (JArr xs') ->
     BugResults_bugs r = BugResults_bugs r').
Proof.
  intros Hten. split; intros Hr Hr'.
  - unfold QualityResults_issues. rewrite Hr, Hr'.
    by apply issue_slot_first_ten.
  - unfold BugResults_bugs. rewrite Hr, Hr'.
    by apply issue_slot_first_ten.
Qed.

Lemma views_ignore_entries_after_the_tenth_witness :
  take 10 twelve_issues = take 10 (take 10 twelve_issues ++ [JNull])
  ∧ QualityResults_issues twelve
    = QualityResults_issues
        (JObj [("issues", JArr (take 10 twelve_issues ++ [JNull]))]).
Proof.
  assert (take 10 twelve_issues = take 10 (take 10 twelve_issues ++ [JNull]))
    as Hten by reflexivity.
  split; [exact Hten|].
  exact (proj1 (views_ignore_entries_after_the_tenth twelve
                  (JObj [("issues", JArr (take 10 twelve_issues ++ [JNull]))])
                  twelve_issues (take 10 twelve_issues ++ [JNull]) Hten)
           eq_refl eq_refl).
Defined.

Lemma rows_null (row : value -> option IssueItem) (xs : list value)
    (i : nat) (x : value) :
  xs !! i = Some x -> row x = None -> rows row xs = None.
Proof.
  revert i. induction xs as [|y xs IH]; intros i Hi Hx; [done|].
  destruct i as [|i]; simpl in *.
  - injection Hi as ->. by rewrite Hx.
  - destruct (row y); [|done]. by rewrite (IH i Hi Hx).
Qed.

Lemma issue_slot_null (shown : list value -> list value)
    (row : value -> option IssueItem) (xs : list value) (i : nat) (x : value) :
  shown xs !! i = Some x -> row x = None -> xs ≠ [] ->
  issue_slot shown row (JArr xs) = Throws.
Proof.
  intros Hi Hx Hne. unfold issue_slot. simpl.
  destruct xs as [|y xs]; [done|]. simpl.
  by rewrite (rows_null row _ i x Hi Hx).
Qed.

(** X12. One [null] among the entries that a view lists makes the whole view
    throw instead of rendering: any entry for the security view, any of the
    first ten for the quality and the bug view. *)
Theorem null_entry_breaks_the_view (r : value) (xs : list value) (i : nat)
    (x : value) :
  xs !! i = Some x -> nullish x = true ->
  (get r "issues" = Some (JArr xs) -> SecurityResults_issues r = Throws)
  ∧ (get r "issues" = Some (JArr xs) -> i < 10 ->
     QualityResults_issues r = Throws)
  ∧ (get r "bugs" = Some (JArr xs) -> i < 10 ->
     BugResults_bugs r = Throws).
Proof.
  intros Hi Hx.
  assert (xs ≠ []) as Hne by (by destruct xs).
  assert (∀ n, i < n -> take n xs !! i = Some x) as Htake.
  { intros n Hn. by rewrite lookup_take_lt. }
  split_and!.
  - intros Hr. unfold SecurityResults_issues. rewrite Hr.
    apply (issue_slot_null _ _ _ i x); [done | by destruct x | done].
  - intros Hr Hlt. unfold QualityResults_issues. rewrite Hr.
    apply (issue_slot_null _ _ _ i x);
      [by apply Htake | by destruct x | done].
  - intros Hr Hlt. unfold BugResults_bugs. rewrite Hr.
    apply (issue_slot_null _ _ _ i x);
      [by apply Htake | by destruct x | done].
Qed.

Lemma null_entry_breaks_the_view_witness :
  (take 10 twelve_issues ++ [JNull]) !! 10 = Some JNull
  ∧ nullish JNull = true
  ∧ SecurityResults_issues
      (JObj [("issues", JArr (take 10 twelve_issues ++ [JNull]))])
    = Throws.
Proof.
  split; [reflexivity|]. split; [reflexivity|].
  exact (proj1 (null_entry_breaks_the_view
                  (JObj [("issues", JArr (take 10 twelve_issues ++ [JNull]))])
                  (take 10 twelve_issues ++ [JNull]) 10 JNull
                  eq_refl eq_refl) eq_refl).
Defined.



End DashboardBehaviour.

(** ** The sign-in page, off the beaten path *)

Module AuthBehaviour.
Import Auth.

Lemma after_auth_unreadable (login : bool) (mail : string)
    (o : FetchOutcome) (w : World) :
  unreadable o = true ->
  after_auth login mail o w
  = (setLoading false
       (setError (JStr "Failed to connect to server. Please try again.") w),
     Done).
Proof.
  destruct o as [|status [data|]]; simpl; [done| |done].
  intros Hnull. unfold after_auth, attempt. cbn [mbind option_bind].
  destruct data; try discriminate; by destruct (response_ok status).
Qed.

Lemma report_errors_fields (data : value) (w w' : World) :
  report_errors data w = Some w' ->
  user w' = user w ∧ location w' = location w ∧ success w' = success w
  ∧ email w' = email w ∧ isLogin w' = isLogin w.
Proof.
  unfold report_errors.
  destruct (get data "errors") as [errors|]; simpl; [|done].
  destruct (truthy errors).
  - destruct (join errors ", "); simpl; [|done]. by intros [= <-].
  - destruct (get data "error") as [err|]; simpl; [|done].
    destruct (truthy err); by intros [= <-].
Qed.

Lemma after_auth_not_signed_in (login : bool) (mail : string)
    (o : FetchOutcome) (w : World) :
  signs_in o = false ->
  (after_auth login mail o w).2 = Done
  ∧ user (after_auth login mail o w).1 = user w
  ∧ location (after_auth login mail o w).1 = location w
  ∧ success (after_auth login mail o w).1 = success w
  ∧ loading (after_auth login mail o w).1 = false.
Proof.
  destruct o as [|status [data|]]; simpl; [done| |done].
  intros Hacc. rewrite (AuthSpec.after_auth_rejected _ _ _ _ _ Hacc). simpl.
  destruct (report_errors data w) as [w'|] eqn:Hrep; simpl; [|done].
  destruct (report_errors_fields _ _ _ Hrep) as (Hu & Hl & Hs & _).
  by rewrite Hu, Hl, Hs.
Qed.

(** X14. Nothing but an accepted answer signs the user in: after any other
    outcome of a submission (no answer, an unreadable one, a non-2xx
    status, a body without a truthy [success]) the identity and the
    location are what they were, no success message is shown, exactly one
    request has been sent and the submit button is enabled again. *)
Theorem only_an_accepted_answer_signs_in (w : World) (o : FetchOutcome) :
  signs_in o = false ->
  user (settled w o).1 = user w
  ∧ location (settled w o).1 = location w
  ∧ success (settled w o).1 = ""
  ∧ loading (settled w o).1 = false
  ∧ (settled w o).2 = [auth_request w].
Proof.
  intros Hno. unfold settled, handleSubmit. cbn [fst snd settle].
  pose proof (after_auth_not_signed_in (isLogin w) (email w) o
                (setSuccess "" (setError (JStr "") (setLoading true w))) Hno)
    as (Ht & Hu & Hl & Hs & Hload).
  destruct (after_auth _ _ _ _) as [w' t]. simpl in *. subst t. simpl.
  by rewrite Hu, Hl, Hs, Hload.
Qed.

(** A body that says [success: true] under a 500 does not sign in. *)
Lemma only_an_accepted_answer_signs_in_witness :
  signs_in (Response 500 (Some welcome)) = false
  ∧ user (settled filled (Response 500 (Some welcome))).1 = JNull
  ∧ location (settled filled (Response 500 (Some welcome))).1 = "/auth".
Proof.
  split; [reflexivity|].
  destruct (only_an_accepted_answer_signs_in filled
              (Response 500 (Some welcome)) eq_refl) as (Hu & Hl & _).
  split; [exact Hu | exact Hl].
Defined.

(** X15. The two fallback messages.  An answer the client cannot read (no
    answer at all, a body that is not JSON, a JSON [null]) is reported as
    "Failed to connect to server. Please try again.", whatever its status,
    and so is a rejection whose [errors] is truthy but not an array; a
    readable rejection that carries neither [errors] nor [error] is
    reported as "An error occurred. Please try again.". *)
Theorem fallback_messages (w : World) (o : FetchOutcome) :
  (unreadable o = true ->
   error (settled w o).1
   = JStr "Failed to connect to server. Please try again.")
  ∧ (∀ status data errors,
       o = Response status (Some data) -> accepted status data = false ->
       get data "errors" = Some errors -> truthy errors = true ->
       join errors ", " = None ->
       error (settled w o).1
       = JStr "Failed to connect to server. Please try again.")
  ∧ (∀ status data errors err,
       o = Response status (Some data) -> accepted status data = false ->
       get data "errors" = Some errors -> truthy errors = false ->
       get data "error" = Some err -> truthy err = false ->
       error (settled w o).1 = JStr "An error occurred. Please try again.").
Proof.
  unfold settled, handleSubmit. cbn [fst snd settle]. split_and!.
  - intros Hu. by rewrite (after_auth_unreadable _ _ _ _ Hu).
  - intros status data errors -> Hacc He Ht Hj.
    rewrite (AuthSpec.after_auth_rejected _ _ _ _ _ Hacc).
    unfold report_errors. rewrite He. simpl. rewrite Ht, Hj. done.
  - intros status data errors err -> Hacc He Ht Herr Hterr.
    rewrite (AuthSpec.after_auth_rejected _ _ _ _ _ Hacc).
    unfold report_errors. rewrite He. simpl. rewrite Ht, Herr. simpl.
    by rewrite Hterr.
Qed.

(** An HTML error page, a string for [errors], an empty object. *)
Lemma fallback_messages_witness :
  unreadable (Response 502 None) = true
  ∧ error (settled filled (Response 502 None)).1
    = JStr "Failed to connect to server. Please try again."
  ∧ error (settled filled
             (Response 400 (Some (JObj [("errors", JStr "bad email")])))).1
    = JStr "Failed to connect to server. Please try again."
  ∧ error (settled filled (Response 400 (Some (JObj [])))).1
    = JStr "An error occurred. Please try again.".
Proof.
  split; [reflexivity|]. split; [|split].
  - exact (proj1 (fallback_messages filled (Response 502 None)) eq_refl).
  - exact (proj1 (proj2 (fallback_messages filled
                           (Response 400
                              (Some (JObj [("errors", JStr "bad email")])))))
             400 (JObj [("errors", JStr "bad email")]) (JStr "bad email")
             eq_refl eq_refl eq_refl eq_refl eq_refl).
  - exact (proj2 (proj2 (fallback_messages filled
                           (Response 400 (Some (JObj [])))))
             400 (JObj []) JUndef JUndef
             eq_refl eq_refl eq_refl eq_refl eq_refl eq_refl).
Defined.

(** X16. In register mode the form posts [{username, password, role:
    "user"}] once to [/register]; an accepted answer shows "Account created
    successfully!", makes the identity [{username: <the e-mail>, role:
    <data.role, or "user">}] and leads to [/dashboard], as a login does. *)
Theorem register_outcome (w : World) (status : nat) (data : value) :
  isLogin w = false ->
  (submitted w status data).2
  = [{| req_url := "http://localhost:5000/api/register"; req_method := "POST";
        req_headers := [("Content-Type", "application/json")];
        req_credentials := Some "include";
        req_body := JsonBody (JObj [("username", JStr (email w));
                                    ("password", JStr (password w));
                                    ("role", JStr "user")]) |}]
  ∧ (accepted status data = true ->
       user (submitted w status data).1
       = JObj [("username", JStr (email w));
               ("role", or_else (default JUndef (get data "role"))
                          (JStr "user"))]
       ∧ location (submitted w status data).1 = "/dashboard"
       ∧ success (submitted w status data).1
         = "Account created successfully!").
Proof.
  intros Hmode. unfold submitted, handleSubmit, auth_request, credentials.
  rewrite Hmode. cbn [fst snd settle].
  destruct (accepted status data) eqn:Hacc.
  - rewrite (AuthSpec.after_auth_accepted _ _ _ _ _ Hacc). simpl. by split.
  - rewrite (AuthSpec.after_auth_rejected _ _ _ _ _ Hacc). simpl. by split.
Qed.

Lemma register_outcome_witness :
  isLogin (toggleMode initial) = false
  ∧ accepted 201 (JObj [("success", JBool true)]) = true
  ∧ user (submitted (handleInputChange FEmail "new@b.com" (toggleMode initial))
            201 (JObj [("success", JBool true)])).1
    = JObj [("username", JStr "new@b.com"); ("role", JStr "user")].
Proof.
  split; [reflexivity|]. split; [reflexivity|].
  exact (proj1 (proj2 (register_outcome
                         (handleInputChange FEmail "new@b.com"
                            (toggleMode initial))
                         201 (JObj [("success", JBool true)]) eq_refl)
                  eq_refl)).
Defined.

(** X17. The answer is applied to the form as it was submitted, not as it
    is when the answer arrives: if the user edits the e-mail field or
    switches mode while the request is in flight, the identity still
    carries the submitted e-mail and the success message is that of the
    submitted mode, and the form keeps what the user has entered since. *)
Theorem answer_is_for_the_submitted_form (w later : World) (status : nat)
    (data : value) :
  accepted status data = true ->
  ∃ w' t,
    deliver (handleSubmit w).2 (Response status (Some data)) later
    = Some (w', t)
    ∧ user w'
      = JObj [("username", JStr (email w));
              ("role", or_else (default JUndef (get data "role"))
                         (JStr "user"))]
    ∧ success w' = (if isLogin w then "Login successful!"
                    else "Account created successfully!")
    ∧ email w' = email later
    ∧ isLogin w' = isLogin later.
Proof.
  intros Hacc. unfold handleSubmit. cbn [snd deliver].
  rewrite (AuthSpec.after_auth_accepted _ _ _ _ _ Hacc).
  eexists _, _. split; [reflexivity|]. by destruct (isLogin w).
Qed.

Lemma answer_is_for_the_submitted_form_witness :
  accepted 200 welcome = true
  ∧ ∃ w' t,
      deliver (handleSubmit filled).2 (Response 200 (Some welcome))
        (toggleMode (handleSubmit filled).1)
      = Some (w', t)
      ∧ user w' = JObj [("username", JStr "a@b.com"); ("role", JStr "user")]
      ∧ success w' = "Login successful!"
      ∧ email w' = ""
      ∧ isLogin w' = false.
Proof.
  split; [reflexivity|].
  exact (answer_is_for_the_submitted_form filled
           (toggleMode (handleSubmit filled).1) 200 welcome eq_refl).
Defined.

(** X18. The session check that [App] runs when it mounts sends one GET to
    [/api/check-session] and changes nothing but the identity, and that
    only on a JSON answer with a truthy [authenticated]: the identity then
    becomes [data.user], whatever the HTTP status of the answer; on any
    other outcome a signed-in user stays signed in. *)
Theorem session_check_only_signs_in (w : World) (o : FetchOutcome) :
  (settle (checkSession w).2 [o] (checkSession w).1).2 = [session_request]
  ∧ location (settle (checkSession w).2 [o] (checkSession w).1).1 = location w
  ∧ error (settle (checkSession w).2 [o] (checkSession w).1).1 = error w
  ∧ (∀ status data flag,
       o = Response status (Some data) ->
       get data "authenticated" = Some flag -> truthy flag = true ->
       user (settle (checkSession w).2 [o] (checkSession w).1).1
       = default JUndef (get data "user"))
  ∧ ((∀ status data flag,
        o = Response status (Some data) ->
        get data "authenticated" = Some flag -> truthy flag = false) ->
     user (settle (checkSession w).2 [o] (checkSession w).1).1 = user w).
Proof.
  unfold checkSession. cbn [fst snd settle]. unfold after_session.
  destruct o as [|status [data|]]; simpl.
  - split_and!; [done | done | done | intros ? ? ? [=] | done].
  - destruct (get data "authenticated") as [flag|] eqn:Hflag; simpl.
    + destruct (truthy flag) eqn:Ht; simpl.
      * split_and!; [done | done | done | |].
        -- by intros status' data' flag' [= <- <-] _ _.
        -- intros H. specialize (H status data flag eq_refl Hflag).
           congruence.
      * split_and!; [done | done | done | | done].
        intros status' data' flag' [= <- <-] Hf Htrue. congruence.
    + split_and!; [done | done | done | | done].
      intros status' data' flag' [= <- <-] Hf. congruence.
  - split_and!; [done | done | done | intros ? ? ? [=] | done].
Qed.

Lemma session_check_only_signs_in_witness :
  user (settle (checkSession initial).2
          [Response 500 (Some (JObj [("authenticated", JBool true);
                                     ("user", JStr "a@b.com")]))]
          (checkSession initial).1).1
  = JStr "a@b.com".
Proof.
  exact (proj1 (proj2 (proj2 (proj2 (session_check_only_signs_in initial
           (Response 500 (Some (JObj [("authenticated", JBool true);
                                      ("user", JStr "a@b.com")])))))))
           500 (JObj [("authenticated", JBool true); ("user", JStr "a@b.com")])
           (JBool true) eq_refl eq_refl eq_refl).
Defined.

End AuthBehaviour.

(** ** The legacy page, off the beaten path *)

Module LegacyBehaviour.
Import Legacy.

Lemma settle_fetch {W : Type} (r : Request)
    (k : FetchOutcome -> W -> W * Task W) (o : FetchOutcome)
    (env : list FetchOutcome) (w : W) :
  settle (AwaitFetch r k) (o :: env) w
  = ((settle (k o w).2 env (k o w).1).1,
     r :: (settle (k o w).2 env (k o w).1).2).
Proof.
  cbn [settle]. destruct (k o w) as [w' t']. cbn [fst snd].
  by destruct (settle t' env w').
Qed.

Lemma submit_sends (p : Page) (f : File) (fs : list File) :
  files p = f :: fs -> (file_size f ≤ maxSize)%N ->
  submit p = (hideError (setLoadingState true (hideError p)),
              AwaitFetch (analyze_request f) after_analyze).
Proof.
  intros Hf Hsize%N.ltb_ge. unfold submit.
  assert (files (hideError p) = f :: fs) as ->.
  { unfold hideError. by destruct (errorMsg p) as [[m b]|]. }
  by rewrite Hsize.
Qed.

Lemma submitted_sends (p : Page) (f : File) (fs : list File)
    (o : FetchOutcome) :
  files p = f :: fs -> (file_size f ≤ maxSize)%N ->
  submitted p o
  = ((after_analyze o (hideError (setLoadingState true (hideError p)))).1,
     [analyze_request f]).
Proof.
  intros Hf Hsize. unfold submitted. rewrite (submit_sends p f fs Hf Hsize).
  cbn [fst snd]. by rewrite settle_fetch.
Qed.

Lemma pending_box (p : Page) :
  errorMsg (hideError (setLoadingState true (hideError p)))
  = hidden (errorMsg p).
Proof.
  unfold hideError.
  destruct (errorMsg p) as [[m b]|] eqn:E; simpl; by rewrite ?E.
Qed.

Lemma pending_frame (p : Page) :
  currentReport (hideError (setLoadingState true (hideError p)))
  = currentReport p
  ∧ bugReportPre (hideError (setLoadingState true (hideError p)))
    = bugReportPre p
  ∧ correctedCodePre (hideError (setLoadingState true (hideError p)))
    = correctedCodePre p
  ∧ href (hideError (setLoadingState true (hideError p))) = href p
  ∧ isLoggedIn (hideError (setLoadingState true (hideError p)))
    = isLoggedIn p.
Proof.
  unfold hideError.
  destruct (errorMsg p) as [[m b]|] eqn:E; simpl; by rewrite ?E.
Qed.

Lemma submit_delivers (p later : Page) (f : File) (fs : list File)
    (o : FetchOutcome) :
  files p = f :: fs -> (file_size f ≤ maxSize)%N ->
  deliver (submit p).2 o later = Some (after_analyze o later).
Proof. intros Hf Hsize. by rewrite (submit_sends p f fs Hf Hsize). Qed.

(** X19. A submission that passes the two checks disables the analyze
    button and sends one request to [/analyze].  When that request settles,
    whatever it settles as and whatever state the page is in by then, the
    handler enables the button and ends, sending nothing more.  The button
    does not wait for that: a reset while the request is out enables it at
    once. *)
Theorem analyze_button_follows_the_request (p later : Page) (f : File)
    (fs : list File) (o : FetchOutcome) :
  files p = f :: fs -> (file_size f ≤ maxSize)%N ->
  analyzeBtn_disabled (submit p).1 = true
  ∧ request_of (submit p).2 = [analyze_request f]
  ∧ (∃ q, deliver (submit p).2 o later = Some (q, Done)
          ∧ analyzeBtn_disabled q = false)
  ∧ analyzeBtn_disabled (reset (submit p).1) = false.
Proof.
  intros Hf Hsize. rewrite (submit_delivers p later f fs o Hf Hsize).
  rewrite (submit_sends p f fs Hf Hsize). split_and!.
  - simpl. unfold hideError.
    destruct (errorMsg p) as [[m b]|] eqn:E; simpl; by rewrite ?E.
  - done.
  - by eexists.
  - done.
Qed.

Lemma analyze_button_follows_the_request_witness :
  files (chooseFiles [small] served) = [small]
  ∧ (file_size small ≤ maxSize)%N
  ∧ analyzeBtn_disabled (submit (chooseFiles [small] served)).1 = true
  ∧ ∃ q, deliver (submit (chooseFiles [small] served)).2 NetworkError
           (submit (chooseFiles [small] served)).1 = Some (q, Done)
         ∧ analyzeBtn_disabled q = false.
Proof.
  assert (file_size small ≤ maxSize)%N as Hsize by done.
  split; [reflexivity|]. split; [exact Hsize|].
  destruct (analyze_button_follows_the_request (chooseFiles [small] served)
              (submit (chooseFiles [small] served)).1
              small [] NetworkError eq_refl Hsize) as (H1 & _ & H3 & _).
  split; [exact H1 | exact H3].
Defined.

(** X20. An answer with status 401 ends the session on the client: the
    [isLoggedIn] flag is removed and the browser is sent to [/login]; no
    error is shown, and the report and the two panes are left as they
    were, whatever the body of the answer. *)
Theorem unauthorized_answer_leads_to_login (p : Page) (f : File)
    (fs : list File) (body : option value) :
  files p = f :: fs -> (file_size f ≤ maxSize)%N ->
  href (submitted p (Response 401 body)).1 = "/login"
  ∧ isLoggedIn (submitted p (Response 401 body)).1 = false
  ∧ errorMsg (submitted p (Response 401 body)).1 = hidden (errorMsg p)
  ∧ currentReport (submitted p (Response 401 body)).1 = currentReport p
  ∧ bugReportPre (submitted p (Response 401 body)).1 = bugReportPre p
  ∧ correctedCodePre (submitted p (Response 401 body)).1
    = correctedCodePre p.
Proof.
  intros Hf Hsize. rewrite (submitted_sends p f fs _ Hf Hsize). simpl.
  rewrite pending_box.
  destruct (pending_frame p) as (Hr & Hb & Hc & _). by rewrite Hr, Hb, Hc.
Qed.

Lemma unauthorized_answer_leads_to_login_witness :
  files (chooseFiles [small] reported) = [small]
  ∧ (file_size small ≤ maxSize)%N
  ∧ href (submitted (chooseFiles [small] reported)
            (Response 401 (Some (JObj [("error", JStr "Login required")])))).1
    = "/login"
  ∧ errorMsg (submitted (chooseFiles [small] reported)
                (Response 401
                   (Some (JObj [("error", JStr "Login required")])))).1
    = hidden (errorMsg (chooseFiles [small] reported)).
Proof.
  assert (file_size small ≤ maxSize)%N as Hsize by done.
  split; [reflexivity|]. split; [exact Hsize|].
  destruct (unauthorized_answer_leads_to_login (chooseFiles [small] reported)
              small [] (Some (JObj [("error", JStr "Login required")]))
              eq_refl Hsize) as (H1 & _ & H3 & _).
  split; [exact H1 | exact H3].
Defined.

(** X21. A refused analysis changes nothing but the error box: when no
    answer comes, or one with a status that is neither 401 nor a 2xx, or a
    body that is not JSON, or a payload with a truthy [error], the report,
    the two panes, the session flag and the location stay as they were, and
    the box, where the page has one, shows "Analysis failed" with that
    cause. *)
Theorem refused_analysis_keeps_the_report (p : Page) (f : File)
    (fs : list File) (o : FetchOutcome) (c : Cause) :
  files p = f :: fs -> (file_size f ≤ maxSize)%N ->
  refusal o = Some c ->
  currentReport (submitted p o).1 = currentReport p
  ∧ bugReportPre (submitted p o).1 = bugReportPre p
  ∧ correctedCodePre (submitted p o).1 = correctedCodePre p
  ∧ isLoggedIn (submitted p o).1 = isLoggedIn p
  ∧ href (submitted p o).1 = href p
  ∧ (is_Some (errorMsg p) ->
     errorMsg (submitted p o).1 = Some (AnalysisFailed c, true)).
Proof.
  intros Hf Hsize Hc. rewrite (submitted_sends p f fs o Hf Hsize).
  destruct (pending_frame p) as (Hr & Hb & Hcode & Hh & Hl).
  pose proof (pending_box p) as Hbox.
  set (q := hideError (setLoadingState true (hideError p))) in *.
  assert ((after_analyze o q).1
          = setLoadingState false (showError (AnalysisFailed c) q)) as ->.
  { unfold after_analyze, refusal in *. cbn [fst].
    destruct o as [|status body]; [by injection Hc as <-|].
    destruct (status =? 401)%nat; [done|].
    destruct (negb (response_ok status)); [by injection Hc as <-|].
    destruct body as [payload|]; [|by injection Hc as <-].
    unfold show_report.
    destruct (get payload "error") as [e|]; [|by injection Hc as <-].
    destruct (truthy e); [by injection Hc as <-|done]. }
  unfold showError. rewrite Hbox.
  destruct (errorMsg p) as [[m b]|]; simpl; rewrite ?Hr, ?Hb, ?Hcode, ?Hh, ?Hl;
    split_and!; done.
Qed.

Lemma refused_analysis_keeps_the_report_witness :
  files (chooseFiles [small] reported) = [small]
  ∧ (file_size small ≤ maxSize)%N
  ∧ refusal (Response 503 None) = Some (HttpStatus 503)
  ∧ currentReport (submitted (chooseFiles [small] reported)
                     (Response 503 None)).1
    = currentReport reported
  ∧ errorMsg (submitted (chooseFiles [small] reported) (Response 503 None)).1
    = Some (AnalysisFailed (HttpStatus 503), true).
Proof.
  assert (file_size small ≤ maxSize)%N as Hsize by done.
  assert (is_Some (errorMsg (chooseFiles [small] reported))) as Hbox.
  { eexists. reflexivity. }
  split; [reflexivity|]. split; [exact Hsize|]. split; [reflexivity|].
  destruct (refused_analysis_keeps_the_report (chooseFiles [small] reported)
              small [] (Response 503 None) (HttpStatus 503)
              eq_refl Hsize eq_refl) as (H1 & _ & _ & _ & _ & H6).
  split; [exact H1 | exact (H6 Hbox)].
Defined.

Lemma ok_is_not_401 (status : nat) :
  response_ok status = true -> (status =? 401)%nat = false.
Proof.
  unfold response_ok. intros [_ H]%andb_prop.
  apply Nat.leb_le in H. apply Nat.eqb_neq. lia.
Qed.

Lemma analysed_on (q : Page) (status : nat) (payload : value) :
  response_ok status = true ->
  after_analyze (Response status (Some payload)) q
  = (setLoadingState false (catch_analysis (show_report payload q)), Done).
Proof.
  intros Hok. unfold after_analyze. by rewrite (ok_is_not_401 _ Hok), Hok.
Qed.

Lemma analysed (p : Page) (f : File) (fs : list File) (status : nat)
    (payload : value) :
  files p = f :: fs -> (file_size f ≤ maxSize)%N ->
  response_ok status = true ->
  (submitted p (Response status (Some payload))).1
  = setLoadingState false
      (catch_analysis
         (show_report payload (hideError (setLoadingState true (hideError p))))).
Proof.
  intros Hf Hsize Hok. rewrite (submitted_sends p f fs _ Hf Hsize).
  by rewrite (analysed_on _ _ _ Hok).
Qed.

(** *** Values that have a string *)

Lemma value_nested_ind (P : value -> Prop) :
  P JUndef -> P JNull -> (∀ b, P (JBool b)) -> (∀ z, P (JNum z)) ->
  (∀ s, P (JStr s)) ->
  (∀ vs, Forall P vs -> P (JArr vs)) ->
  (∀ ps, Forall (fun kv => P kv.2) ps -> P (JObj ps)) ->
  ∀ v, P v.
Proof.
  intros Hu Hn Hb Hz Hs Ha Ho. fix IH 1.
  intros [| |b|z|s|vs|ps];
    [exact Hu | exact Hn | apply Hb | apply Hz | apply Hs | |].
  - apply Ha. revert vs. fix IHvs 1.
    intros [|v vs]; constructor; [apply IH | apply IHvs].
  - apply Ho. revert ps. fix IHps 1.
    intros [|[k v] ps]; constructor; [apply IH | apply IHps].
Qed.

Lemma to_string_arr (vs : list value) :
  to_string (JArr vs) = join_strings "," <$> mapM join_elem vs.
Proof. reflexivity. Qed.

(** A value in which no object hides [toString] has a string. *)
Lemma plain_printable (v : value) : plain v = true -> printable v = true.
Proof.
  unfold printable.
  induction v as [| |b|z|s|vs IH|ps IH] using value_nested_ind; try done.
  - by destruct b.
  - rewrite to_string_arr. intros Hp.
    assert (is_Some (mapM join_elem vs)) as [ss ->]; [|done].
    simpl in Hp. induction IH as [|x vs Hx _ IHvs]; [by eexists|].
    simpl in Hp. apply andb_prop in Hp as [Hpx Hpvs].
    destruct (IHvs Hpvs) as [ss Hss]. simpl. rewrite Hss.
    unfold join_elem. destruct (nullish x); [by eexists|].
    specialize (Hx Hpx). destruct (to_string x); [by eexists | done].
  - simpl. intros [Hk _]%andb_prop. apply negb_true_iff in Hk. by rewrite Hk.
Qed.

Lemma plain_assoc (k : string) (ps : list (string * value)) :
  plain (JObj ps) = true -> plain (assoc k ps) = true.
Proof.
  simpl. intros [_ Hp]%andb_prop.
  induction ps as [|[k' x] ps IH]; [done|].
  apply andb_prop in Hp as [Hx Hps]. simpl.
  destruct (String.eqb k k'); auto.
Qed.

Lemma plain_field (v : value) (k : string) :
  plain v = true -> plain (default JUndef (get v k)) = true.
Proof.
  destruct v; try done. intros Hp. simpl. by apply plain_assoc.
Qed.

Lemma plain_or_else (a b : value) :
  plain a = true -> plain b = true -> plain (or_else a b) = true.
Proof. unfold or_else. by destruct (truthy a). Qed.

Lemma plain_readouts (p : Page) (scores : value) :
  plain scores = true -> forallb printable (readouts p scores) = true.
Proof.
  intros Hs. apply forallb_forall. intros v Hv. apply plain_printable.
  assert (plain (or_else scores (JObj [])) = true) as Hs'.
  { by apply plain_or_else. }
  unfold readouts in Hv. cbv zeta in Hv.
  repeat (apply in_app_or in Hv as [Hv | Hv]).
  - destruct Hv as [<- | [<- | []]];
      (apply plain_or_else; [by apply plain_field | done]).
  - destruct (_ || _); [|done]. destruct Hv as [<- | []].
    apply plain_or_else; [by apply plain_field | done].
  - destruct (_ || _); [|done]. destruct Hv as [<- | []].
    apply plain_or_else; [|done].
    destruct (truthy _); by repeat apply plain_field.
  - destruct (has _ _); [|done]. destruct Hv as [<- | []].
    apply plain_or_else; [|done].
    destruct (truthy _); by repeat apply plain_field.
  - apply filter_In in Hv as [Hv _].
    apply list_elem_of_In, list_elem_of_fmap in Hv as (k & -> & _).
    by apply plain_field.
  - apply list_elem_of_In, list_elem_of_fmap in Hv as (k & -> & _).
    apply plain_or_else; [by apply plain_field | done].
Qed.

Lemma plain_links (p : Page) (payload : value) :
  plain payload = true -> forallb printable (links p payload) = true.
Proof.
  intros Hp. apply forallb_forall. intros v Hv. apply plain_printable.
  unfold links in Hv. cbv zeta in Hv.
  apply in_app_or in Hv as [Hv | Hv];
    (destruct (_ && _); [|done]); destruct Hv as [<- | []];
    by apply plain_field.
Qed.

(** X22. An analysis that is answered with a report takes it over, when
    every value the handler prints has a string (no object of the payload
    has a property named [toString]): in whatever state the page is when
    the answer comes, the payload's [report] becomes the current report,
    each pane that the page has shows the string of the report's
    [bug_report] and [corrected_code], or its placeholder "[no bug report]"
    / "[no corrected code]" where the report has none, the error box is
    left as it is, and the analyze button is enabled. *)
Theorem analysed_report_is_shown (p later : Page) (f : File) (fs : list File)
    (status : nat) (payload report scores : value) :
  files p = f :: fs -> (file_size f ≤ maxSize)%N ->
  response_ok status = true ->
  plain payload = true ->
  truthy (default JUndef (get payload "error")) = false ->
  get payload "report" = Some report ->
  get report "scores" = Some scores -> nullish scores = false ->
  ∃ q bug code,
    deliver (submit p).2 (Response status (Some payload)) later
    = Some (q, Done)
    ∧ to_string (or_else (default JUndef (get report "bug_report"))
                   (JStr "[no bug report]")) = Some bug
    ∧ to_string (or_else (default JUndef (get report "corrected_code"))
                   (JStr "[no corrected code]")) = Some code
    ∧ currentReport q = report
    ∧ bugReportPre q = (fun _ => bug) <$> bugReportPre later
    ∧ correctedCodePre q = (fun _ => code) <$> correctedCodePre later
    ∧ errorMsg q = errorMsg later
    ∧ analyzeBtn_disabled q = false.
Proof.
  intros Hf Hsize Hok Hplain Herr Hrep Hsc Hnn.
  rewrite (submit_delivers p later f fs _ Hf Hsize).
  rewrite (analysed_on later status payload Hok).
  assert (plain report = true) as Hpr.
  { pose proof (plain_field payload "report" Hplain) as H.
    by rewrite Hrep in H. }
  assert (plain scores = true) as Hps.
  { pose proof (plain_field report "scores" Hpr) as H. by rewrite Hsc in H. }
  assert (∀ k ph, printable (or_else (default JUndef (get report k))
                               (JStr ph)) = true) as Hfield.
  { intros k ph. apply plain_printable.
    apply plain_or_else; [by apply plain_field | done]. }
  pose proof (Hfield "bug_report" "[no bug report]") as Hbug.
  pose proof (Hfield "corrected_code" "[no corrected code]") as Hcode.
  unfold printable in Hbug, Hcode.
  destruct (to_string (or_else (default JUndef (get report "bug_report")) _))
    as [bug|] eqn:Ebug; [|done].
  destruct (to_string (or_else (default JUndef (get report "corrected_code")) _))
    as [code|] eqn:Ecode; [|done].
  eexists _, bug, code. split; [reflexivity|].
  split; [done|]. split; [done|].
  unfold show_report.
  destruct (get payload "error") as [e|] eqn:He; [|by destruct payload].
  simpl in Herr. rewrite Herr, Hrep.
  change (default JUndef (Some report)) with report. cbv beta iota zeta.
  rewrite Hsc.
  assert (is_Some (get scores "overall")) as [overall ->].
  { destruct scores; try done; eauto. }
  rewrite (plain_readouts _ scores Hps). cbn [negb].
  unfold pane_text. cbn [bugReportPre correctedCodePre setCurrentReport].
  destruct (bugReportPre later) as [b0|] eqn:Eb;
    destruct (correctedCodePre later) as [c0|] eqn:Ec;
    cbn [bugReportPre correctedCodePre setPanes setCurrentReport];
    rewrite ?Ebug, ?Ecode;
    cbn [fmap option_fmap option_map bugReportPre correctedCodePre setPanes
         setCurrentReport];
    rewrite ?Ecode; cbn [fmap option_fmap option_map];
    rewrite plain_links by done; by split_and!.
Qed.

(** The report of the answer has no bug report: the pane shows the
    placeholder. *)
Lemma analysed_report_is_shown_witness :
  files (chooseFiles [small] served) = [small]
  ∧ (file_size small ≤ maxSize)%N
  ∧ response_ok 200 = true
  ∧ plain full_report = true
  ∧ ∃ q, deliver (submit (chooseFiles [small] served)).2
           (Response 200 (Some full_report)) reported = Some (q, Done)
         ∧ bugReportPre q = Some "[no bug report]"
         ∧ correctedCodePre q = Some "x = 1".
Proof.
  assert (file_size small ≤ maxSize)%N as Hsize by done.
  split; [reflexivity|]. split; [exact Hsize|]. split; [reflexivity|].
  split; [reflexivity|].
  destruct (analysed_report_is_shown (chooseFiles [small] served) reported
              small [] 200 full_report
              (JObj [("scores", JObj [("overall", JNum 90)]);
                     ("corrected_code", JStr "x = 1")])
              (JObj [("overall", JNum 90)])
              eq_refl Hsize eq_refl eq_refl eq_refl eq_refl eq_refl eq_refl)
    as (q & bug & code & Hq & Hbug & Hcode & _ & Hb & Hc & _).
  exists q. split; [exact Hq|].
  injection Hbug as <-. injection Hcode as <-.
  split; [exact Hb | exact Hc].
Defined.

(** A bug report that has no string: the assignment to the first pane
    throws, both panes keep what they showed, and the error box says so;
    the report has been taken over all the same. *)
Example report_without_a_string_is_not_shown :
  bugReportPre (submitted (chooseFiles [small] reported)
                  (Response 200 (Some masked_report))).1
  = Some "Unused variable x"
  ∧ correctedCodePre (submitted (chooseFiles [small] reported)
                        (Response 200 (Some masked_report))).1
    = Some "def f(): pass"
  ∧ errorMsg (submitted (chooseFiles [small] reported)
                (Response 200 (Some masked_report))).1
    = Some (AnalysisFailed EngineError, true)
  ∧ currentReport (submitted (chooseFiles [small] reported)
                     (Response 200 (Some masked_report))).1
    = default JUndef (get masked_report "report").
Proof. by split_and!. Qed.

(** X23. An answer whose report cannot be rendered is taken over half way:
    when the payload's [report] is missing or [null], or has no [scores],
    the current report is replaced by it all the same, while the two panes
    keep the texts of the previous analysis and the error box, where the
    page has one, shows "Analysis failed". *)
Theorem unrenderable_report_is_half_applied (p : Page) (f : File)
    (fs : list File) (status : nat) (payload report : value) :
  files p = f :: fs -> (file_size f ≤ maxSize)%N ->
  response_ok status = true ->
  nullish payload = false ->
  truthy (default JUndef (get payload "error")) = false ->
  get payload "report" = Some report ->
  (nullish report = true
   ∨ ∃ scores, get report "scores" = Some scores ∧ nullish scores = true) ->
  currentReport (submitted p (Response status (Some payload))).1 = report
  ∧ bugReportPre (submitted p (Response status (Some payload))).1
    = bugReportPre p
  ∧ correctedCodePre (submitted p (Response status (Some payload))).1
    = correctedCodePre p
  ∧ (is_Some (errorMsg p) ->
     errorMsg (submitted p (Response status (Some payload))).1
     = Some (AnalysisFailed EngineError, true)).
Proof.
  intros Hf Hsize Hok Hp Herr Hrep Hbad.
  rewrite (analysed p f fs status payload Hf Hsize Hok).
  destruct (pending_frame p) as (_ & Hb & Hcode & _).
  pose proof (pending_box p) as Hbox.
  set (q := hideError (setLoadingState true (hideError p))) in *.
  unfold show_report.
  destruct (get payload "error") as [e|] eqn:He; [|by destruct payload].
  simpl in Herr. rewrite Herr, Hrep.
  change (default JUndef (Some report)) with report. cbv beta iota zeta.
  assert (match get report "scores" with
          | Some scores => get scores "overall"
          | None => None
          end = None) as Hnone.
  { destruct Hbad as [Hn | (scores & -> & Hn)].
    - by destruct report.
    - by destruct scores. }
  destruct (get report "scores") as [scores|];
    [rewrite Hnone|]; cbv beta iota.
  all: unfold catch_analysis, showError; simpl; rewrite Hbox;
    destruct (errorMsg p) as [[m b]|]; simpl; rewrite Hb, Hcode;
    split_and!; done.
Qed.

Lemma unrenderable_report_is_half_applied_witness :
  files (chooseFiles [small] reported) = [small]
  ∧ (file_size small ≤ maxSize)%N
  ∧ response_ok 200 = true
  ∧ currentReport
      (submitted (chooseFiles [small] reported)
         (Response 200
            (Some (JObj [("report", JObj [("bug_report", JStr "new")])])))).1
    = JObj [("bug_report", JStr "new")]
  ∧ bugReportPre
      (submitted (chooseFiles [small] reported)
         (Response 200
            (Some (JObj [("report", JObj [("bug_report", JStr "new")])])))).1
    = Some "Unused variable x".
Proof.
  assert (file_size small ≤ maxSize)%N as Hsize by done.
  split; [reflexivity|]. split; [exact Hsize|]. split; [reflexivity|].
  destruct (unrenderable_report_is_half_applied
              (chooseFiles [small] reported) small [] 200
              (JObj [("report", JObj [("bug_report", JStr "new")])])
              (JObj [("bug_report", JStr "new")])
              eq_refl Hsize eq_refl eq_refl eq_refl eq_refl
              (or_intror (ex_intro _ JUndef (conj eq_refl eq_refl))))
    as (H1 & H2 & _).
  split; [exact H1 | exact H2].
Defined.

(** *** Translation *)

Lemma translated_failed (text : string) (o : FetchOutcome) (q : Page) :
  untranslated o = true ->
  translated text o q
  = (showError (Text "Translation failed. Please try again.") q, JStr text).
Proof.
  unfold translated. destruct o as [|status [data|]]; simpl; [done| |].
  - destruct (response_ok status); simpl; [|done].
    intros Hn. by destruct data.
  - by destruct (response_ok status).
Qed.

Lemma translated_arrived (text : string) (o : FetchOutcome) (q : Page) :
  untranslated o = false ->
  ∃ status data,
    o = Response status (Some data)
    ∧ translated text o q
      = (q, or_else (default JUndef (get data "translated_text"))
              (JStr text)).
Proof.
  unfold translated. destruct o as [|status [data|]]; simpl; [done| |].
  - destruct (response_ok status); simpl; [|done].
    intros Hn. exists status, data. split; [done|].
    by destruct data.
  - by rewrite orb_true_r.
Qed.

Lemma translated_answer (text : string) (status : nat) (data t : value)
    (q : Page) :
  response_ok status = true -> get data "translated_text" = Some t ->
  translated text (Response status (Some data)) q = (q, or_else t (JStr text)).
Proof. intros Hok Ht. unfold translated. by rewrite Hok; simpl; rewrite Ht. Qed.

Lemma translated_frame (text : string) (o : FetchOutcome) (q : Page) :
  bugReportPre (translated text o q).1 = bugReportPre q
  ∧ correctedCodePre (translated text o q).1 = correctedCodePre q
  ∧ translateBtn_disabled (translated text o q).1 = translateBtn_disabled q
  ∧ translateBtn_text (translated text o q).1 = translateBtn_text q.
Proof.
  destruct (untranslated o) eqn:Hu.
  - rewrite (translated_failed _ _ _ Hu). simpl. unfold showError.
    by destruct (errorMsg q).
  - by destruct (translated_arrived text o q Hu) as (? & ? & _ & ->).
Qed.

Lemma click_starts (p : Page) :
  truthy (currentReport p) = true ->
  translate_click p
  = translate_bug (setTranslateBtn true "⏳ Translating..." p).
Proof. intros Hr. unfold translate_click. by rewrite Hr. Qed.

Lemma done_ends (q l : Page) :
  translateBtn_disabled q = translateBtn_disabled l ->
  translation_ends l (translate_done q).
Proof. unfold translation_ends, translate_done. simpl. eauto. Qed.

Lemma caught_is_caught (q : Page) : translation_caught (translate_caught q).
Proof. by split_and!. Qed.

Lemma code_frame (q : Page) :
  bugReportPre (translate_code q).1 = bugReportPre q
  ∧ correctedCodePre (translate_code q).1 = correctedCodePre q
  ∧ errorMsg (translate_code q).1 = errorMsg q.
Proof. unfold translate_code. by destruct (translatable _ _). Qed.

Lemma bug_continues (q l : Page) (b : string) (o : FetchOutcome) :
  translatable (bugReportPre q) "[no bug report]" = Some b ->
  (translate_bug q).1 = q
  ∧ request_of (translate_bug q).2 = [translate_request b]
  ∧ deliver (translate_bug q).2 o l
    = Some (match to_string (translated b o l).2 with
            | Some s =>
                translate_code
                  (setPanes (Some s) (correctedCodePre (translated b o l).1)
                     (translated b o l).1)
            | None => translate_caught (translated b o l).1
            end).
Proof. intros Hb. unfold translate_bug. by rewrite Hb. Qed.

Lemma code_continues (q l : Page) (c : string) (o : FetchOutcome) :
  translatable (correctedCodePre q) "[no corrected code]" = Some c ->
  (translate_code q).1 = q
  ∧ request_of (translate_code q).2 = [translate_request c]
  ∧ deliver (translate_code q).2 o l
    = Some (match to_string (translated c o l).2 with
            | Some s =>
                translate_done
                  (setPanes (bugReportPre (translated c o l).1) (Some s)
                     (translated c o l).1)
            | None => translate_caught (translated c o l).1
            end).
Proof. intros Hc. unfold translate_code. by rewrite Hc. Qed.

(** X24. A click on the translate button of a page with a report sends at
    once the text of the bug pane, if that pane exists, is not empty and
    does not show its placeholder, and otherwise the text of the code
    pane, under the same conditions.  When the request for the bug pane
    settles, in whatever state the page is by then, the handler reads the
    code pane as it is at that moment and sends its text, under the same
    conditions: it does so when the translation did not arrive, and
    whenever what [translateToUrdu] returned has a string.  When it has
    none, the assignment to the pane throws: no second request is sent,
    the pane is left alone and the button is restored at once. *)
Theorem translate_sends_the_filled_panes (p later : Page) (o : FetchOutcome) :
  truthy (currentReport p) = true ->
  request_of (translate_click p).2
  = translate_request
    <$> option_list
          (match translatable (bugReportPre p) "[no bug report]" with
           | Some b => Some b
           | None => translatable (correctedCodePre p) "[no corrected code]"
           end)
  ∧ ∀ b, translatable (bugReportPre p) "[no bug report]" = Some b ->
      ∃ r, deliver (translate_click p).2 o later = Some r
           ∧ (untranslated o = true ->
              printable (translated b o later).2 = true)
           ∧ (printable (translated b o later).2 = true ->
              request_of r.2
              = translate_request
                <$> option_list
                      (translatable (correctedCodePre later)
                         "[no corrected code]"))
           ∧ (printable (translated b o later).2 = false ->
              request_of r.2 = []
              ∧ bugReportPre r.1 = bugReportPre later
              ∧ translation_caught r).
Proof.
  intros Hr. rewrite (click_starts _ Hr).
  set (q := setTranslateBtn true "⏳ Translating..." p).
  change (bugReportPre p) with (bugReportPre q).
  change (correctedCodePre p) with (correctedCodePre q).
  split.
  - unfold translate_bug.
    destruct (translatable (bugReportPre q) _) as [b|]; [done|].
    unfold translate_code.
    by destruct (translatable (correctedCodePre q) _).
  - intros b Hb.
    destruct (bug_continues q later b o Hb) as (_ & _ & ->).
    eexists. split; [reflexivity|].
    destruct (translated_frame b o later) as (Hbug & Hcode & _).
    unfold printable. split_and!.
    + intros Hu. by rewrite (translated_failed _ _ _ Hu).
    + destruct (to_string _) as [s|]; [|done]. intros _.
      unfold translate_code. cbn [correctedCodePre setPanes]. rewrite Hcode.
      by destruct (translatable (correctedCodePre later) _).
    + destruct (to_string _) as [s|]; [done|]. intros _.
      split; [done|]. split; [exact Hbug | apply caught_is_caught].
Qed.

(** After an analysis both panes are filled; the first translation does
    not arrive, and the code pane is sent all the same. *)
Lemma translate_sends_the_filled_panes_witness :
  truthy (currentReport reported) = true
  ∧ request_of (translate_click reported).2
    = [translate_request "Unused variable x"]
  ∧ ∃ r, deliver (translate_click reported).2 NetworkError reported = Some r
         ∧ request_of r.2 = [translate_request "def f(): pass"].
Proof.
  split; [reflexivity|].
  destruct (translate_sends_the_filled_panes reported reported NetworkError
              eq_refl) as (H1 & H2).
  split; [exact H1|].
  destruct (H2 "Unused variable x" eq_refl) as (r & Hr & Hfail & Hnext & _).
  exists r. split; [exact Hr | exact (Hnext (Hfail eq_refl))].
Defined.

(** A translation that has no string stops the handler: the pane keeps
    its text, the code pane is not sent, the button is enabled again. *)
Example translation_without_a_string_stops_the_click :
  ∃ r, deliver (translate_click reported).2
         (Response 200 (Some masked_urdu)) reported = Some r
       ∧ r.2 = Done
       ∧ bugReportPre r.1 = Some "Unused variable x"
       ∧ translateBtn_disabled r.1 = false.
Proof. eexists. by split_and!. Qed.

Lemma fares (text : string) (o : FetchOutcome) (l : Page)
    (next : Page -> Page * Task Page) (before : option string)
    (pane : Page -> option string) (write : string -> Page -> Page) :
  (∀ s q, pane (next (write s q)).1 = Some s) ->
  (∀ s q, errorMsg (next (write s q)).1 = errorMsg q) ->
  (∀ q, pane (translate_caught q).1 = pane q) ->
  pane (translated text o l).1 = before ->
  pane_fares text o l
    (match to_string (translated text o l).2 with
     | Some s => next (write s (translated text o l).1)
     | None => translate_caught (translated text o l).1
     end)
    before
    (pane (match to_string (translated text o l).2 with
           | Some s => next (write s (translated text o l).1)
           | None => translate_caught (translated text o l).1
           end).1).
Proof.
  intros Hpane Hbox Hcaught Hbefore. split.
  - intros Hu. rewrite (translated_failed _ _ _ Hu). cbn [snd fst to_string].
    split; [apply Hpane|]. intros [box Hl]. rewrite Hbox.
    unfold showError. by rewrite Hl.
  - intros status data t -> Hok Ht.
    rewrite (translated_answer text status data t l Hok Ht) in *.
    cbn [fst snd] in *. unfold or_else.
    destruct (truthy t) eqn:Htruthy.
    + destruct (to_string t) as [s|] eqn:Hs.
      * rewrite Hbox, Hpane. split_and!; try done; by intros _ _ s' [= ->].
      * split_and!; try done; intros _ _;
          (split; [by rewrite Hcaught | apply caught_is_caught]).
    + cbn [to_string]. rewrite Hbox, Hpane. by split_and!.
Qed.

(** X25. Each pane fares by its own request, whatever state the page is in
    when the request settles.  A translation that does not arrive puts the
    text that was sent back into the pane and shows "Translation failed.
    Please try again." where the page has an error box; so does, without
    the error, an answer whose [translated_text] is missing or falsy.  One
    that arrives with a [translated_text] that has a string puts that
    string into the pane.  One whose [translated_text] has no string
    leaves the pane as the page has it and ends the handler in its
    [catch].  The other pane is not touched. *)
Theorem panes_after_translation (o : FetchOutcome) (l : Page) :
  (∀ p b,
     truthy (currentReport p) = true ->
     translatable (bugReportPre p) "[no bug report]" = Some b ->
     ∃ r, deliver (translate_click p).2 o l = Some r
          ∧ pane_fares b o l r (bugReportPre l) (bugReportPre r.1)
          ∧ correctedCodePre r.1 = correctedCodePre l)
  ∧ (∀ q c,
       translatable (correctedCodePre q) "[no corrected code]" = Some c ->
       ∃ r, deliver (translate_code q).2 o l = Some r
            ∧ pane_fares c o l r (correctedCodePre l) (correctedCodePre r.1)
            ∧ bugReportPre r.1 = bugReportPre l).
Proof.
  split.
  - intros p b Hr Hb. rewrite (click_starts _ Hr).
    assert (translatable
              (bugReportPre (setTranslateBtn true "⏳ Translating..." p))
              "[no bug report]" = Some b) as Hb' by done.
    destruct (bug_continues _ l b o Hb') as (_ & _ & ->).
    eexists. split; [reflexivity|].
    destruct (translated_frame b o l) as (Hbug & Hcode & _).
    split.
    + apply (fares b o l translate_code (bugReportPre l) bugReportPre
               (fun s q => setPanes (Some s) (correctedCodePre q) q)).
      * intros s q. by destruct (code_frame
          (setPanes (Some s) (correctedCodePre q) q)) as (-> & _).
      * intros s q. by destruct (code_frame
          (setPanes (Some s) (correctedCodePre q) q)) as (_ & _ & ->).
      * done.
      * exact Hbug.
    + destruct (to_string _) as [s|]; [|exact Hcode].
      destruct (code_frame
                  (setPanes (Some s) (correctedCodePre (translated b o l).1)
                     (translated b o l).1)) as (_ & -> & _).
      exact Hcode.
  - intros q c Hc.
    destruct (code_continues q l c o Hc) as (_ & _ & ->).
    eexists. split; [reflexivity|].
    destruct (translated_frame c o l) as (Hbug & Hcode & _).
    split.
    + apply (fares c o l translate_done (correctedCodePre l) correctedCodePre
               (fun s q => setPanes (bugReportPre q) (Some s) q)); done.
    + by destruct (to_string _) as [s|].
Qed.

(** The bug report is translated. *)
Example bug_report_is_translated :
  ∃ r, deliver (translate_click reported).2 (Response 200 (Some urdu))
         reported = Some r
       ∧ bugReportPre r.1 = Some "ترجمہ"
       ∧ correctedCodePre r.1 = Some "def f(): pass"
       ∧ request_of r.2 = [translate_request "def f(): pass"].
Proof. eexists. by split_and!. Qed.

(** X26. The translate button from the click to the end of the handler.
    The click on a page with a report disables the button, and it reads
    "Translating..." while a request of the click is out.  Nothing the
    handler does before its end enables it or changes its text.  When the
    [try] block ends, after the last request has settled or at once when
    no pane is to be translated, the button reads "Translated!" and is
    still not enabled: that is left to a timer of 2000 ms, which restores
    text and button on whatever page it finds.  When a translation has no
    string, the [catch] restores both at once. *)
Theorem translate_button_follows_the_requests (p : Page) :
  truthy (currentReport p) = true ->
  translateBtn_disabled (translate_click p).1 = true
  ∧ (request_of (translate_click p).2 ≠ [] ->
     translateBtn_text (translate_click p).1 = "⏳ Translating...")
  ∧ (request_of (translate_click p).2 = [] ->
     translation_ends (setTranslateBtn true "⏳ Translating..." p)
       (translate_click p))
  ∧ (∀ b o l,
       translatable (bugReportPre p) "[no bug report]" = Some b ->
       ∃ r, deliver (translate_click p).2 o l = Some r
            ∧ (printable (translated b o l).2 = false -> translation_caught r)
            ∧ (printable (translated b o l).2 = true ->
               translatable (correctedCodePre l) "[no corrected code]" = None ->
               translation_ends l r)
            ∧ (printable (translated b o l).2 = true ->
               is_Some (translatable (correctedCodePre l)
                          "[no corrected code]") ->
               request_of r.2 ≠ []
               ∧ translateBtn_disabled r.1 = translateBtn_disabled l
               ∧ translateBtn_text r.1 = translateBtn_text l))
  ∧ (∀ q c o l,
       translatable (correctedCodePre q) "[no corrected code]" = Some c ->
       ∃ r, deliver (translate_code q).2 o l = Some r
            ∧ (printable (translated c o l).2 = false -> translation_caught r)
            ∧ (printable (translated c o l).2 = true -> translation_ends l r)).
Proof.
  intros Hr. rewrite (click_starts _ Hr).
  set (q0 := setTranslateBtn true "⏳ Translating..." p).
  change (bugReportPre p) with (bugReportPre q0).
  split_and!.
  - unfold translate_bug, translate_code.
    by destruct (translatable (bugReportPre q0) "[no bug report]"),
                (translatable (correctedCodePre q0) "[no corrected code]").
  - unfold translate_bug, translate_code.
    by destruct (translatable (bugReportPre q0) "[no bug report]"),
                (translatable (correctedCodePre q0) "[no corrected code]").
  - unfold translate_bug, translate_code.
    destruct (translatable (bugReportPre q0) "[no bug report]"); [done|].
    destruct (translatable (correctedCodePre q0) "[no corrected code]");
      [done|].
    intros _. by apply done_ends.
  - intros b o l Hb.
    destruct (bug_continues q0 l b o Hb) as (_ & _ & ->).
    eexists. split; [reflexivity|].
    destruct (translated_frame b o l) as (_ & Hcode & Hdis & Htext).
    unfold printable.
    destruct (to_string _) as [s|].
    + split_and!.
      * done.
      * intros _ Hnone. unfold translate_code.
        cbn [correctedCodePre setPanes]. rewrite Hcode, Hnone.
        by apply done_ends.
      * intros _ [c Hc]. unfold translate_code.
        cbn [correctedCodePre setPanes]. rewrite Hcode, Hc.
        by split_and!.
    + split_and!; [intros _; apply caught_is_caught | done | done].
  - intros q c o l Hc.
    destruct (code_continues q l c o Hc) as (_ & _ & ->).
    eexists. split; [reflexivity|].
    destruct (translated_frame c o l) as (_ & _ & Hdis & Htext).
    unfold printable.
    destruct (to_string _) as [s|].
    + split; [done|]. intros _. by apply done_ends.
    + split; [|done]. intros _. apply caught_is_caught.
Qed.

Lemma translate_button_follows_the_requests_witness :
  truthy (currentReport reported) = true
  ∧ translateBtn_disabled (translate_click reported).1 = true
  ∧ translateBtn_text (translate_click reported).1 = "⏳ Translating...".
Proof.
  assert (request_of (translate_click reported).2 ≠ []) as Hout
    by discriminate.
  split; [reflexivity|].
  destruct (translate_button_follows_the_requests reported eq_refl)
    as (H1 & H2 & _).
  split; [exact H1 | exact (H2 Hout)].
Defined.

(** The two translations of [reported] have arrived: the button reads
    "Translated!" and is still disabled; the timer enables it. *)
Example button_waits_for_the_timer :
  ∃ r1 r2 r3,
    deliver (translate_click reported).2 (Response 200 (Some urdu))
      (translate_click reported).1 = Some r1
    ∧ deliver r1.2 (Response 200 (Some urdu)) r1.1 = Some r2
    ∧ translateBtn_text r2.1 = "✅ Translated!"
    ∧ translateBtn_disabled r2.1 = true
    ∧ elapse r2.2 r2.1 = Some r3
    ∧ translateBtn_text r3.1 = "🌐 Translate to Urdu"
    ∧ translateBtn_disabled r3.1 = false
    ∧ r3.2 = Done.
Proof. eexists _, _, _. by split_and!. Qed.

(** X27. Right after a reset neither button sends anything: the report is
    forgotten, so a click on the translate button sends no request, and the
    file input is empty, so a submission sends none either; the analyze
    button is enabled, the error box hidden, and the two panes keep their
    texts.  The reset does not reach an analysis that is out: when its
    answer comes after the reset and carries a report, that report is the
    current report again, although no file is chosen, and where it is
    truthy a click on the translate button sends the panes again. *)
Theorem reset_forgets_the_report (p0 p : Page) (f : File) (fs : list File)
    (env : list FetchOutcome) :
  files p0 = f :: fs -> (file_size f ≤ maxSize)%N ->
  (translation (reset p) env).2 = []
  ∧ (settle (submit (reset p)).2 env (submit (reset p)).1).2 = []
  ∧ analyzeBtn_disabled (reset p) = false
  ∧ errorMsg (reset p) = hidden (errorMsg p)
  ∧ bugReportPre (reset p) = bugReportPre p
  ∧ correctedCodePre (reset p) = correctedCodePre p
  ∧ ∀ status payload report,
      response_ok status = true ->
      truthy (default JUndef (get payload "error")) = false ->
      get payload "report" = Some report ->
      ∃ q, deliver (submit p0).2 (Response status (Some payload)) (reset p)
           = Some (q, Done)
           ∧ currentReport q = report
           ∧ files q = []
           ∧ (truthy report = true ->
              request_of (translate_click q).2
              = translate_request
                <$> option_list
                      (match translatable (bugReportPre q)
                               "[no bug report]" with
                       | Some b => Some b
                       | None =>
                           translatable (correctedCodePre q)
                             "[no corrected code]"
                       end)).
Proof.
  intros Hf Hsize.
  assert (files (hideError (reset p)) = []) as Hfiles.
  { unfold reset, hideError. simpl.
    destruct (errorMsg p) as [[m b]|] eqn:E; simpl; by rewrite ?E. }
  assert (files (reset p) = []) as Hfiles'.
  { unfold reset, hideError. simpl.
    destruct (errorMsg p) as [[m b]|] eqn:E; simpl; by rewrite ?E. }
  split_and!.
  - done.
  - unfold submit. by rewrite Hfiles.
  - done.
  - unfold reset, hideError. simpl.
    destruct (errorMsg p) as [[m b]|] eqn:E; simpl; by rewrite ?E.
  - unfold reset, hideError. simpl.
    by destruct (errorMsg p) as [[m b]|] eqn:E.
  - unfold reset, hideError. simpl.
    by destruct (errorMsg p) as [[m b]|] eqn:E.
  - intros status payload report Hok Herr Hrep.
    rewrite (submit_delivers p0 (reset p) f fs _ Hf Hsize).
    rewrite (analysed_on (reset p) status payload Hok).
    eexists. split; [reflexivity|].
    assert (∃ c, show_report payload (reset p) = c
                 ∧ currentReport c.1 = report ∧ files c.1 = []) as (c & -> & Hc).
    { eexists. split; [reflexivity|]. unfold show_report.
      destruct (get payload "error") as [e|] eqn:He; [|by destruct payload].
      simpl in Herr. rewrite Herr, Hrep.
      change (default JUndef (Some report)) with report. cbv beta iota zeta.
      repeat case_match; by rewrite <- Hfiles'. }
    destruct Hc as [Hcur Hno].
    assert (currentReport
              (setLoadingState false (catch_analysis c)) = report
            ∧ files (setLoadingState false (catch_analysis c)) = [])
      as [Hcur' Hno'].
    { unfold catch_analysis, showError. destruct c as [c1 [cause|]]; simpl in *.
      - by destruct (errorMsg c1).
      - done. }
    split; [exact Hcur'|]. split; [exact Hno'|].
    intros Htruthy.
    assert (truthy (currentReport
                      (setLoadingState false (catch_analysis c))) = true)
      as Hq by (by rewrite Hcur').
    set (q := setLoadingState false (catch_analysis c)) in *.
    rewrite (click_starts _ Hq).
    set (q1 := setTranslateBtn true "⏳ Translating..." q).
    change (bugReportPre q) with (bugReportPre q1).
    change (correctedCodePre q) with (correctedCodePre q1).
    unfold translate_bug.
    destruct (translatable (bugReportPre q1) "[no bug report]") as [b|];
      [done|].
    unfold translate_code.
    by destruct (translatable (correctedCodePre q1) "[no corrected code]").
Qed.

(** An analysis of [small] is out when the page is reset; its answer
    brings the report back. *)
Lemma reset_forgets_the_report_witness :
  files (chooseFiles [small] served) = [small]
  ∧ (file_size small ≤ maxSize)%N
  ∧ (translation (reset reported) [Response 200 (Some urdu)]).2 = []
  ∧ ∃ q, deliver (submit (chooseFiles [small] served)).2
           (Response 200 (Some full_report))
           (reset (submit (chooseFiles [small] served)).1) = Some (q, Done)
         ∧ currentReport q = default JUndef (get full_report "report")
         ∧ files q = [].
Proof.
  assert (file_size small ≤ maxSize)%N as Hsize by done.
  split; [reflexivity|]. split; [exact Hsize|].
  destruct (reset_forgets_the_report (chooseFiles [small] served) reported
              small [] [Response 200 (Some urdu)] eq_refl Hsize)
    as (H1 & _).
  split; [exact H1|].
  destruct (reset_forgets_the_report (chooseFiles [small] served)
              (submit (chooseFiles [small] served)).1
              small [] [] eq_refl Hsize)
    as (_ & _ & _ & _ & _ & _ & Hlate).
  destruct (Hlate 200 full_report (default JUndef (get full_report "report"))
              eq_refl eq_refl eq_refl) as (q & Hq & Hcur & Hno & _).
  exists q. split; [exact Hq|]. split; [exact Hcur | exact Hno].
Defined.

End LegacyBehaviour.
